(** * OpenMapping2JSON: the mapping-specification compiler, embedded in Rocq

    A shallow embedding of [com/openmapping/utils/functions.py],
    [com/openmapping/utils/file_utils.py], [com/openmapping/core/maps.py],
    [com/openmapping/core/functions.py] and [main.py].

    - A Python [str] is a list of Unicode code points.
    - The cells of a data frame are an inductive type of scalar values; the
      dictionaries and lists the code builds, loads and writes are JSON-shaped
      Python objects.
    - Exceptions are an explicit error monad; [try]/[except] is a match on it.
    - A [dict] is an insertion-ordered association list.
    - The calls that leave the program (pandas' reader and sort, the JSON
      decoder, the key vault, the SQL catalogue, the file system) are a
      record of functions, which the definitions that use them take as their
      first argument.

    Part I holds the program, Part II its properties, Part III further
    properties: of [cleanse_column_list], of validation, of the files a run
    writes, and of the columns and types of the generated artifacts. *)

From Stdlib Require Import String Ascii NArith ZArith QArith DecimalString.
From Stdlib Require Import Bool Lia List.
Import ListNotations.
Close Scope Q_scope.

Set Implicit Arguments.

(** * Part I: the program *)

(** ** Python strings *)

Module PyStr.

(** A Python [str] is a sequence of code points. *)
Definition char := N.
Definition str := list char.

(** ASCII literals of the source, as code-point lists. *)
Definition u (s : string) : str := map N_of_ascii (list_ascii_of_string s).

Definition str_eq_dec : forall a b : str, {a = b} + {a <> b} :=
  list_eq_dec N.eq_dec.

Definition eqb (a b : str) : bool := if str_eq_dec a b then true else false.

(** [x in l] for a list or a set of strings. *)
Definition mem (x : str) (l : list str) : bool := existsb (eqb x) l.

(** The characters [str.strip()] removes: those with [str.isspace()]. *)
Definition is_space (c : char) : bool :=
  ((9 <=? c) && (c <=? 13) || (28 <=? c) && (c <=? 32)
   || (c =? 133) || (c =? 160) || (c =? 5760)
   || (8192 <=? c) && (c <=? 8202)
   || (c =? 8232) || (c =? 8233) || (c =? 8239) || (c =? 8287)
   || (c =? 12288))%N.

Fixpoint lstrip (s : str) : str :=
  match s with
  | [] => []
  | c :: t => if is_space c then lstrip t else s
  end.

Definition rstrip (s : str) : str := rev (lstrip (rev s)).

(** [s.strip()] *)
Definition strip (s : str) : str := rstrip (lstrip s).

(** [s.replace(c, '')] for a one-character [c]. *)
Definition remove_char (c : char) (s : str) : str :=
  filter (fun d => negb (d =? c)%N) s.

(** [s.lower()] on the ASCII letters.  The other code points are left as
    they are; Python maps none of them to a letter of the six affirmative
    words of [generate_mapping_config], so membership in that set is the
    same. *)
Definition lower_char (c : char) : char :=
  if ((65 <=? c) && (c <=? 90))%N then (c + 32)%N else c.

Definition lower (s : str) : str := map lower_char s.

End PyStr.
Import PyStr.

(** ** Python values *)

(** The cells of a data frame and the entries of a column list: a [str],
    [None], the float [nan] pandas uses for a missing cell, a finite float,
    or an int. *)
Inductive value : Type :=
| VStr (s : str)
| VNone
| VNaN
| VFloat (q : Q)
| VInt (z : Z).

Definition is_str (v : value) : bool :=
  match v with VStr _ => true | _ => false end.

(** [isinstance(v, float)] *)
Definition is_float (v : value) : bool :=
  match v with VNaN | VFloat _ => true | _ => false end.

(** [v is None] *)
Definition is_None (v : value) : bool :=
  match v with VNone => true | _ => false end.

(** [pd.isna(v)]; also the cells [notnull()] rejects and [dropna()] drops. *)
Definition isna (v : value) : bool :=
  match v with VNone | VNaN => true | _ => false end.

(** [v == s] for a string [s]: only an equal string is equal to it. *)
Definition eq_str (v : value) (s : str) : bool :=
  match v with VStr t => eqb t s | _ => false end.

Definition Q_eq_dec (a b : Q) : {a = b} + {a <> b}.
Proof. decide equality; [apply Pos.eq_dec | apply Z.eq_dec]. Defined.

Definition value_eq_dec (a b : value) : {a = b} + {a <> b}.
Proof.
  decide equality; [apply str_eq_dec | apply Q_eq_dec | apply Z.eq_dec].
Defined.

Definition value_eqb (a b : value) : bool :=
  if value_eq_dec a b then true else false.

(** The objects [json.load] and [json.loads] return and [json.dump] writes:
    the dictionaries and lists of the configuration artifacts. *)
#[local] Set Warnings "-register-all".
Inductive json : Type :=
| JNull
| JBool (b : bool)
| JInt (z : Z)
| JFloat (q : Q)
| JString (s : str)
| JArray (items : list json)
| JObject (members : list (str * json)).

(** ** Exceptions *)

(** The messages of the errors the code raises, with what they report. *)
Inductive message : Type :=
| InvalidTargetDataAreaOptions (target_data_area : str) (valid : list str)
| InvalidTargetDataArea (target_data_area : str)
| MissingRequiredColumns (mapping_file : str) (missing_columns : list str)
| InvalidSourceColumns (mapping_file : str) (invalid_columns : list str)
| InputFileEmpty
| UnsupportedFileFormat
| InputFileDoesNotExist (input_file : str)
| MappingFileEmpty (input_file : str)
| SourceSchemaDictEmpty
| DataAreaNotFound (target_data_area : str)
| AuditColumnsNotAList
| MappingConfigEmpty (target_table_name : str)
| MappingHasNoColumns (target_table_name : str)
| Wrapped (context : string) (inner : exn)
with exn : Type :=
| ValueError (m : message)
| Exception_ (m : message)
| FileNotFoundError (m : message)
| OSError_ (m : message)
| NameError (name : string)
| AttributeError
| TypeError
| KeyError
| IndexError
| External (what : string).

Inductive result (A : Type) : Type :=
| Ok (a : A)
| Raise (e : exn).
Arguments Ok {A} a.
Arguments Raise {A} e.

Definition bind {A B} (c : result A) (f : A -> result B) : result B :=
  match c with
  | Ok a => f a
  | Raise e => Raise e
  end.

Declare Scope py_scope.
Delimit Scope py_scope with py.
Notation "x <- c ;; k" := (bind c (fun x => k))
  (at level 61, c at next level, right associativity) : py_scope.
Notation "c ;;; k" := (bind c (fun _ => k))
  (at level 61, right associativity) : py_scope.
Open Scope py_scope.

(** [try: c except Exception as e: raise ValueError(f"<context>: {e}")] *)
Definition reraise {A} (context : string) (c : result A) : result A :=
  match c with
  | Ok a => Ok a
  | Raise e => Raise (ValueError (Wrapped context e))
  end.

(** A list comprehension whose element expression can raise. *)
Fixpoint mapM {A B} (f : A -> result B) (l : list A) : result (list B) :=
  match l with
  | [] => Ok []
  | x :: t => y <- f x ;; r <- mapM f t ;; Ok (y :: r)
  end.

(** A list comprehension whose condition can raise. *)
Fixpoint filterM {A} (p : A -> result bool) (l : list A) : result (list A) :=
  match l with
  | [] => Ok []
  | x :: t => b <- p x ;; r <- filterM p t ;; Ok (if b then x :: r else r)
  end.

(** A [for] loop that updates an accumulator and can raise. *)
Fixpoint foldM {A B} (f : B -> A -> result B) (l : list A) (acc : B)
  : result B :=
  match l with
  | [] => Ok acc
  | x :: t => acc' <- f acc x ;; foldM f t acc'
  end.

(** [l[0]] *)
Definition first {A} (l : list A) : result A :=
  match l with
  | [] => Raise IndexError
  | x :: _ => Ok x
  end.

(** ** Dictionaries *)

Module Dict.

(** A [dict] with [str] keys, in insertion order. *)
Definition dict (V : Type) := list (str * V).

(** [d.get(k)] *)
Fixpoint get {V} (k : str) (d : dict V) : option V :=
  match d with
  | [] => None
  | (k', v) :: t => if eqb k k' then Some v else get k t
  end.

(** [d[k] = v]: a key already there keeps its place. *)
Fixpoint set {V} (k : str) (v : V) (d : dict V) : dict V :=
  match d with
  | [] => [(k, v)]
  | (k', v') :: t => if eqb k k' then (k', v) :: t else (k', v') :: set k v t
  end.

(** A dictionary display [{k1: v1, k2: v2, ...}]: the items are stored from
    left to right, so a key written twice keeps its last value. *)
Definition literal {V} (items : list (str * V)) : dict V :=
  fold_left (fun d kv => set (fst kv) (snd kv) d) items [].

(** [list(d.keys())] *)
Definition keys {V} (d : dict V) : list str := map fst d.

(** [k in d] *)
Definition has {V} (k : str) (d : dict V) : bool := mem k (keys d).

(** [d[k]] *)
Definition getitem {V} (d : dict V) (k : str) : result V :=
  match get k d with
  | Some v => Ok v
  | None => Raise KeyError
  end.

(** [d[v]] for a cell [v]: the keys are strings, so only a string is found. *)
Definition getitem_value {V} (d : dict V) (v : value) : result V :=
  match v with
  | VStr k => getitem d k
  | _ => Raise KeyError
  end.

(** [{k: f(k) for k in ks}] *)
Definition comprehension {V} (f : str -> result V) (ks : list str)
  : result (dict V) :=
  foldM (fun d k => v <- f k ;; Ok (set k v d)) ks [].

End Dict.
Import Dict.

(** ** Operations on JSON-shaped objects *)

(** [o[k]] for a string [k] *)
Definition json_getitem (o : json) (k : str) : result json :=
  match o with
  | JObject m => getitem m k
  | _ => Raise TypeError
  end.

(** [o.get(k, default)] *)
Definition json_get (o : json) (k : str) (default : json) : result json :=
  match o with
  | JObject m => Ok (match get k m with Some v => v | None => default end)
  | _ => Raise AttributeError
  end.

(** [o[k] = v] *)
Definition json_setitem (o : json) (k : str) (v : json) : result json :=
  match o with
  | JObject m => Ok (JObject (set k v m))
  | _ => Raise TypeError
  end.

(** [for x in o] *)
Definition json_iter (o : json) : result (list json) :=
  match o with
  | JArray l => Ok l
  | JObject m => Ok (map JString (keys m))
  | JString s => Ok (map (fun c => JString [c]) s)
  | _ => Raise TypeError
  end.

(** [not o] *)
Definition json_falsy (o : json) : bool :=
  match o with
  | JNull => true
  | JBool b => negb b
  | JInt z => (z =? 0)%Z
  | JFloat q => (Qnum q =? 0)%Z
  | JString s => match s with [] => true | _ => false end
  | JArray l => match l with [] => true | _ => false end
  | JObject m => match m with [] => true | _ => false end
  end.

(** [o == s] for a string [s] *)
Definition json_eq_str (o : json) (s : str) : bool :=
  match o with JString t => eqb t s | _ => false end.

(** ** utils/functions.py: [cleanse_column_list] *)

Module Cleanse.

(** [col.replace(U+00A0, '').replace(U+200B, '').replace(U+2000, '')
    .replace(U+180E, '')] on a string. *)
Definition remove_invisible (s : str) : str :=
  remove_char 6158%N
    (remove_char 8192%N (remove_char 8203%N (remove_char 160%N s))).

(** The characters that expression removes. *)
Definition is_invisible (c : char) : bool :=
  ((c =? 160) || (c =? 8203) || (c =? 8192) || (c =? 6158))%N.

(** The condition of the second comprehension,
    [not (isinstance(col, float) and math.isnan(col))].  The module imports
    [logging] only, so the name [math] is unbound: [and] evaluates its right
    operand exactly when [col] is a float, and that raises [NameError]. *)
Definition not_float_nan (col : value) : result bool :=
  if is_float col then Raise (NameError "math") else Ok true.

(** The element expression of the third comprehension: only a [str] has
    [.replace]. *)
Definition replace_invisible (col : value) : result str :=
  match col with
  | VStr s => Ok (remove_invisible s)
  | _ => Raise AttributeError
  end.

(** [seen = set(); [x for x in l if not (x in seen or seen.add(x))]] *)
Fixpoint dedupe_from (seen : list str) (l : list str) : list str :=
  match l with
  | [] => []
  | x :: t =>
      if mem x seen then dedupe_from seen t
      else x :: dedupe_from (x :: seen) t
  end.

Definition dedupe (l : list str) : list str := dedupe_from [] l.

(** The body of the [try] block, one binding per statement of the source. *)
Definition cleanse_steps (column_list : list value) : result (list str) :=
  (* Remove empty strings *)
  let l1 := filter (fun col => negb (eq_str col [])) column_list in
  (* Remove nan values *)
  l2 <- filterM not_float_nan l1 ;;
  (* Remove non-breaking spaces *)
  l3 <- mapM replace_invisible l2 ;;
  (* Remove None: every entry is a [str] by now *)
  let l4 := filter (fun col => negb (is_None (VStr col))) l3 in
  (* Strip whitespace *)
  let l5 := map strip l4 in
  (* Deduplicate, preserving order *)
  Ok (dedupe l5).

(** [except Exception: cleansed_column_list = []] *)
Definition cleanse_column_list (column_list : list value) : list str :=
  match cleanse_steps column_list with
  | Ok cleansed_column_list => cleansed_column_list
  | Raise _ => []
  end.

End Cleanse.
Import Cleanse.

(** ** core/maps.py *)

Module Maps.

Definition PANDAS_DATATYPE_MAP : dict str :=
  literal
    [ (u "smallint", u "integer");
      (u "decimal", u "double");
      (u "varchar", u "string");
      (u "datetime", u "timestamp");
      (u "int", u "integer");
      (u "integer", u "integer");
      (u "bigint", u "long");
      (u "uniqueidentifier", u "string");
      (u "date", u "timestamp");
      (u "long", u "long");
      (u "double", u "double");
      (u "timestamp", u "timestamp") ].

Definition TARGET_SOURCE_AREA_MAP : dict str :=
  literal
    [ (u "bronze", u "landing-zone");
      (u "silver", u "bronze");
      (u "gold", u "silver") ].

(** The display writes the key ['bronze'] twice. *)
Definition MAP_FILE_REQUIRED_COLUMNS_MAP : dict (list str) :=
  literal
    [ (u "landing-zone",
        [u "Source Table Name"; u "Source Column Name";
         u "Target Table Name"; u "Target Column Name"]);
      (u "bronze",
        [u "Source Table Name"; u "Source Column Name";
         u "Target Table Name"; u "Target Column Name";
         u "Order By"; u "Partition By"]);
      (u "bronze",
        [u "Source Table Name"; u "Source Column Name";
         u "Target Table Name"; u "Target Column Name";
         u "Order By"; u "Partition By"; u "Is Business Key"; u "Data Type";
         u "Default Value"; u "Transformation Function"]) ].

(** [PANDAS_DATATYPE_MAP.get(k, 'string')] for a cell [k] *)
Definition datatype_of_value (k : value) : str :=
  match k with
  | VStr s =>
      match get s PANDAS_DATATYPE_MAP with
      | Some t => t
      | None => u "string"
      end
  | _ => u "string"
  end.

(** [PANDAS_DATATYPE_MAP.get(k, 'string')] for a field [k] of a loaded
    schema: a list or a dictionary is not hashable. *)
Definition datatype_of_json (k : json) : result str :=
  match k with
  | JString s =>
      Ok (match get s PANDAS_DATATYPE_MAP with
          | Some t => t
          | None => u "string"
          end)
  | JArray _ | JObject _ => Raise TypeError
  | _ => Ok (u "string")
  end.

End Maps.
Import Maps.

(** ** The mapping file as a data frame *)

Module Frame.

(** The columns of the mapping file the code reads. *)
Inductive Column : Type :=
| SourceTableName
| SourceColumnName
| TargetTableName
| TargetColumnName
| OrderBy
| PartitionBy
| IsBusinessKey
| DataType
| DefaultValue
| TransformationFunction.

(** The header of each. *)
Definition header (c : Column) : str :=
  match c with
  | SourceTableName => u "Source Table Name"
  | SourceColumnName => u "Source Column Name"
  | TargetTableName => u "Target Table Name"
  | TargetColumnName => u "Target Column Name"
  | OrderBy => u "Order By"
  | PartitionBy => u "Partition By"
  | IsBusinessKey => u "Is Business Key"
  | DataType => u "Data Type"
  | DefaultValue => u "Default Value"
  | TransformationFunction => u "Transformation Function"
  end.

(** One row of the mapping file.  A field whose header the file does not
    have is never read: reading it raises [KeyError]. *)
Record MappingRow : Type := {
  Source_Table_Name : value;
  Source_Column_Name : value;
  Target_Table_Name : value;
  Target_Column_Name : value;
  Order_By : value;
  Partition_By : value;
  Is_Business_Key : value;
  Data_Type : value;
  Default_Value : value;
  Transformation_Function : value
}.

Definition cell (r : MappingRow) (c : Column) : value :=
  match c with
  | SourceTableName => Source_Table_Name r
  | SourceColumnName => Source_Column_Name r
  | TargetTableName => Target_Table_Name r
  | TargetColumnName => Target_Column_Name r
  | OrderBy => Order_By r
  | PartitionBy => Partition_By r
  | IsBusinessKey => Is_Business_Key r
  | DataType => Data_Type r
  | DefaultValue => Default_Value r
  | TransformationFunction => Transformation_Function r
  end.

(** A [pd.DataFrame]: the headers of the first row, and the rows. *)
Record DataFrame : Type := {
  columns : list str;
  rows : list MappingRow
}.

(** [c in df.columns] *)
Definition has_column (df : DataFrame) (c : Column) : bool :=
  mem (header c) (columns df).

(** [df[c].tolist()] *)
Definition column (df : DataFrame) (c : Column) : result (list value) :=
  if has_column df c then Ok (map (fun r => cell r c) (rows df))
  else Raise KeyError.

(** [row[c]] for a row of [df] *)
Definition row_get (df : DataFrame) (r : MappingRow) (c : Column)
  : result value :=
  if has_column df c then Ok (cell r c) else Raise KeyError.

(** [df[df[c] == s]] *)
Definition where_eq (df : DataFrame) (c : Column) (s : str)
  : result DataFrame :=
  if has_column df c then
    Ok {| columns := columns df;
          rows := filter (fun r => eq_str (cell r c) s) (rows df) |}
  else Raise KeyError.

(** [df.loc[df[c].notnull()]] *)
Definition where_notnull (df : DataFrame) (c : Column) : result DataFrame :=
  if has_column df c then
    Ok {| columns := columns df;
          rows := filter (fun r => negb (isna (cell r c))) (rows df) |}
  else Raise KeyError.

(** [Series.unique().tolist()]: the distinct values in order of first
    appearance; a missing value is a value like the others. *)
Fixpoint unique_from (seen : list value) (l : list value) : list value :=
  match l with
  | [] => []
  | x :: t =>
      if existsb (value_eqb x) seen then unique_from seen t
      else x :: unique_from (x :: seen) t
  end.

Definition unique (l : list value) : list value := unique_from [] l.

(** [df[[c1, c2]].drop_duplicates()]: the distinct pairs of cells in order
    of first appearance. *)
Fixpoint drop_duplicates_from (seen l : list (value * value))
  : list (value * value) :=
  match l with
  | [] => []
  | x :: t =>
      if existsb
           (fun y => value_eqb (fst x) (fst y) && value_eqb (snd x) (snd y))
           seen
      then drop_duplicates_from seen t
      else x :: drop_duplicates_from (x :: seen) t
  end.

Definition drop_duplicates (l : list (value * value))
  : list (value * value) :=
  drop_duplicates_from [] l.

(** [.dropna()] on those pairs *)
Definition dropna (l : list (value * value)) : list (value * value) :=
  filter (fun p => negb (isna (fst p)) && negb (isna (snd p))) l.

(** The column's dtype is [object] when the reader saw something that is
    not a number in it; a column of numbers and missing cells is numeric. *)
Definition object_dtype (whole : list value) : bool :=
  existsb (fun v => is_str v || is_None v) whole.

(** [series.str]: pandas raises [AttributeError] (can only use .str accessor
    with string values) unless the series has dtype [object] and its
    non-missing values are inferred as strings, mixed or empty.  [whole] is
    the column of the frame the series was selected from. *)
Definition str_accessor (whole series : list value) : result unit :=
  if object_dtype whole
     && (existsb is_str series || forallb isna series)
  then Ok tt
  else Raise AttributeError.

End Frame.
Import Frame.

(** ** The collaborators *)

(** A path, as the components [os.path.join] is given. *)
Definition path := list str.

(** The calls that leave the program: the operating system, pandas, the
    JSON decoder, the key vault behind [get_secrets_from_keyvault] and the
    database driver behind [execute_sql_script]. *)
Record Externals : Type := {
  (** [os.path.exists] *)
  os_path_exists : str -> bool;
  (** [pd.read_excel] and [pd.read_csv] *)
  pd_read_excel : str -> result DataFrame;
  pd_read_csv : str -> result DataFrame;
  (** [DataFrame.sort_values(by=c)], on the rows of the frame *)
  sort_values : Column -> list MappingRow -> result (list MappingRow);
  (** [json.loads]; [None] stands for [json.JSONDecodeError] *)
  json_loads : str -> option json;
  (** [json.load(open(path))] *)
  read_json_file : path -> result json;
  (** [SecretClient.get_secret], as [get_secrets_from_keyvault] returns it *)
  get_secrets_from_keyvault : str -> str -> result (option str);
  (** the rows [pyodbc] fetches for a query and its parameters *)
  pyodbc_fetchall : option str -> str -> list str -> result (list (dict json));
  (** [os.makedirs(folder, exist_ok=True)] *)
  os_makedirs : path -> result unit;
  (** [open(path, 'w')] *)
  open_for_writing : path -> result unit;
  (** [str(x)] for a number [x] *)
  str_of_number : value -> str
}.

(** ** core/const.py *)

Definition OUTPUT_FOLDER : str := u ".\config\".

(** ** utils/file_utils.py, utils/database_utils.py *)

(** [s.endswith(suffix)] *)
Fixpoint startswith (s prefix : str) : bool :=
  match prefix, s with
  | [], _ => true
  | p :: prefix', c :: s' => (c =? p)%N && startswith s' prefix'
  | _ :: _, [] => false
  end.

Definition endswith (s suffix : str) : bool :=
  startswith (rev s) (rev suffix).

Definition load_json_config_file (E : Externals) (file_path : path)
  : result json :=
  read_json_file E file_path.

(** [Input_file_df.empty] *)
Definition empty (df : DataFrame) : bool :=
  match columns df, rows df with
  | [], _ | _, [] => true
  | _, _ => false
  end.

Definition load_file_to_dataframe (E : Externals) (input_file file_type : str)
  : result DataFrame :=
  if negb (os_path_exists E input_file) then
    Raise (FileNotFoundError (InputFileDoesNotExist input_file))
  else
    Input_file_df <-
      (if endswith input_file (u ".xlsx") then pd_read_excel E input_file
       else if endswith input_file (u ".csv") then pd_read_csv E input_file
       else Raise (ValueError UnsupportedFileFormat)) ;;
    if empty Input_file_df then Raise (ValueError InputFileEmpty)
    else Ok Input_file_df.

Definition execute_sql_script (E : Externals) (connection_string : option str)
  (sql_script : str) (params : list str) : result json :=
  fetched <- pyodbc_fetchall E connection_string sql_script params ;;
  Ok (JArray (map JObject fetched)).

Definition get_sql_table_schema (E : Externals)
  (sql_connection_string : option str) (table_name : str) : result json :=
  let query :=
    u "SELECT COLUMN_NAME AS 'name', DATA_TYPE AS 'type' FROM INFORMATION_SCHEMA.COLUMNS WHERE TABLE_NAME = ?" in
  execute_sql_script E sql_connection_string query [table_name].

(** ** core/functions.py *)

Definition get_required_columns_list (target_data_area : str)
  : result (list str) :=
  if has target_data_area MAP_FILE_REQUIRED_COLUMNS_MAP then
    getitem MAP_FILE_REQUIRED_COLUMNS_MAP target_data_area
  else
    Raise (ValueError
             (InvalidTargetDataAreaOptions target_data_area
                (keys MAP_FILE_REQUIRED_COLUMNS_MAP))).

Definition get_data_area_audit_columns (E : Externals)
  (target_data_area : str) : result (list json) :=
  reraise "Error getting data area audit columns"
    (mint_data_areas_config <-
       load_json_config_file E
         [OUTPUT_FOLDER; u "mint"; u "mint_data_areas.json"] ;;
     data_area_config <-
       json_get mint_data_areas_config target_data_area (JObject []) ;;
     if json_falsy data_area_config then
       Raise (ValueError (DataAreaNotFound target_data_area))
     else
       audit_columns <-
         json_get data_area_config (u "audit_columns") (JArray []) ;;
       match audit_columns with
       | JArray cols =>
           mapM (fun col =>
                   name <- json_getitem col (u "name") ;;
                   type <- json_getitem col (u "type") ;;
                   Ok (JObject [(u "name", name); (u "type", type)]))
                cols
       | _ => Raise (ValueError AuditColumnsNotAList)
       end).

Definition get_target_table_list (mapping_file_df : DataFrame)
  : result (list str) :=
  col <- column mapping_file_df TargetTableName ;;
  let target_tables_list := unique col in
  Ok (cleanse_column_list target_tables_list).

Definition generate_source_schema_config (E : Externals)
  (domain target_data_area source_table_name : str) : result json :=
  let source_data_area := get target_data_area TARGET_SOURCE_AREA_MAP in
  match source_data_area with
  | Some area =>
      if eqb area (u "landing-zone") then
        connection_string <-
          get_secrets_from_keyvault E (u "mintetldevkeyvaulteus")
            (u "cura-sqlserver-rdsoprd-cxnstr-with-driver") ;;
        source_schema_cols_dict <-
          get_sql_table_schema E connection_string source_table_name ;;
        Ok (JObject [(u "domain", JString domain);
                     (u "table_name", JString source_table_name);
                     (u "columns", source_schema_cols_dict)])
      else if mem area [u "bronze"; u "silver"] then
        let source_file_name :=
          area ++ u "_schema_" ++ source_table_name ++ u ".json" in
        load_json_config_file E
          [OUTPUT_FOLDER; u "domains"; domain; area; source_file_name]
      else Raise (ValueError (InvalidTargetDataArea target_data_area))
  | None => Raise (ValueError (InvalidTargetDataArea target_data_area))
  end.

(** [set(required) - set(present)], listed in the order of [required]. *)
Definition set_difference (required present : list str) : list str :=
  filter (fun c => negb (mem c present)) (dedupe required).

(** The body of the loop of [validate_mapping_file] over the source
    tables: the invalid source columns of one table. *)
Definition invalid_columns_of_table (mapping_file_df : DataFrame)
  (source_tables_schema_dict : dict json) (source_table : str)
  : result (list str) :=
  selected <- where_eq mapping_file_df SourceTableName source_table ;;
  col <- column selected SourceColumnName ;;
  let source_columns_list := cleanse_column_list (unique col) in
  schema <- getitem source_tables_schema_dict source_table ;;
  schema_columns <- json_getitem schema (u "columns") ;;
  items <- json_iter schema_columns ;;
  source_schema_columns_list <-
    mapM (fun col => json_getitem col (u "name")) items ;;
  Ok (filter
        (fun col =>
           negb (existsb (fun n => json_eq_str n col)
                   source_schema_columns_list))
        source_columns_list).

Definition validate_mapping_file (E : Externals)
  (mapping_file domain target_data_area file_type : str)
  : result (DataFrame * dict json) :=
  mapping_file_df <- load_file_to_dataframe E mapping_file file_type ;;
  required_columns_list <- get_required_columns_list target_data_area ;;
  let missing_columns_list :=
    set_difference required_columns_list (columns mapping_file_df) in
  match missing_columns_list with
  | _ :: _ =>
      Raise (ValueError
               (MissingRequiredColumns mapping_file missing_columns_list))
  | [] =>
      col <- column mapping_file_df SourceTableName ;;
      let source_tables_list := cleanse_column_list (unique col) in
      source_tables_schema_dict <-
        comprehension
          (generate_source_schema_config E domain target_data_area)
          source_tables_list ;;
      invalid_source_columns_list <-
        foldM (fun invalid source_table =>
                 more <-
                   invalid_columns_of_table mapping_file_df
                     source_tables_schema_dict source_table ;;
                 Ok (invalid ++ more))
              source_tables_list [] ;;
      match invalid_source_columns_list with
      | _ :: _ =>
          Raise (ValueError
                   (InvalidSourceColumns mapping_file
                      invalid_source_columns_list))
      | [] => Ok (mapping_file_df, source_tables_schema_dict)
      end
  end.

Definition generate_target_table_config (target_data_area : str)
  (mapping_file_df : DataFrame) : result json :=
  reraise "Error generating target table config"
    (let processing_action :=
       if mem target_data_area [u "landing-zone"; u "bronze"]
       then u "ingest" else u "merge" in
     col <- column mapping_file_df TargetTableName ;;
     let target_tables_list := cleanse_column_list (unique col) in
     Ok (JObject
           [(u "action", JString processing_action);
            (u "target_data_area", JString target_data_area);
            (u "config_storage_account", JString (u "mintetl[env]configeus"));
            (u "key_vault_name", JString (u "mintetl[env]keyvaulteus"));
            (u "target_table_list", JArray (map JString target_tables_list))])).

(** [table_mapping_df.loc[:, c] = table_mapping_df[c].str.strip()].  The
    assignment changes the selection [table_mapping_df] only, and the rows
    the loop goes through were read from it before; what is left of the
    statement is whether [.str] raises. *)
Definition strip_in_place (mapping_file_df table_mapping_df : DataFrame)
  (c : Column) : result unit :=
  whole <- column mapping_file_df c ;;
  series <- column table_mapping_df c ;;
  str_accessor whole series.

(** The body of the loop of [generate_target_schema_config] over the rows
    of one target table: the schema of one target column. *)
Definition target_column_schema_of_row
  (mapping_file_df table_mapping_df : DataFrame)
  (curr_source_schema_dict : json) (row : MappingRow) : result json :=
  strip_in_place mapping_file_df table_mapping_df SourceTableName ;;;
  strip_in_place mapping_file_df table_mapping_df SourceColumnName ;;;
  strip_in_place mapping_file_df table_mapping_df TargetTableName ;;;
  strip_in_place mapping_file_df table_mapping_df TargetColumnName ;;;
  target_cell <- row_get table_mapping_df row TargetColumnName ;;
  target_column_name <- first (cleanse_column_list [target_cell]) ;;
  source_cell <- row_get table_mapping_df row SourceColumnName ;;
  if isna source_cell then
    data_type <- row_get table_mapping_df row DataType ;;
    Ok (JObject [(u "name", JString target_column_name);
                 (u "type", JString (datatype_of_value data_type))])
  else
    source_column_name <- first (cleanse_column_list [source_cell]) ;;
    schema_columns <- json_getitem curr_source_schema_dict (u "columns") ;;
    items <- json_iter schema_columns ;;
    matching <-
      filterM (fun col =>
                 name <- json_getitem col (u "name") ;;
                 Ok (json_eq_str name source_column_name))
              items ;;
    source_column_schema <- first matching ;;
    source_type <- json_getitem source_column_schema (u "type") ;;
    type <- datatype_of_json source_type ;;
    Ok (JObject [(u "name", JString target_column_name);
                 (u "type", JString type)]).

(** [df.loc[df[by_col].notnull()].sort_values(by=by_col)['Target Column Name']
    .tolist()], then cleansed. *)
Definition ordered_target_columns (E : Externals)
  (table_mapping_df : DataFrame) (by_col : Column) : result (list str) :=
  selected <- where_notnull table_mapping_df by_col ;;
  sorted <- sort_values E by_col (rows selected) ;;
  col <- column {| columns := columns selected; rows := sorted |}
           TargetColumnName ;;
  Ok (cleanse_column_list col).

Definition MergeKey_column : json :=
  JObject [(u "name", JString (u "MergeKey")); (u "type", JString (u "string"))].

(** [target_schema_header], with its ['columns'] entry. *)
Definition target_schema_header (domain target_table_name : str)
  (sort_columns_list partition_columns_list : list str)
  (target_column_schema_list : list json) : json :=
  JObject
    [(u "domain", JString domain);
     (u "table_name", JString target_table_name);
     (u "sort_columns", JArray (map JString sort_columns_list));
     (u "partition_columns", JArray (map JString partition_columns_list));
     (u "columns", JArray target_column_schema_list)].

(** [mapping_file_df[mapping_file_df['Target Table Name'] ==
    target_table_name]['Source Table Name'].unique().tolist()[0]]: the source
    table of a target table. *)
Definition associated_source_table (mapping_file_df : DataFrame)
  (target_table_name : str) : result value :=
  selected <- where_eq mapping_file_df TargetTableName target_table_name ;;
  source_col <- column selected SourceTableName ;;
  first (unique source_col).

(** The body of the loop of [generate_target_schema_config] over the target
    tables: the target schema of one table. *)
Definition target_schema_of_table (E : Externals)
  (domain target_data_area : str) (source_schema_dict : dict json)
  (mapping_file_df : DataFrame) (target_table_name : str) : result json :=
  source_table_name <-
    associated_source_table mapping_file_df target_table_name ;;
  curr_source_schema_dict <-
    getitem_value source_schema_dict source_table_name ;;
  table_mapping_df <-
    where_eq mapping_file_df TargetTableName target_table_name ;;
  sort_columns_list <- ordered_target_columns E table_mapping_df OrderBy ;;
  partition_columns_list <-
    ordered_target_columns E table_mapping_df PartitionBy ;;
  let silver_or_gold := mem target_data_area [u "silver"; u "gold"] in
  let sort_columns_list :=
    if silver_or_gold then sort_columns_list ++ [u "MergeKey"]
    else sort_columns_list in
  let target_column_schema_list :=
    if silver_or_gold then [MergeKey_column] else [] in
  let partition_columns_list :=
    if silver_or_gold then partition_columns_list
    else partition_columns_list ++ [u "IngestDate"] in
  row_schemas <-
    mapM (target_column_schema_of_row mapping_file_df table_mapping_df
            curr_source_schema_dict)
         (rows table_mapping_df) ;;
  let target_column_schema_list := target_column_schema_list ++ row_schemas in
  target_area_audit_columns <- get_data_area_audit_columns E target_data_area ;;
  let target_column_schema_list :=
    target_column_schema_list ++ target_area_audit_columns in
  Ok (target_schema_header domain target_table_name sort_columns_list
        partition_columns_list target_column_schema_list).

Definition generate_target_schema_config (E : Externals)
  (domain target_data_area : str) (source_schema_dict : dict json)
  (mapping_file_df : DataFrame) : result (dict json) :=
  reraise "Error generating target schema"
    (col <- column mapping_file_df TargetTableName ;;
     let target_table_list := cleanse_column_list (unique col) in
     foldM (fun target_tables_schema_dict target_table_name =>
              target_schema_header <-
                target_schema_of_table E domain target_data_area
                  source_schema_dict mapping_file_df target_table_name ;;
              Ok (set target_table_name target_schema_header
                    target_tables_schema_dict))
           target_table_list []).

(** The dictionary stored for one pair of tables. *)
Definition pipeline_linkage
  (source_data_area source_table_name target_data_area target_table_name : str)
  : json :=
  JObject
    [(u "source_data_area", JString source_data_area);
     (u "source_table_path", JString (u "cura"));
     (u "source_table_name", JString source_table_name);
     (u "target_data_area", JString target_data_area);
     (u "target_table_path", JString (u "cura"));
     (u "target_table_name", JString target_table_name)].

(** The body of the loop of [generate_pipeline_config] over the pairs of
    tables. *)
Definition add_pipeline_linkage (target_data_area : str)
  (pipeline_configurations_dict : dict json) (row : value * value)
  : result (dict json) :=
  source_table_name <- first (cleanse_column_list [fst row]) ;;
  target_table_name <- first (cleanse_column_list [snd row]) ;;
  source_data_area <- getitem TARGET_SOURCE_AREA_MAP target_data_area ;;
  Ok (set target_table_name
        (pipeline_linkage source_data_area source_table_name
           target_data_area target_table_name)
        pipeline_configurations_dict).

(** [mapping_file_df[['Source Table Name', 'Target Table Name']]
    .drop_duplicates().dropna()] *)
Definition pipeline_pairs (mapping_file_df : DataFrame)
  : result (list (value * value)) :=
  source_col <- column mapping_file_df SourceTableName ;;
  target_col <- column mapping_file_df TargetTableName ;;
  Ok (dropna (drop_duplicates (combine source_col target_col))).

Definition generate_pipeline_config (domain target_data_area : str)
  (mapping_file_df : DataFrame) : result (dict json) :=
  reraise "Error generating pipeline configurations"
    (filtered_df <- pipeline_pairs mapping_file_df ;;
     foldM (add_pipeline_linkage target_data_area) filtered_df []).

Definition affirmative_responses : list str :=
  [u "y"; u "yes"; u "true"; u "t"; u "1"; u "x"].

(** One entry of [series.str.lower().isin(affirmative_responses)]: [.str]
    maps what is not a string to a missing value, which is in no set. *)
Definition is_affirmative (v : value) : bool :=
  match v with
  | VStr s => mem (lower s) affirmative_responses
  | _ => false
  end.

Definition merge_key_column (business_key_columns_list : list str) : json :=
  JObject
    [(u "name", JString (u "MergeKey"));
     (u "type", JString (u "string"));
     (u "source",
       JObject
         [(u "function", JString (u "key_hash"));
          (u "params",
            JObject
              [(u "column_names",
                 JArray (map JString business_key_columns_list))]);
          (u "type", JString (u "string"))])].

(** The [if 'Is Business Key' in filtered_mapping_df.columns] block: the
    initial value of the header's column list. *)
Definition business_key_columns (mapping_file_df filtered_mapping_df : DataFrame)
  : result (list json) :=
  if has_column filtered_mapping_df IsBusinessKey then
    whole <- column mapping_file_df IsBusinessKey ;;
    series <- column filtered_mapping_df IsBusinessKey ;;
    str_accessor whole series ;;;
    let business_key_rows :=
      filter (fun r => is_affirmative (cell r IsBusinessKey))
        (rows filtered_mapping_df) in
    col <- column {| columns := columns filtered_mapping_df;
                     rows := business_key_rows |} TargetColumnName ;;
    let business_key_columns_list := cleanse_column_list col in
    Ok [merge_key_column business_key_columns_list]
  else Ok [].

(** [isinstance(v, str) and v.strip() != ""] *)
Definition nonblank_str (v : value) : bool :=
  match v with
  | VStr s => negb (eqb (strip s) [])
  | _ => false
  end.

Definition column_mapping_dict (name type : str) (source_dict : json) : json :=
  JObject [(u "name", JString name); (u "type", JString type);
           (u "source", source_dict)].

(** The [if 'Data Type' in filtered_mapping_df.columns] block: the type the
    row declares, ['string'] by default. *)
Definition declared_data_type (filtered_mapping_df : DataFrame)
  (target_column_row : MappingRow) : result str :=
  if has_column filtered_mapping_df DataType then
    data_type <- row_get filtered_mapping_df target_column_row DataType ;;
    let data_type :=
      match data_type with
      | VStr s => VStr (strip s)
      | other => other
      end in
    Ok (datatype_of_value data_type)
  else Ok (u "string").

(** [[col['type'] for col in items if col['name'] == source_column_name]] *)
Fixpoint types_of_matching (source_column_name : str) (items : list json)
  : result (list json) :=
  match items with
  | [] => Ok []
  | col :: t =>
      name <- json_getitem col (u "name") ;;
      if json_eq_str name source_column_name then
        type <- json_getitem col (u "type") ;;
        r <- types_of_matching source_column_name t ;;
        Ok (type :: r)
      else types_of_matching source_column_name t
  end.

(** The body of the loop of [generate_mapping_config] over the rows of one
    target table.  [Ok None] is the [continue] of the [except
    json.JSONDecodeError] clause: the row adds no column. *)
Definition column_mapping_of_row (E : Externals)
  (source_schema_dict : dict json) (filtered_mapping_df : DataFrame)
  (target_column_row : MappingRow) : result (option json) :=
  target_cell <- row_get filtered_mapping_df target_column_row TargetColumnName ;;
  target_column_name <-
    match target_cell with
    | VStr s => Ok (strip s)
    | _ => Raise AttributeError
    end ;;
  source_column_name <-
    row_get filtered_mapping_df target_column_row SourceColumnName ;;
  source_table_name <-
    row_get filtered_mapping_df target_column_row SourceTableName ;;
  target_col_data_type <-
    declared_data_type filtered_mapping_df target_column_row ;;
  if nonblank_str source_column_name && nonblank_str source_table_name then
    source_column_name <- first (cleanse_column_list [source_column_name]) ;;
    source_table_name <- first (cleanse_column_list [source_table_name]) ;;
    let schema :=
      match get source_table_name source_schema_dict with
      | Some schema => schema
      | None => JObject []
      end in
    schema_columns <- json_get schema (u "columns") (JArray []) ;;
    items <- json_iter schema_columns ;;
    types <- types_of_matching source_column_name items ;;
    source_schema_data_type <- first types ;;
    target_col_data_type <- datatype_of_json source_schema_data_type ;;
    Ok (Some
          (column_mapping_dict target_column_name target_col_data_type
             (JObject [(u "name", JString source_column_name);
                       (u "type", JString target_col_data_type)])))
  else if has_column filtered_mapping_df TransformationFunction then
    transformation_func_column <-
      row_get filtered_mapping_df target_column_row TransformationFunction ;;
    match transformation_func_column with
    | VStr ((_ :: _) as text) =>
        match json_loads E text with
        | None => Ok None
        | Some parsed =>
            source_dict <-
              json_setitem parsed (u "type") (JString (u "string")) ;;
            Ok (Some
                  (column_mapping_dict target_column_name
                     target_col_data_type source_dict))
        end
    | _ =>
        Ok (Some
              (column_mapping_dict target_column_name target_col_data_type
                 (JObject [])))
    end
  else
    Ok (Some
          (column_mapping_dict target_column_name target_col_data_type
             (JObject []))).

(** One turn of the loop over the rows: the column is appended unless the
    row was skipped. *)
Definition append_column_mapping (E : Externals)
  (source_schema_dict : dict json) (filtered_mapping_df : DataFrame)
  (cols : list json) (target_column_row : MappingRow) : result (list json) :=
  mapped <-
    column_mapping_of_row E source_schema_dict filtered_mapping_df
      target_column_row ;;
  Ok (match mapped with
      | Some column_mapping => cols ++ [column_mapping]
      | None => cols
      end).

(** The loop over the rows. *)
Definition append_column_mappings (E : Externals)
  (source_schema_dict : dict json) (filtered_mapping_df : DataFrame)
  (initial : list json) : result (list json) :=
  foldM (append_column_mapping E source_schema_dict filtered_mapping_df)
    (rows filtered_mapping_df) initial.

(** The body of the loop of [generate_mapping_config] over the target
    tables: the list of column mappings of one table. *)
Definition mapping_columns_of_table (E : Externals)
  (source_schema_dict : dict json) (mapping_file_df : DataFrame)
  (target_table_name : str) : result (list json) :=
  filtered_mapping_df <-
    where_eq mapping_file_df TargetTableName target_table_name ;;
  initial <- business_key_columns mapping_file_df filtered_mapping_df ;;
  append_column_mappings E source_schema_dict filtered_mapping_df initial.

Definition generate_mapping_config (E : Externals)
  (domain target_data_area : str) (source_schema_dict : dict json)
  (mapping_file_df : DataFrame) : result (dict json) :=
  col <- column mapping_file_df TargetTableName ;;
  let target_table_list := cleanse_column_list (unique col) in
  foldM (fun mapping_config_dict target_table_name =>
           source_area <- getitem TARGET_SOURCE_AREA_MAP target_data_area ;;
           cols <-
             mapping_columns_of_table E source_schema_dict mapping_file_df
               target_table_name ;;
           let mapping_config_header :=
             JObject [(u "domain", JString domain);
                      (u "table_name", JString target_table_name);
                      (u "source", JString source_area);
                      (u "target", JString target_data_area);
                      (u "columns", JArray cols)] in
           let mapping_config_dict :=
             set target_table_name mapping_config_header mapping_config_dict in
           match mapping_config_dict, cols with
           | [], _ => Raise (Exception_ (MappingConfigEmpty target_table_name))
           | _, [] => Raise (Exception_ (MappingHasNoColumns target_table_name))
           | _, _ => Ok mapping_config_dict
           end)
        target_table_list [].

(** ** Writing the artifacts *)

(** The writes so far, oldest first.  [open(path, 'w')] replaces the file
    at [path]: the content of a path is what was written there last. *)
Definition files := list (path * json).

(** The content of the file at [p]: what was written there last. *)
Fixpoint file_content (fs : files) (p : path) : option json :=
  match fs with
  | [] => None
  | (q, content) :: later =>
      match file_content later p with
      | Some newer => Some newer
      | None => if list_eq_dec str_eq_dec q p then Some content else None
      end
  end.

(** A computation that writes files and can raise; what was written before
    an exception stays written. *)
Definition io (A : Type) := files -> result A * files.

Definition io_ret {A} (a : A) : io A := fun fs => (Ok a, fs).

Definition io_bind {A B} (c : io A) (f : A -> io B) : io B :=
  fun fs =>
    match c fs with
    | (Ok a, fs') => f a fs'
    | (Raise e, fs') => (Raise e, fs')
    end.

Definition lift {A} (c : result A) : io A := fun fs => (c, fs).

Notation "x <~ c ;; k" := (io_bind c (fun x => k))
  (at level 61, c at next level, right associativity) : py_scope.

(** [try: c except Exception as e: raise ValueError(f"<context>: {e}")] *)
Definition io_reraise {A} (context : string) (c : io A) : io A :=
  fun fs => let (r, fs') := c fs in (reraise context r, fs').

Definition write_config_file (E : Externals)
  (domain target_data_area file_name : str) (config_json : json) : io unit :=
  fun fs =>
    let output_folder := [OUTPUT_FOLDER; u "domains"; domain; target_data_area] in
    match os_makedirs E output_folder with
    | Raise e =>
        (Raise (OSError_ (Wrapped "Error creating output folder" e)), fs)
    | Ok _ =>
        let file_path := output_folder ++ [file_name] in
        match open_for_writing E file_path with
        | Raise e => (Raise (Exception_ (Wrapped "Error writing to file" e)), fs)
        | Ok _ => (Ok tt, fs ++ [(file_path, config_json)])
        end
    end.

(** [f"{v}"] for a cell [v] *)
Definition format_value (E : Externals) (v : value) : str :=
  match v with
  | VStr s => s
  | VNone => u "None"
  | VNaN => u "nan"
  | other => str_of_number E other
  end.

(** [{**col, 'type': 'string'}] *)
Definition with_type_string (col : json) : result json :=
  match col with
  | JObject m => Ok (JObject (set (u "type") (JString (u "string")) m))
  | _ => Raise TypeError
  end.

(** The body of the loop of [process_mapping_file] over the source
    schemas. *)
Definition write_source_schema (E : Externals)
  (domain target_data_area : str) (mapping_file_df : DataFrame)
  (item : str * json) : io str :=
  let (source_table, source_schema_dict) := item in
  target_table_name <~
    lift (selected <- where_eq mapping_file_df SourceTableName source_table ;;
          col <- column selected TargetTableName ;;
          first (unique col)) ;;
  source_area <~ lift (getitem TARGET_SOURCE_AREA_MAP target_data_area) ;;
  source_schema_dict <~
    lift (if eqb source_area (u "landing-zone") then
            schema_columns <- json_getitem source_schema_dict (u "columns") ;;
            items <- json_iter schema_columns ;;
            retyped <- mapM with_type_string items ;;
            json_setitem source_schema_dict (u "columns") (JArray retyped)
          else Ok source_schema_dict) ;;
  let source_schema_config_filename :=
    source_area ++ u "_schema_" ++ format_value E target_table_name
      ++ u ".json" in
  _ <~ write_config_file E domain target_data_area
         source_schema_config_filename source_schema_dict ;;
  io_ret source_schema_config_filename.

(** A loop that writes one file per item and appends its name to
    [output_config_files]. *)
Fixpoint write_each {A} (l : list A) (body : A -> io str)
  (output_config_files : list str) : io (list str) :=
  match l with
  | [] => io_ret output_config_files
  | x :: t =>
      name <~ body x ;;
      write_each t body (output_config_files ++ [name])
  end.

Definition process_mapping_file (E : Externals)
  (mode domain target_data_area : str) (mapping_file_df : DataFrame)
  (source_tables_schema_dict : dict json) : io (list str) :=
  io_reraise "Error processing mapping file"
    (target_tables_dict <~
       lift (generate_target_table_config target_data_area mapping_file_df) ;;
     let target_tables_config_filename :=
       target_data_area ++ u "_target_tables_" ++ domain ++ u ".json" in
     _ <~ write_config_file E domain target_data_area
            target_tables_config_filename target_tables_dict ;;
     let output_config_files := [target_tables_config_filename] in
     let original_source_tables_schema_dict := source_tables_schema_dict in
     output_config_files <~
       write_each source_tables_schema_dict
         (write_source_schema E domain target_data_area mapping_file_df)
         output_config_files ;;
     target_schema_config_dict <~
       lift (generate_target_schema_config E domain target_data_area
               original_source_tables_schema_dict mapping_file_df) ;;
     output_config_files <~
       write_each target_schema_config_dict
         (fun item =>
            let file_name :=
              target_data_area ++ u "_schema_" ++ fst item ++ u ".json" in
            _ <~ write_config_file E domain target_data_area file_name
                   (snd item) ;;
            io_ret file_name)
         output_config_files ;;
     pipeline_config_dict <~
       lift (generate_pipeline_config domain target_data_area mapping_file_df) ;;
     output_config_files <~
       write_each pipeline_config_dict
         (fun item =>
            let file_name :=
              target_data_area ++ u "_pipeline_" ++ fst item ++ u ".json" in
            _ <~ write_config_file E domain target_data_area file_name
                   (snd item) ;;
            io_ret file_name)
         output_config_files ;;
     mapping_config_dict <~
       lift (generate_mapping_config E domain target_data_area
               original_source_tables_schema_dict mapping_file_df) ;;
     write_each mapping_config_dict
       (fun item =>
          if json_falsy (snd item) then
            lift (Raise (Exception_ (MappingConfigEmpty (fst item))))
          else
            let file_name :=
              target_data_area ++ u "_map_" ++ fst item ++ u ".json" in
            _ <~ write_config_file E domain target_data_area file_name
                   (snd item) ;;
            io_ret file_name)
       output_config_files).

(** ** main.py *)

Definition main (E : Externals)
  (input_file domain target file_type mode : str) : io (list str) :=
  validated <~ lift (validate_mapping_file E input_file domain target file_type) ;;
  let (mapping_file_df, source_tables_schema_dict) := validated in
  match rows mapping_file_df with
  | [] => lift (Raise (Exception_ (MappingFileEmpty input_file)))
  | _ :: _ =>
      match source_tables_schema_dict with
      | [] => lift (Raise (Exception_ SourceSchemaDictEmpty))
      | _ :: _ =>
          process_mapping_file E mode domain target mapping_file_df
            source_tables_schema_dict
      end
  end.

(** ** A concrete world for the examples *)

Module Example.

(** A row of a mapping file; the cells not given are missing. *)
Definition mapping_row (source_table source_column target_table target_column
                        : value) : MappingRow :=
  {| Source_Table_Name := source_table;
     Source_Column_Name := source_column;
     Target_Table_Name := target_table;
     Target_Column_Name := target_column;
     Order_By := VNaN;
     Partition_By := VNaN;
     Is_Business_Key := VNaN;
     Data_Type := VNaN;
     Default_Value := VNaN;
     Transformation_Function := VNaN |}.

Definition landing_zone_headers : list str :=
  map header [SourceTableName; SourceColumnName; TargetTableName;
              TargetColumnName].

Definition all_headers : list str :=
  map header [SourceTableName; SourceColumnName; TargetTableName;
              TargetColumnName; OrderBy; PartitionBy; IsBusinessKey; DataType;
              DefaultValue; TransformationFunction].

(** A stable insertion sort on int cells: rows with equal keys keep their
    order.  Any other cell is a [TypeError]. *)
Fixpoint insert_sorted (k : Z) (r : MappingRow) (l : list (Z * MappingRow))
  : list (Z * MappingRow) :=
  match l with
  | [] => [(k, r)]
  | (k', r') :: t =>
      if (k <=? k')%Z then (k, r) :: l else (k', r') :: insert_sorted k r t
  end.

Definition sort_int_cells (c : Column) (l : list MappingRow)
  : result (list MappingRow) :=
  keyed <-
    mapM (fun r =>
            match cell r c with
            | VInt k => Ok (k, r)
            | _ => Raise TypeError
            end) l ;;
  Ok (map snd
        (fold_right (fun kr acc => insert_sorted (fst kr) (snd kr) acc)
           [] keyed)).

(** [str(z)] for an int *)
Definition str_of_int (z : Z) : str :=
  u (NilZero.string_of_int (Z.to_int z)).

(** The digits of [num / den] after the point, for [0 <= num < den], as far
    as [fuel] goes. *)
Fixpoint fraction_digits (fuel : nat) (num den : Z) : str :=
  match fuel with
  | O => []
  | S fuel' =>
      if (num =? 0)%Z then []
      else (48 + Z.to_N (10 * num / den))%N
           :: fraction_digits fuel' ((10 * num) mod den) den
  end.

(** [str(x)] for a number: the digits of an int, and the decimal expansion of
    a float, which is what Python prints for a float below 1e16 with a short
    expansion, as 2024.0 and 0.5. *)
Definition python_str (v : value) : str :=
  match v with
  | VInt z => str_of_int z
  | VFloat q =>
      let den := Z.pos (Qden q) in
      let magnitude := Z.abs (Qnum q) in
      (if (Qnum q <? 0)%Z then u "-" else [])
        ++ str_of_int (magnitude / den) ++ u "."
        ++ match fraction_digits 17 (magnitude mod den) den with
           | [] => u "0"
           | digits => digits
           end
  | VStr s => s
  | VNone => u "None"
  | VNaN => u "nan"
  end.

(** The double quote, which a literal here cannot hold. *)
Definition dq : str := [34%N].
Definition quoted (s : string) : str := dq ++ u s ++ dq.

(** ['{"function":"const","params":{"value":0}}'] and what [json.loads]
    returns for it. *)
Definition const_function_text : str :=
  u "{" ++ quoted "function" ++ u ":" ++ quoted "const" ++ u ","
    ++ quoted "params" ++ u ":{" ++ quoted "value" ++ u ":0}}".

Definition const_function_members : dict json :=
  [(u "function", JString (u "const"));
   (u "params", JObject [(u "value", JInt 0)])].

(** The decoder on the texts of the examples: the object above, the empty
    array ['[]'], and a text that is not JSON. *)
Definition decode (text : str) : option json :=
  if eqb text const_function_text then Some (JObject const_function_members)
  else if eqb text (u "[]") then Some (JArray [])
  else None.

Definition path_eqb (a b : path) : bool :=
  if list_eq_dec str_eq_dec a b then true else false.

Fixpoint read_file (store : list (path * json)) (file_path : path)
  : result json :=
  match store with
  | [] => Raise (External "FileNotFoundError")
  | (p, content) :: t =>
      if path_eqb p file_path then Ok content else read_file t file_path
  end.

Definition audit_column (name type : string) : json :=
  JObject [(u "name", JString (u name)); (u "type", JString (u type))].

(** [mint_data_areas.json] *)
Definition mint_data_areas : json :=
  JObject
    [(u "bronze",
       JObject [(u "audit_columns",
                  JArray [audit_column "IngestDate" "timestamp";
                          audit_column "SourceFile" "string"])]);
     (u "silver",
       JObject [(u "audit_columns",
                  JArray [audit_column "UpdatedAt" "timestamp"])]);
     (u "gold",
       JObject [(u "audit_columns",
                  JArray [audit_column "PublishedAt" "timestamp"])])].

Definition mint_data_areas_path : path :=
  [OUTPUT_FOLDER; u "mint"; u "mint_data_areas.json"].

(** A world where the mapping file holds [df], the SQL catalogue is
    [catalogue], the stored JSON files are [store], and every write
    succeeds. *)
Definition world (df : DataFrame) (catalogue : dict (list (dict json)))
  (store : list (path * json)) : Externals :=
  {| os_path_exists := fun _ => true;
     pd_read_excel := fun _ => Ok df;
     pd_read_csv := fun _ => Ok df;
     sort_values := sort_int_cells;
     json_loads := decode;
     read_json_file := read_file ((mint_data_areas_path, mint_data_areas) :: store);
     get_secrets_from_keyvault := fun _ _ => Ok (Some (u "connection-string"));
     pyodbc_fetchall :=
       fun _ _ params =>
         match params with
         | [table_name] =>
             Ok (match get table_name catalogue with
                 | Some fetched => fetched
                 | None => []
                 end)
         | _ => Raise (External "pyodbc.Error")
         end;
     os_makedirs := fun _ => Ok tt;
     open_for_writing := fun _ => Ok tt;
     str_of_number := python_str |}.

Definition catalogue_column (name type : string) : dict json :=
  [(u "name", JString (u name)); (u "type", JString (u type))].

(** The catalogue of the end-to-end scenario: table [ORDERS] with columns
    [id : int] and [name : varchar]. *)
Definition orders_catalogue : dict (list (dict json)) :=
  [(u "ORDERS", [catalogue_column "id" "int"; catalogue_column "name" "varchar"])].

(** A cell that holds a string. *)
Definition txt (s : string) : value := VStr (u s).

End Example.

(** ** The inputs of the examples *)

Module LandingZoneExamples.
Import Example.

(** A landing-zone file with its four columns... *)
Definition orders : DataFrame :=
  {| columns := landing_zone_headers;
     rows := [mapping_row (txt "ORDERS") (txt "id") (txt "DimOrders") (txt "OrderId")] |}.

(** ... one that lacks two of them... *)
Definition orders_two_headers : DataFrame :=
  {| columns := [u "Source Table Name"; u "Target Table Name"];
     rows := [mapping_row (txt "ORDERS") VNaN (txt "DimOrders") VNaN] |}.

(** ... one whose source table is named by a number... *)
Definition numbered_source : DataFrame :=
  {| columns := landing_zone_headers;
     rows := [mapping_row (VInt 2024) (txt "id") (txt "DimOrders") (txt "OrderId")] |}.

(** ... and one with a row that has no source table. *)
Definition orders_and_constant : DataFrame :=
  {| columns := landing_zone_headers;
     rows := [mapping_row (txt "ORDERS") (txt "id") (txt "DimOrders") (txt "OrderId");
              mapping_row VNaN VNaN (txt "DimOrders") (txt "LoadedBy")] |}.

End LandingZoneExamples.


Module MappingExamples.
Import Example.

(** The resolved source schema of [ORDERS]. *)
Definition orders_schema : dict json :=
  [(u "ORDERS",
     JObject
       [(u "domain", JString (u "sales"));
        (u "table_name", JString (u "ORDERS"));
        (u "columns",
          JArray (map JObject [catalogue_column "id" "int";
                               catalogue_column "name" "varchar"]))])].

Definition with_business_key (key : value) (r : MappingRow) : MappingRow :=
  {| Source_Table_Name := Source_Table_Name r;
     Source_Column_Name := Source_Column_Name r;
     Target_Table_Name := Target_Table_Name r;
     Target_Column_Name := Target_Column_Name r;
     Order_By := Order_By r;
     Partition_By := Partition_By r;
     Is_Business_Key := key;
     Data_Type := Data_Type r;
     Default_Value := Default_Value r;
     Transformation_Function := Transformation_Function r |}.

Definition order_id (key : value) : MappingRow :=
  with_business_key key
    (mapping_row (txt "ORDERS") (txt "id") (txt "DimOrders") (txt "OrderId")).

Definition order_name (key : value) : MappingRow :=
  with_business_key key
    (mapping_row (txt "ORDERS") (txt "name") (txt "DimOrders") (txt "OrderName")).

(** A row with no source, a declared type and a transformation. *)
Definition transformed (target_column : string) (transformation : value)
  : MappingRow :=
  {| Source_Table_Name := VNaN;
     Source_Column_Name := VNaN;
     Target_Table_Name := txt "DimOrders";
     Target_Column_Name := txt target_column;
     Order_By := VNaN;
     Partition_By := VNaN;
     Is_Business_Key := txt "N";
     Data_Type := txt "int";
     Default_Value := VNaN;
     Transformation_Function := transformation |}.

(** [OrderId] is the business key. *)
Definition keyed : DataFrame :=
  {| columns := all_headers; rows := [order_id (txt "Y"); order_name (txt "N")] |}.

(** No row is a business key. *)
Definition unkeyed : DataFrame :=
  {| columns := all_headers; rows := [order_id (txt "N"); order_name (txt "N")] |}.

(** A transformation that is a JSON object, between two mapped rows. *)
Definition with_constant : DataFrame :=
  {| columns := all_headers;
     rows := [order_id (txt "Y"); transformed "Zero" (VStr const_function_text);
              order_name (txt "N")] |}.

(** A transformation that is not JSON. *)
Definition with_broken_json : DataFrame :=
  {| columns := all_headers;
     rows := [order_id (txt "Y"); transformed "Zero" (txt "not json");
              order_name (txt "N")] |}.

(** A transformation that is JSON and not an object. *)
Definition with_json_array : DataFrame :=
  {| columns := all_headers;
     rows := [order_id (txt "Y"); transformed "Zero" (txt "[]");
              order_name (txt "N")] |}.

End MappingExamples.

Module PipelineExamples.
Import Example.

(** Two source tables feed one target table. *)
Definition two_sources : DataFrame :=
  {| columns := all_headers;
     rows := [mapping_row (txt "ORDERS") (txt "id") (txt "DimOrders") (txt "OrderId");
              mapping_row (txt "RETURNS") (txt "id") (txt "DimOrders") (txt "ReturnId")] |}.

(** Two target tables, each with its source table. *)
Definition two_targets : DataFrame :=
  {| columns := all_headers;
     rows := [mapping_row (txt "ORDERS") (txt "id") (txt "DimOrders") (txt "OrderId");
              mapping_row (txt "ORDERS") (txt "name") (txt "DimOrders") (txt "OrderName");
              mapping_row (txt "CLIENTS") (txt "id") (txt "DimClients") (txt "ClientId")] |}.

End PipelineExamples.

Module SchemaExamples.
Import Example.

Definition ordered_row (source_table source_column target_table target_column
                        order_by partition_by data_type : value) : MappingRow :=
  {| Source_Table_Name := source_table;
     Source_Column_Name := source_column;
     Target_Table_Name := target_table;
     Target_Column_Name := target_column;
     Order_By := order_by;
     Partition_By := partition_by;
     Is_Business_Key := txt "N";
     Data_Type := data_type;
     Default_Value := VNaN;
     Transformation_Function := VNaN |}.

(** [ORDERS] to [DimOrders], sorted by name then id, partitioned by id. *)
Definition orders : DataFrame :=
  {| columns := all_headers;
     rows :=
       [ordered_row (txt "ORDERS") (txt "id") (txt "DimOrders") (txt "OrderId")
          (VInt 2) (VInt 1) VNaN;
        ordered_row (txt "ORDERS") (txt "name") (txt "DimOrders") (txt "OrderName")
          (VInt 1) VNaN VNaN] |}.

(** The same, after a first row that has no source and a declared type. *)
Definition constant_first : DataFrame :=
  {| columns := all_headers;
     rows :=
       [ordered_row VNaN VNaN (txt "DimOrders") (txt "LoadedBy") VNaN VNaN
          (txt "varchar");
        ordered_row (txt "ORDERS") (txt "id") (txt "DimOrders") (txt "OrderId")
          (VInt 2) (VInt 1) VNaN;
        ordered_row (txt "ORDERS") (txt "name") (txt "DimOrders") (txt "OrderName")
          (VInt 1) VNaN VNaN] |}.

(** The same rows, with the row that has no source in second place. *)
Definition constant_second : DataFrame :=
  {| columns := all_headers;
     rows :=
       [ordered_row (txt "ORDERS") (txt "id") (txt "DimOrders") (txt "OrderId")
          (VInt 2) (VInt 1) VNaN;
        ordered_row VNaN VNaN (txt "DimOrders") (txt "LoadedBy") VNaN VNaN
          (txt "varchar");
        ordered_row (txt "ORDERS") (txt "name") (txt "DimOrders") (txt "OrderName")
          (VInt 1) VNaN VNaN] |}.

(** The silver schema of [DimOrders], as this program writes it: the source
    schema of a gold table. *)
Definition silver_orders_schema : dict json :=
  [(u "DimOrders",
     target_schema_header (u "sales") (u "DimOrders")
       [u "OrderName"; u "OrderId"; u "MergeKey"] [u "OrderId"]
       [MergeKey_column;
        audit_column "OrderId" "integer";
        audit_column "OrderName" "string";
        audit_column "UpdatedAt" "timestamp"])].

(** A gold table that carries the MergeKey of its silver source over. *)
Definition gold_orders : DataFrame :=
  {| columns := all_headers;
     rows :=
       [ordered_row (txt "DimOrders") (txt "MergeKey") (txt "FactOrders")
          (txt "MergeKey") VNaN VNaN VNaN;
        ordered_row (txt "DimOrders") (txt "OrderId") (txt "FactOrders")
          (txt "OrderId") (VInt 1) VNaN VNaN] |}.

End SchemaExamples.

Module ValidationExamples.
Import Example.

(** A bronze file that maps [ORDERS.id] and [ORDERS.email]; the catalogue
    has no [email] column. *)
Definition orders_with_email : DataFrame :=
  {| columns := all_headers;
     rows :=
       [MappingExamples.order_id (txt "Y");
        MappingExamples.with_business_key (txt "N")
          (mapping_row (txt "ORDERS") (txt "email") (txt "DimOrders") (txt "Email"))] |}.

(** The same file with a space after the source table name. *)
Definition padded_orders_with_email : DataFrame :=
  {| columns := all_headers;
     rows :=
       [MappingExamples.with_business_key (txt "Y")
          (mapping_row (txt "ORDERS ") (txt "id") (txt "DimOrders") (txt "OrderId"));
        MappingExamples.with_business_key (txt "N")
          (mapping_row (txt "ORDERS ") (txt "email") (txt "DimOrders") (txt "Email"))] |}.

(** The first file with one more row, which has a source table and no
    source column. *)
Definition orders_with_email_and_default : DataFrame :=
  {| columns := all_headers;
     rows :=
       [MappingExamples.order_id (txt "Y");
        MappingExamples.with_business_key (txt "N")
          (mapping_row (txt "ORDERS") (txt "email") (txt "DimOrders") (txt "Email"));
        MappingExamples.with_business_key (txt "N")
          (mapping_row (txt "ORDERS") VNaN (txt "DimOrders") (txt "LoadedBy"))] |}.

End ValidationExamples.

Module RunExamples.
Import Example.

(** A bronze file whose second row has no target table. *)
Definition missing_target_table : DataFrame :=
  {| columns := all_headers;
     rows :=
       [MappingExamples.order_id (txt "Y");
        MappingExamples.with_business_key (txt "N")
          (mapping_row (txt "ORDERS") (txt "name") VNaN (txt "OrderName"))] |}.

(** A row with no source and a declared type written with a space in front. *)
Definition padded_type_row : MappingRow :=
  SchemaExamples.ordered_row VNaN VNaN (txt "DimOrders") (txt "LoadedBy")
    VNaN VNaN (txt " int").

End RunExamples.

(** ** The claims that do not hold, as they are stated *)

(** C10, as stated: every landing-zone specification that references a
    source table that is not null makes [validate_mapping_file] raise the
    invalid-target-data-area error. *)
Definition landing_zone_always_invalid_area (E : Externals)
  (mapping_file domain file_type : str) : Prop :=
  forall df,
    load_file_to_dataframe E mapping_file file_type = Ok df ->
    (exists r, In r (rows df) /\ isna (Source_Table_Name r) = false) ->
    validate_mapping_file E mapping_file domain (u "landing-zone") file_type
    = Raise (ValueError (InvalidTargetDataArea (u "landing-zone"))).

(** The rows of a target table, as the generators select them: those whose
    Target Table Name cell is the cleansed name. *)
Definition table_rows (df : DataFrame) (target_table_name : str)
  : list MappingRow :=
  filter (fun r => eq_str (Target_Table_Name r) target_table_name) (rows df).

(** Those of them that mark the business-key indicator affirmatively. *)
Definition marked_rows (df : DataFrame) (target_table_name : str)
  : list MappingRow :=
  filter (fun r => is_affirmative (Is_Business_Key r))
    (table_rows df target_table_name).

(** The column list of a generated header starts with a MergeKey column
    mapping. *)
Definition starts_with_merge_key (header : json) : Prop :=
  exists business_keys rest,
    json_getitem header (u "columns")
    = Ok (JArray (merge_key_column business_keys :: rest)).

(** C3, as stated: given the indicator column, the MergeKey column mapping
    is emitted for a target table if and only if one of its rows marks the
    indicator affirmatively. *)
Definition merge_key_iff_marked (E : Externals) (domain target_data_area : str)
  (source_schema_dict : dict json) (df : DataFrame) : Prop :=
  has_column df IsBusinessKey = true ->
  forall d, generate_mapping_config E domain target_data_area
              source_schema_dict df = Ok d ->
  forall t header, In (t, header) d ->
    (marked_rows df t <> [] <-> starts_with_merge_key header).

(** C9, as stated: a row without a usable source whose Transformation
    Function is a non-empty string that parses as JSON yields a column
    mapping, without failure. *)
Definition parsed_transformation_yields_mapping (E : Externals)
  (source_schema_dict : dict json) (df : DataFrame) (r : MappingRow) : Prop :=
  forall text parsed,
    Transformation_Function r = VStr text -> text <> [] ->
    nonblank_str (Source_Column_Name r) && nonblank_str (Source_Table_Name r)
    = false ->
    json_loads E text = Some parsed ->
    exists column_mapping,
      column_mapping_of_row E source_schema_dict df r = Ok (Some column_mapping).

(** A pair of tables with both names cleansed, as the loop of
    [generate_pipeline_config] reads it. *)
Definition cleansed_pair (row : value * value) : result (str * str) :=
  source_table_name <- first (cleanse_column_list [fst row]) ;;
  target_table_name <- first (cleanse_column_list [snd row]) ;;
  Ok (source_table_name, target_table_name).

(** The source table of the last pair that names a target table. *)
Fixpoint last_source (pairs : list (str * str)) (target_table_name : str)
  : option str :=
  match pairs with
  | [] => None
  | (s, t) :: rest =>
      match last_source rest target_table_name with
      | Some s' => Some s'
      | None => if eqb target_table_name t then Some s else None
      end
  end.

(** C4, as stated: every distinct pair of a source table and a target table
    has its linkage in the output. *)
Definition one_linkage_per_pair (domain target_data_area : str)
  (df : DataFrame) : Prop :=
  forall d pairs,
    generate_pipeline_config domain target_data_area df = Ok d ->
    pipeline_pairs df = Ok pairs ->
    forall p s t, In p pairs -> cleansed_pair p = Ok (s, t) ->
      exists area,
        In (pipeline_linkage area s target_data_area t) (map snd d).

(** The selection [mapping_file_df[mapping_file_df['Target Table Name'] ==
    target_table_name]]. *)
Definition table_frame (df : DataFrame) (target_table_name : str) : DataFrame :=
  {| columns := columns df; rows := table_rows df target_table_name |}.

(** The first source-table cell of a target table that is not missing. *)
Definition first_non_null_source (df : DataFrame) (target_table_name : str)
  : option value :=
  find (fun v => negb (isna v))
    (map Source_Table_Name (table_rows df target_table_name)).

(** C5, as stated: the source table of a target table is the first
    source-table value of its rows that is not null. *)
Definition source_table_is_first_non_null (df : DataFrame)
  (target_table_name : str) : Prop :=
  forall v,
    first_non_null_source df target_table_name = Some v ->
    associated_source_table df target_table_name = Ok v.

(** [col['name'] == 'MergeKey'] for an entry of a column list. *)
Definition named_MergeKey (col : json) : bool :=
  match json_getitem col (u "name") with
  | Ok name => json_eq_str name (u "MergeKey")
  | Raise _ => false
  end.

(** C8, as stated, for silver and gold: the column list of a generated
    target schema holds exactly one MergeKey column. *)
Definition exactly_one_MergeKey (header : json) : Prop :=
  exists cols,
    json_getitem header (u "columns") = Ok (JArray cols)
    /\ List.length (filter named_MergeKey cols) = 1%nat.

Definition silver_gold_exactly_one_MergeKey (E : Externals)
  (domain target_data_area : str) (source_schema_dict : dict json)
  (df : DataFrame) : Prop :=
  mem target_data_area [u "silver"; u "gold"] = true ->
  forall d,
    generate_target_schema_config E domain target_data_area
      source_schema_dict df = Ok d ->
    forall t header, In (t, header) d -> exactly_one_MergeKey header.

(** ** The vocabulary of the further properties *)

(** The types a column of a generated artifact can have. *)
Definition mapped_types : list str :=
  [u "integer"; u "double"; u "string"; u "timestamp"; u "long"].

(** The cleansed source columns [validate_mapping_file] reads for a source
    table: those of the rows whose Source Table Name cell is the cleansed
    table name. *)
Definition checked_source_columns (df : DataFrame) (source_table : str)
  : list str :=
  cleanse_column_list
    (unique
       (map Source_Column_Name
          (filter (fun r => eq_str (Source_Table_Name r) source_table)
             (rows df)))).

(** The names of the columns of a resolved source schema. *)
Definition schema_column_names (schema : json) : result (list json) :=
  schema_columns <- json_getitem schema (u "columns") ;;
  items <- json_iter schema_columns ;;
  mapM (fun col => json_getitem col (u "name")) items.

(** [name in names], for a string and the names of a schema. *)
Definition names_hold (names : list json) (name : str) : bool :=
  existsb (fun n => json_eq_str n name) names.


(** The path of the artifact [name] of a domain and a tier. *)
Definition output_path (domain target_data_area name : str) : path :=
  [OUTPUT_FOLDER; u "domains"; domain; target_data_area; name].

(** Named artifacts, as files of a domain and a tier. *)
Definition stored (domain target_data_area : str)
  (written : list (str * json)) : files :=
  map (fun f => (output_path domain target_data_area (fst f), snd f)) written.

(** [c] adds writes of artifacts of the domain and the tier to the writes
    made before; when it returns [a], [Q a] holds of the artifacts it wrote,
    in order. *)
Definition writes {A} (domain target_data_area : str) (c : io A)
  (Q : A -> list (str * json) -> Prop) : Prop :=
  forall fs, exists written,
    snd (c fs) = fs ++ stored domain target_data_area written
    /\ forall a, fst (c fs) = Ok a -> Q a written.

(** [f"{target_data_area}{kind}{table}.json"] *)
Definition artifact_name (target_data_area : str) (kind : string)
  (table : str) : str :=
  target_data_area ++ u kind ++ table ++ u ".json".

(** The artifact of one entry of a dictionary keyed by table. *)
Definition named (target_data_area : str) (kind : string)
  (item : str * json) : str * json :=
  (artifact_name target_data_area kind (fst item), snd item).

(** What the body of the loop of [process_mapping_file] over the source
    schemas computes before it writes: the name and the content of the
    file. *)
Definition source_schema_artifact (E : Externals) (target_data_area : str)
  (mapping_file_df : DataFrame) (item : str * json) : result (str * json) :=
  let (source_table, source_schema_dict) := item in
  target_table_name <-
    (selected <- where_eq mapping_file_df SourceTableName source_table ;;
     col <- column selected TargetTableName ;;
     first (unique col)) ;;
  source_area <- getitem TARGET_SOURCE_AREA_MAP target_data_area ;;
  source_schema_dict <-
    (if eqb source_area (u "landing-zone") then
       schema_columns <- json_getitem source_schema_dict (u "columns") ;;
       items <- json_iter schema_columns ;;
       retyped <- mapM with_type_string items ;;
       json_setitem source_schema_dict (u "columns") (JArray retyped)
     else Ok source_schema_dict) ;;
  Ok (source_area ++ u "_schema_" ++ format_value E target_table_name
        ++ u ".json",
      source_schema_dict).


(** A column mapping whose type is one of the mapped types. *)
Definition typed_column_mapping (c : json) : Prop :=
  exists name type source,
    c = column_mapping_dict name type source /\ In type mapped_types.

(** The result of a generator, with an empty dictionary for a failure. *)
Definition generated (r : result (dict json)) : dict json :=
  match r with
  | Ok d => d
  | Raise _ => []
  end.


(** The schema of the target column of a row: the cleansed target column
    with a mapped type. *)
Definition typed_column (r : MappingRow) (c : json) : Prop :=
  exists name type,
    first (cleanse_column_list [Target_Column_Name r]) = Ok name
    /\ c = JObject [(u "name", JString name); (u "type", JString type)]
    /\ In type mapped_types.

(** A column that is a name and a type, and nothing else. *)
Definition name_and_type (c : json) : Prop :=
  exists name type, c = JObject [(u "name", name); (u "type", type)].

(** [sort_values] returns rows of the frame it sorts. *)
Definition keeps_rows (E : Externals) : Prop :=
  forall by_col l sorted,
    sort_values E by_col l = Ok sorted ->
    forall r, In r sorted -> In r l.


(** [v.strip() if isinstance(v, str) else v] *)
Definition stripped_cell (v : value) : value :=
  match v with
  | VStr s => VStr (strip s)
  | VNone => VNone
  | VNaN => VNaN
  | VFloat q => VFloat q
  | VInt z => VInt z
  end.


(** The file system accepts every folder and every file. *)
Definition writable (E : Externals) : Prop :=
  (forall folder, os_makedirs E folder = Ok tt)
  /\ (forall file_path, open_for_writing E file_path = Ok tt).

(** * Part II: properties *)

Unset Implicit Arguments.

(** ** Strings *)

Lemma eqb_eq (a b : str) : eqb a b = true <-> a = b.
Proof. unfold eqb. destruct (str_eq_dec a b); split; congruence. Qed.

Lemma eqb_refl (a : str) : eqb a a = true.
Proof. apply eqb_eq. reflexivity. Qed.

Lemma eqb_neq (a b : str) : eqb a b = false <-> a <> b.
Proof. unfold eqb. destruct (str_eq_dec a b); split; congruence. Qed.

Lemma mem_In (x : str) (l : list str) : mem x l = true <-> In x l.
Proof.
  unfold mem. rewrite existsb_exists. split.
  - intros [y [Hy He]]. apply eqb_eq in He. now subst.
  - intros H. exists x. split; [assumption | apply eqb_refl].
Qed.

Lemma mem_not_In (x : str) (l : list str) : mem x l = false <-> ~ In x l.
Proof. rewrite <- mem_In. destruct (mem x l); split; congruence. Qed.

Lemma eq_str_true (v : value) (s : str) : eq_str v s = true <-> v = VStr s.
Proof.
  destruct v; simpl; try (split; congruence).
  rewrite eqb_eq. split; congruence.
Qed.

Lemma value_eqb_eq (a b : value) : value_eqb a b = true <-> a = b.
Proof. unfold value_eqb. destruct (value_eq_dec a b); split; congruence. Qed.

(** [lstrip] returns a suffix of its argument. *)
Lemma lstrip_suffix (s : str) : exists p, s = p ++ lstrip s.
Proof.
  induction s as [|c t [p Hp]]; simpl.
  - now exists [].
  - destruct (is_space c).
    + exists (c :: p). simpl. now f_equal.
    + now exists [].
Qed.

Lemma lstrip_head (s : str) c t : lstrip s = c :: t -> is_space c = false.
Proof.
  induction s as [|d s IH]; simpl; [discriminate|].
  destruct (is_space d) eqn:Hd; [assumption|].
  intros H. inversion H; subst. assumption.
Qed.

Lemma In_lstrip (s : str) c : In c (lstrip s) -> In c s.
Proof.
  destruct (lstrip_suffix s) as [p Hp]. intros H.
  rewrite Hp. apply in_or_app. now right.
Qed.

Lemma In_strip (s : str) c : In c (strip s) -> In c s.
Proof.
  unfold strip, rstrip. intros H.
  apply in_rev in H. apply In_lstrip in H. apply in_rev in H.
  now apply In_lstrip in H.
Qed.

(** [lstrip] of a string that ends with a character that is not white
    space keeps that end. *)
Lemma lstrip_app_nonspace (s : str) c :
  is_space c = false -> lstrip (s ++ [c]) = lstrip s ++ [c].
Proof.
  intros Hc. induction s as [|d t IH]; simpl.
  - now rewrite Hc.
  - destruct (is_space d); [assumption | reflexivity].
Qed.

(** A stripped string does not end with white space. *)
Lemma strip_last (s : str) p c : strip s = p ++ [c] -> is_space c = false.
Proof.
  unfold strip, rstrip. intros H.
  apply (f_equal (@rev char)) in H.
  rewrite rev_involutive, rev_app_distr in H. simpl in H.
  exact (@lstrip_head _ _ _ H).
Qed.

(** A stripped string does not start with white space. *)
Lemma strip_head (s : str) c t : strip s = c :: t -> is_space c = false.
Proof.
  unfold strip, rstrip.
  destruct (lstrip s) as [|c0 w] eqn:Hw; [discriminate|].
  pose proof (@lstrip_head s c0 w Hw) as Hc0.
  simpl rev. rewrite lstrip_app_nonspace by assumption.
  rewrite rev_app_distr. simpl.
  intros H. inversion H; subst. assumption.
Qed.

(** ** The error monad *)

Lemma bind_Ok {A B} (c : result A) (f : A -> result B) b :
  bind c f = Ok b -> exists a, c = Ok a /\ f a = Ok b.
Proof. destruct c; simpl; [eauto | discriminate]. Qed.

Lemma reraise_Ok {A} ctx (c : result A) a : reraise ctx c = Ok a -> c = Ok a.
Proof. destruct c; simpl; congruence. Qed.

(** Takes a hypothesis [x <- c ;; k = Ok r] apart. *)
Ltac bind_inv H x Hx :=
  apply bind_Ok in H; destruct H as [x [Hx H]].

Lemma mapM_Ok_length {A B} (f : A -> result B) l r :
  mapM f l = Ok r -> List.length r = List.length l.
Proof.
  revert r. induction l as [|x t IH]; simpl; intros r H.
  - now inversion H.
  - bind_inv H y Hy. bind_inv H r' Hr.
    inversion H; subst. simpl. f_equal. now apply IH.
Qed.

(** A loop that keeps an invariant on its accumulator. *)
Lemma foldM_invariant {A B} (P : B -> Prop) (f : B -> A -> result B) l :
  (forall acc x acc', In x l -> P acc -> f acc x = Ok acc' -> P acc') ->
  forall acc r, P acc -> foldM f l acc = Ok r -> P r.
Proof.
  induction l as [|x t IH]; simpl; intros Hstep acc r Hacc H.
  - inversion H; subst. assumption.
  - bind_inv H acc' Hacc'.
    apply IH with (acc := acc'); eauto.
Qed.

(** ** [cleanse_column_list] *)

Lemma dedupe_from_In (seen l : list str) x :
  In x (dedupe_from seen l) <-> In x l /\ ~ In x seen.
Proof.
  revert seen. induction l as [|y t IH]; intros seen; simpl.
  - tauto.
  - destruct (mem y seen) eqn:Hm.
    + apply mem_In in Hm. rewrite IH. split.
      * intros [H1 H2]. tauto.
      * intros [[H1|H1] H2]; [subst; contradiction | tauto].
    + apply mem_not_In in Hm. simpl. rewrite IH. simpl. split.
      * intros [H|[H1 H2]]; [subst; tauto | tauto].
      * intros [[H1|H1] H2]; [tauto|].
        destruct (str_eq_dec y x); [tauto|]. right. tauto.
Qed.

Lemma dedupe_from_NoDup (seen l : list str) : NoDup (dedupe_from seen l).
Proof.
  revert seen. induction l as [|y t IH]; intros seen; simpl.
  - constructor.
  - destruct (mem y seen); [apply IH|].
    constructor; [|apply IH].
    rewrite dedupe_from_In. simpl. tauto.
Qed.

(** Deduplicating with names already seen is deduplicating what is left
    once some of them are filtered out. *)
Lemma dedupe_from_app (s1 s2 l : list str) :
  dedupe_from (s1 ++ s2) l
  = dedupe_from s1 (filter (fun y => negb (mem y s2)) l).
Proof.
  revert s1. induction l as [|y t IH]; intros s1; simpl.
  - reflexivity.
  - unfold mem at 1. rewrite existsb_app. fold (mem y s1) (mem y s2).
    destruct (mem y s2) eqn:H2; simpl.
    + rewrite orb_true_r. apply IH.
    + rewrite orb_false_r. destruct (mem y s1) eqn:H1.
      * apply IH.
      * f_equal. apply (IH (y :: s1)).
Qed.

(** The first occurrence wins and the order is kept: the head stays, and
    the rest is deduplicated without it. *)
Lemma dedupe_cons (x : str) (t : list str) :
  dedupe (x :: t) = x :: dedupe (filter (fun y => negb (eqb y x)) t).
Proof.
  unfold dedupe. simpl. f_equal.
  change (dedupe_from [x] t) with (dedupe_from ([] ++ [x]) t).
  rewrite dedupe_from_app. f_equal.
  apply filter_ext. intros y. simpl. now rewrite orb_false_r.
Qed.

Lemma dedupe_NoDup (l : list str) : NoDup (dedupe l).
Proof. apply dedupe_from_NoDup. Qed.

Lemma dedupe_In (l : list str) x : In x (dedupe l) <-> In x l.
Proof. unfold dedupe. rewrite dedupe_from_In. simpl. tauto. Qed.

(** The steps of [cleanse_column_list] on a list of strings. *)
Lemma cleanse_steps_strings (ss : list str) :
  cleanse_steps (map VStr ss)
  = Ok (dedupe
          (map strip
             (map remove_invisible
                (filter (fun s => negb (eqb s [])) ss)))).
Proof.
  unfold cleanse_steps.
  assert (H1 : filter (fun col => negb (eq_str col [])) (map VStr ss)
               = map VStr (filter (fun s => negb (eqb s [])) ss)).
  { induction ss as [|s t IH]; simpl; [reflexivity|].
    destruct (eqb s []); simpl; rewrite IH; reflexivity. }
  rewrite H1. generalize (filter (fun s => negb (eqb s [])) ss) as xs.
  intros xs.
  assert (H2 : filterM not_float_nan (map VStr xs) = Ok (map VStr xs)).
  { induction xs as [|s t IH]; [reflexivity|].
    cbn [map filterM]. rewrite IH. reflexivity. }
  assert (H3 : mapM replace_invisible (map VStr xs)
               = Ok (map remove_invisible xs)).
  { clear H2. induction xs as [|s t IH]; [reflexivity|].
    cbn [map mapM]. rewrite IH. reflexivity. }
  assert (H4 : forall l3 : list str,
             filter (fun col => negb (is_None (VStr col))) l3 = l3).
  { induction l3 as [|s t IH]; simpl in *; congruence. }
  rewrite H2. cbn [bind]. rewrite H3. cbn [bind]. rewrite H4. reflexivity.
Qed.

Lemma cleanse_strings (ss : list str) :
  cleanse_column_list (map VStr ss)
  = dedupe
      (map strip
         (map remove_invisible (filter (fun s => negb (eqb s [])) ss))).
Proof. unfold cleanse_column_list. now rewrite cleanse_steps_strings. Qed.

Lemma filterM_not_float_nan_Ok (l l' : list value) :
  filterM not_float_nan l = Ok l' -> l' = l.
Proof.
  revert l'. induction l as [|v t IH]; simpl; intros l' H.
  - now inversion H.
  - unfold not_float_nan at 1 in H.
    destruct (is_float v); simpl in H; [discriminate|].
    bind_inv H r' Hr. inversion H; subst. f_equal. now apply IH.
Qed.

Lemma mapM_replace_invisible_Ok (l : list value) r :
  mapM replace_invisible l = Ok r -> Forall (fun v => is_str v = true) l.
Proof.
  revert r. induction l as [|v t IH]; simpl; intros r H.
  - constructor.
  - bind_inv H y Hy. bind_inv H r' Hr.
    constructor; [destruct v; simpl in *; congruence | eauto].
Qed.

Lemma strings_of_nonempty_strings (l : list value) :
  Forall (fun v => is_str v = true)
    (filter (fun col => negb (eq_str col [])) l) ->
  exists ss, l = map VStr ss.
Proof.
  induction l as [|v t IH]; intros H.
  - now exists [].
  - simpl in H.
    assert (Hv : is_str v = true).
    { destruct v; try reflexivity; simpl in H;
        inversion H; subst; simpl in *; congruence. }
    assert (Ht : Forall (fun v => is_str v = true)
                   (filter (fun col => negb (eq_str col [])) t)).
    { destruct (negb (eq_str v [])); [now inversion H | assumption]. }
    destruct (IH Ht) as [ss Hss].
    destruct v as [s| | | |]; try discriminate.
    exists (s :: ss). simpl. now f_equal.
Qed.

(** The steps succeed on lists of strings only. *)
Lemma cleanse_steps_Ok (l : list value) r :
  cleanse_steps l = Ok r -> exists ss, l = map VStr ss.
Proof.
  unfold cleanse_steps. intros H.
  bind_inv H l2 H2. bind_inv H l3 H3. clear H.
  apply filterM_not_float_nan_Ok in H2. subst l2.
  apply mapM_replace_invisible_Ok in H3.
  now apply strings_of_nonempty_strings.
Qed.

(** A list with an entry that is not a string cleanses to the empty list:
    the entry raises, and the [except] clause returns []. *)
Lemma cleanse_non_string (l : list value) v :
  In v l -> is_str v = false -> cleanse_column_list l = [].
Proof.
  intros Hin Hv. unfold cleanse_column_list.
  destruct (cleanse_steps l) as [r|e] eqn:H; [|reflexivity].
  apply cleanse_steps_Ok in H as [ss Hss]. subst l.
  apply in_map_iff in Hin as [s [Hs _]]. subst v. discriminate.
Qed.

(** Either way the result is the cleansing of a list of strings. *)
Lemma cleanse_cases (l : list value) :
  (exists ss, l = map VStr ss) \/ cleanse_column_list l = [].
Proof.
  unfold cleanse_column_list.
  destruct (cleanse_steps l) as [r|e] eqn:H; [left | now right].
  eapply cleanse_steps_Ok; eassumption.
Qed.

Lemma cleanse_NoDup (l : list value) : NoDup (cleanse_column_list l).
Proof.
  destruct (cleanse_cases l) as [[ss Hss]|H].
  - subst. rewrite cleanse_strings. apply dedupe_NoDup.
  - rewrite H. constructor.
Qed.

(** Every entry of the result is a stripped entry of the input with the
    invisible characters removed. *)
Lemma cleanse_In (l : list value) x :
  In x (cleanse_column_list l) ->
  exists s, In (VStr s) l /\ s <> [] /\ x = strip (remove_invisible s).
Proof.
  destruct (cleanse_cases l) as [[ss Hss]|H].
  - subst. rewrite cleanse_strings, dedupe_In.
    intros Hx. apply in_map_iff in Hx as [y [Hy Hx]].
    apply in_map_iff in Hx as [s [Hs Hx]].
    apply filter_In in Hx as [Hx Hne].
    exists s. repeat split.
    + now apply in_map.
    + intros ->. discriminate.
    + now subst.
  - rewrite H. contradiction.
Qed.

Lemma remove_char_In (c : char) (s : str) d :
  In d (remove_char c s) -> In d s /\ d <> c.
Proof.
  unfold remove_char. rewrite filter_In. intros [H1 H2]. split; [assumption|].
  intros ->. now rewrite N.eqb_refl in H2.
Qed.

Lemma remove_invisible_In (s : str) d :
  In d (remove_invisible s) -> is_invisible d = false.
Proof.
  unfold remove_invisible, is_invisible. intros H.
  apply remove_char_In in H as [H H1].
  apply remove_char_In in H as [H H2].
  apply remove_char_In in H as [H H3].
  apply remove_char_In in H as [H H4].
  apply N.eqb_neq in H1, H2, H3, H4.
  now rewrite H1, H2, H3, H4.
Qed.

(** No entry of the result holds one of the four invisible characters. *)
Lemma cleanse_no_invisible (l : list value) x d :
  In x (cleanse_column_list l) -> In d x -> is_invisible d = false.
Proof.
  intros Hx Hd. apply cleanse_In in Hx as [s [_ [_ ->]]].
  apply In_strip in Hd. eapply remove_invisible_In; eassumption.
Qed.

(** No entry of the result starts or ends with white space, so none is made
    of white space only, unless it is empty. *)
Lemma cleanse_stripped (l : list value) x :
  In x (cleanse_column_list l) ->
  (forall c t, x = c :: t -> is_space c = false)
  /\ (forall p c, x = p ++ [c] -> is_space c = false).
Proof.
  intros Hx. apply cleanse_In in Hx as [s [_ [_ ->]]]. split.
  - intros c t H. eapply strip_head; eassumption.
  - intros p c H. eapply strip_last; eassumption.
Qed.

(** A single string. *)
Lemma cleanse_singleton (s : str) :
  cleanse_column_list [VStr s]
  = if eqb s [] then [] else [strip (remove_invisible s)].
Proof.
  change [VStr s] with (map VStr [s]). rewrite cleanse_strings. simpl.
  destruct (eqb s []); reflexivity.
Qed.

Lemma cleanse_singleton_non_string (v : value) :
  is_str v = false -> cleanse_column_list [v] = [].
Proof. intros H. apply cleanse_non_string with (v := v); simpl; auto. Qed.

(** ** The examples of the specification *)

(** Without the [None] entry the list of the specification cleanses as the
    specification says. *)
Example cleanse_without_None :
  cleanse_column_list
    [VStr (u "A "); VStr (u " A"); VStr (u ""); VStr (u "B")]
  = [u "A"; u "B"].
Proof. reflexivity. Qed.

(** C2 (code defect).  [cleanse_column_list(["A ", " A", "", None, "B"])] is
    claimed to be [["A", "B"]].  The [None] entry is dropped only after the
    comprehension that calls [.replace] on every entry, which raises
    [AttributeError] on it; the [except] clause then returns the empty
    list. *)
Theorem cleanse_spec_example_is_empty :
  cleanse_steps
    [VStr (u "A "); VStr (u " A"); VStr (u ""); VNone; VStr (u "B")]
  = Raise AttributeError
  /\ cleanse_column_list
       [VStr (u "A "); VStr (u " A"); VStr (u ""); VNone; VStr (u "B")]
     = []
  /\ cleanse_column_list
       [VStr (u "A "); VStr (u " A"); VStr (u ""); VNone; VStr (u "B")]
     <> [u "A"; u "B"].
Proof.
  split; [reflexivity|]. split; [reflexivity|].
  vm_compute. discriminate.
Qed.

(** What does hold of every result of [cleanse_column_list]: no duplicate,
    no invisible character, no white space at either end of an entry, and
    (the entries being strings) no [None] and no [nan]. *)
Lemma cleanse_result_properties (l : list value) :
  NoDup (cleanse_column_list l)
  /\ (forall x d, In x (cleanse_column_list l) -> In d x ->
                  is_invisible d = false)
  /\ (forall x, In x (cleanse_column_list l) ->
                (forall c t, x = c :: t -> is_space c = false)
                /\ (forall p c, x = p ++ [c] -> is_space c = false)).
Proof.
  split; [apply cleanse_NoDup|]. split.
  - intros x d. apply cleanse_no_invisible.
  - intros x. apply cleanse_stripped.
Qed.

(** C7 (code defect).  The result of [cleanse_column_list] is claimed to
    hold no empty string.  The empty strings are removed first and the
    white space is stripped afterwards, so an entry made of white space
    (or of invisible characters) comes out as the empty string. *)
Theorem cleanse_keeps_blank_entry :
  cleanse_column_list [VStr (u " ")] = [[]]
  /\ cleanse_column_list [VStr (u "A"); VStr [160%N]; VStr (u "B")]
     = [u "A"; []; u "B"]
  /\ In [] (cleanse_column_list [VStr (u " ")]).
Proof.
  split; [reflexivity|]. split; [reflexivity|].
  vm_compute. now left.
Qed.

(** ** The required columns *)

Lemma required_columns_landing_zone :
  get_required_columns_list (u "landing-zone")
  = Ok [u "Source Table Name"; u "Source Column Name";
        u "Target Table Name"; u "Target Column Name"].
Proof. reflexivity. Qed.

(** The second ['bronze'] entry of the display replaces the first. *)
Lemma required_columns_bronze :
  get_required_columns_list (u "bronze")
  = Ok [u "Source Table Name"; u "Source Column Name";
        u "Target Table Name"; u "Target Column Name";
        u "Order By"; u "Partition By"; u "Is Business Key"; u "Data Type";
        u "Default Value"; u "Transformation Function"].
Proof. reflexivity. Qed.

(** The map has no entry for silver and none for gold. *)
Lemma required_columns_silver :
  get_required_columns_list (u "silver")
  = Raise (ValueError
             (InvalidTargetDataAreaOptions (u "silver")
                [u "landing-zone"; u "bronze"])).
Proof. reflexivity. Qed.

Lemma required_columns_gold :
  get_required_columns_list (u "gold")
  = Raise (ValueError
             (InvalidTargetDataAreaOptions (u "gold")
                [u "landing-zone"; u "bronze"])).
Proof. reflexivity. Qed.

Lemma set_difference_In (required present : list str) c :
  In c (set_difference required present)
  <-> In c required /\ ~ In c present.
Proof.
  unfold set_difference. rewrite filter_In, dedupe_In, negb_true_iff.
  now rewrite mem_not_In.
Qed.

Lemma NoDup_filter {A} (p : A -> bool) (l : list A) :
  NoDup l -> NoDup (filter p l).
Proof.
  induction 1 as [|x l Hx Hl IH]; simpl; [constructor|].
  destruct (p x); [|assumption].
  constructor; [|assumption].
  rewrite filter_In. tauto.
Qed.

Lemma set_difference_NoDup (required present : list str) :
  NoDup (set_difference required present).
Proof. apply NoDup_filter, dedupe_NoDup. Qed.

(** Where the tier has a required-column set, a file that lacks one of them
    is rejected with the set of the columns it lacks. *)
Lemma validate_reports_missing_columns (E : Externals)
  (mapping_file domain target_data_area file_type : str) df required :
  load_file_to_dataframe E mapping_file file_type = Ok df ->
  get_required_columns_list target_data_area = Ok required ->
  set_difference required (columns df) <> [] ->
  validate_mapping_file E mapping_file domain target_data_area file_type
  = Raise (ValueError
             (MissingRequiredColumns mapping_file
                (set_difference required (columns df)))).
Proof.
  intros Hload Hreq Hmiss. unfold validate_mapping_file.
  rewrite Hload. cbn [bind]. rewrite Hreq. cbn [bind].
  destruct (set_difference required (columns df)); [congruence | reflexivity].
Qed.

(** C1 (code defect).  For silver and gold, [validate_mapping_file] is
    claimed to compare the headers with the ten required columns and to
    report the missing ones.  [MAP_FILE_REQUIRED_COLUMNS_MAP] writes the key
    ['bronze'] twice and has no entry for silver or gold, so for these tiers
    every mapping file that loads, complete or not, is rejected with the
    invalid-target-data-area error and the headers are never compared. *)
Theorem validate_silver_gold_never_compares_headers (E : Externals)
  (mapping_file domain file_type : str) :
  validate_mapping_file E mapping_file domain (u "silver") file_type
  = match load_file_to_dataframe E mapping_file file_type with
    | Ok _ =>
        Raise (ValueError
                 (InvalidTargetDataAreaOptions (u "silver")
                    [u "landing-zone"; u "bronze"]))
    | Raise e => Raise e
    end
  /\ validate_mapping_file E mapping_file domain (u "gold") file_type
     = match load_file_to_dataframe E mapping_file file_type with
       | Ok _ =>
           Raise (ValueError
                    (InvalidTargetDataAreaOptions (u "gold")
                       [u "landing-zone"; u "bronze"]))
       | Raise e => Raise e
       end.
Proof.
  unfold validate_mapping_file.
  destruct (load_file_to_dataframe E mapping_file file_type) as [df|e];
    cbn [bind]; [|split; reflexivity].
  rewrite required_columns_silver, required_columns_gold.
  split; reflexivity.
Qed.

(** ** [unique] *)

Lemma unique_from_In (seen l : list value) x :
  In x (unique_from seen l) <-> In x l /\ ~ In x seen.
Proof.
  revert seen. induction l as [|y t IH]; intros seen; simpl.
  - tauto.
  - destruct (existsb (value_eqb y) seen) eqn:Hm.
    + apply existsb_exists in Hm as [z [Hz Hyz]].
      apply value_eqb_eq in Hyz. subst z.
      rewrite IH. split.
      * intros [H1 H2]. tauto.
      * intros [[H1|H1] H2]; [subst; contradiction | tauto].
    + assert (Hy : ~ In y seen).
      { intros Hin. apply Bool.not_true_iff_false in Hm. apply Hm.
        apply existsb_exists. exists y. split; [assumption|].
        now apply value_eqb_eq. }
      simpl. rewrite IH. simpl. split.
      * intros [H|[H1 H2]]; [subst; tauto | tauto].
      * intros [[H1|H1] H2]; [tauto|].
        destruct (value_eq_dec y x); [tauto|]. right. tauto.
Qed.

Lemma unique_In (l : list value) x : In x (unique l) <-> In x l.
Proof. unfold unique. rewrite unique_from_In. simpl. tauto. Qed.

(** The first distinct value is the first value. *)
Lemma first_unique (l : list value) : first (unique l) = first l.
Proof. destruct l; reflexivity. Qed.

Lemma all_strings (l : list value) :
  Forall (fun v => is_str v = true) l -> exists ss, l = map VStr ss.
Proof.
  induction 1 as [|v l Hv _ [ss ->]].
  - now exists [].
  - destruct v as [s| | | |]; try discriminate. now exists (s :: ss).
Qed.

(** A column of strings, one of them not empty, does not cleanse to the
    empty list. *)
Lemma cleanse_unique_nonempty (l : list value) :
  Forall (fun v => is_str v = true) l ->
  (exists s, In (VStr s) l /\ s <> []) ->
  cleanse_column_list (unique l) <> [].
Proof.
  intros Hall [s [Hs Hne]].
  assert (Hall' : Forall (fun v => is_str v = true) (unique l)).
  { rewrite Forall_forall in *. intros x Hx. apply Hall.
    now apply unique_In. }
  apply all_strings in Hall' as [ss Hss].
  assert (Hin : In s ss).
  { apply unique_In in Hs. rewrite Hss in Hs.
    apply in_map_iff in Hs as [s' [Heq Hs']]. now inversion Heq; subst. }
  rewrite Hss, cleanse_strings. intros Hnil.
  assert (H : In (strip (remove_invisible s))
                (dedupe
                   (map strip
                      (map remove_invisible
                         (filter (fun s => negb (eqb s [])) ss))))).
  { apply dedupe_In. apply in_map, in_map. apply filter_In.
    split; [assumption|]. apply negb_true_iff. now apply eqb_neq. }
  rewrite Hnil in H. contradiction.
Qed.

(** ** Landing-zone as a target *)

(** The map of upstream tiers has no entry for landing-zone, so no source
    schema resolves. *)
Lemma landing_zone_source_schema_raises (E : Externals) (domain table : str) :
  generate_source_schema_config E domain (u "landing-zone") table
  = Raise (ValueError (InvalidTargetDataArea (u "landing-zone"))).
Proof. reflexivity. Qed.

Lemma comprehension_raises {V} (f : str -> result V) e (ks : list str) :
  (forall k, f k = Raise e) ->
  comprehension f ks = match ks with [] => Ok [] | _ :: _ => Raise e end.
Proof.
  intros Hf. unfold comprehension. destruct ks as [|k t]; simpl.
  - reflexivity.
  - now rewrite Hf.
Qed.

Lemma has_required_column (required present : list str) c :
  set_difference required present = [] -> In c required ->
  mem c present = true.
Proof.
  intros Hnil Hc. destruct (mem c present) eqn:Hm; [reflexivity|].
  apply mem_not_In in Hm.
  assert (H : In c (set_difference required present))
    by (apply set_difference_In; tauto).
  rewrite Hnil in H. contradiction.
Qed.

(** What [validate_mapping_file] returns for landing-zone once the file
    loaded with its four required columns. *)
Lemma validate_landing_zone (E : Externals)
  (mapping_file domain file_type : str) df :
  load_file_to_dataframe E mapping_file file_type = Ok df ->
  set_difference
    [u "Source Table Name"; u "Source Column Name"; u "Target Table Name";
     u "Target Column Name"] (columns df) = [] ->
  validate_mapping_file E mapping_file domain (u "landing-zone") file_type
  = match cleanse_column_list (unique (map Source_Table_Name (rows df))) with
    | [] => Ok (df, [])
    | _ :: _ => Raise (ValueError (InvalidTargetDataArea (u "landing-zone")))
    end.
Proof.
  intros Hload Hmiss. unfold validate_mapping_file.
  rewrite Hload. cbn [bind]. rewrite required_columns_landing_zone.
  cbn [bind]. rewrite Hmiss.
  assert (Hcol : column df SourceTableName
                 = Ok (map Source_Table_Name (rows df))).
  { unfold column, has_column.
    rewrite (has_required_column _ _ _ Hmiss); [reflexivity|].
    now left. }
  rewrite Hcol. cbn [bind].
  rewrite (comprehension_raises _ _ _
             (landing_zone_source_schema_raises E domain)).
  destruct (cleanse_column_list (unique (map Source_Table_Name (rows df))));
    reflexivity.
Qed.

(** For landing-zone [validate_mapping_file] returns no source schema. *)
Lemma validate_landing_zone_no_schema (E : Externals)
  (mapping_file domain file_type : str) df d :
  validate_mapping_file E mapping_file domain (u "landing-zone") file_type
  = Ok (df, d) ->
  d = [].
Proof.
  unfold validate_mapping_file. intros H.
  bind_inv H df' Hload. bind_inv H required Hreq.
  destruct (set_difference required (columns df')); [|discriminate].
  bind_inv H col Hcol. bind_inv H sd Hsd.
  rewrite (comprehension_raises _ _ _
             (landing_zone_source_schema_raises E domain)) in Hsd.
  destruct (cleanse_column_list (unique col)); [|discriminate].
  inversion Hsd; subst sd. simpl in H.
  inversion H; subst. reflexivity.
Qed.


(** A run that targets landing-zone raises before [process_mapping_file]
    and writes nothing. *)
Lemma main_landing_zone_raises (E : Externals)
  (input_file domain file_type mode : str) (fs : files) :
  exists e,
    main E input_file domain (u "landing-zone") file_type mode fs
    = (Raise e, fs).
Proof.
  unfold main, io_bind, lift.
  destruct (validate_mapping_file E input_file domain (u "landing-zone")
              file_type) as [[df d]|e] eqn:Hv.
  - apply validate_landing_zone_no_schema in Hv. subst d.
    destruct (rows df); eauto.
  - eauto.
Qed.

(** C10 (amended).  For target tier landing-zone, a mapping file that has
    the four required columns and whose Source Table Name cells are all
    strings, one of them not empty, makes [validate_mapping_file] raise the
    invalid-target-data-area error when it resolves the first source
    schema; and whatever the file, [main] raises before
    [process_mapping_file] and writes no file. *)
Theorem landing_zone_target_is_rejected (E : Externals)
  (mapping_file domain file_type mode : str) (df : DataFrame) :
  load_file_to_dataframe E mapping_file file_type = Ok df ->
  set_difference
    [u "Source Table Name"; u "Source Column Name"; u "Target Table Name";
     u "Target Column Name"] (columns df) = [] ->
  Forall (fun v => is_str v = true) (map Source_Table_Name (rows df)) ->
  (exists s, In (VStr s) (map Source_Table_Name (rows df)) /\ s <> []) ->
  validate_mapping_file E mapping_file domain (u "landing-zone") file_type
  = Raise (ValueError (InvalidTargetDataArea (u "landing-zone")))
  /\ forall fs, exists e,
       main E mapping_file domain (u "landing-zone") file_type mode fs
       = (Raise e, fs).
Proof.
  intros Hload Hmiss Hall Hsome. split.
  - rewrite (validate_landing_zone E mapping_file domain file_type df Hload
               Hmiss).
    pose proof (cleanse_unique_nonempty _ Hall Hsome) as Hne.
    destruct (cleanse_column_list (unique (map Source_Table_Name (rows df))));
      [congruence | reflexivity].
  - intros fs. apply main_landing_zone_raises.
Qed.

Lemma landing_zone_target_is_rejected_witness :
  let E := Example.world LandingZoneExamples.orders [] [] in
  let df := LandingZoneExamples.orders in
  (load_file_to_dataframe E (u "map.xlsx") (u "excel") = Ok df
   /\ set_difference
        [u "Source Table Name"; u "Source Column Name";
         u "Target Table Name"; u "Target Column Name"] (columns df) = []
   /\ Forall (fun v => is_str v = true) (map Source_Table_Name (rows df))
   /\ (exists s, In (VStr s) (map Source_Table_Name (rows df)) /\ s <> []))
  /\ (validate_mapping_file E (u "map.xlsx") (u "sales") (u "landing-zone")
        (u "excel")
      = Raise (ValueError (InvalidTargetDataArea (u "landing-zone")))
      /\ forall fs, exists e,
           main E (u "map.xlsx") (u "sales") (u "landing-zone") (u "excel")
             (u "debug") fs
           = (Raise e, fs)).
Proof.
  intros E df.
  assert (H1 : load_file_to_dataframe E (u "map.xlsx") (u "excel") = Ok df)
    by reflexivity.
  assert (H2 : set_difference
                 [u "Source Table Name"; u "Source Column Name";
                  u "Target Table Name"; u "Target Column Name"] (columns df)
               = []) by reflexivity.
  assert (H3 : Forall (fun v => is_str v = true)
                 (map Source_Table_Name (rows df)))
    by (repeat constructor).
  assert (H4 : exists s, In (VStr s) (map Source_Table_Name (rows df))
                         /\ s <> [])
    by (exists (u "ORDERS"); split; [now left | discriminate]).
  split; [tauto|].
  exact (landing_zone_target_is_rejected E (u "map.xlsx") (u "sales")
           (u "excel") (u "debug") df H1 H2 H3 H4).
Defined.

(** The claim as stated fails on a file that lacks a required column: the
    missing columns are reported before any source schema is resolved. *)
Lemma landing_zone_missing_columns_come_first :
  validate_mapping_file
    (Example.world LandingZoneExamples.orders_two_headers [] [])
    (u "map.xlsx") (u "sales") (u "landing-zone") (u "excel")
  = Raise (ValueError
             (MissingRequiredColumns (u "map.xlsx")
                [u "Source Column Name"; u "Target Column Name"]))
  /\ ~ landing_zone_always_invalid_area
        (Example.world LandingZoneExamples.orders_two_headers [] [])
        (u "map.xlsx") (u "sales") (u "excel").
Proof.
  split; [reflexivity|].
  intros H.
  specialize (H LandingZoneExamples.orders_two_headers eq_refl).
  assert (Hrow : exists r,
             In r (rows LandingZoneExamples.orders_two_headers)
             /\ isna (Source_Table_Name r) = false)
    by (eexists; split; [now left | reflexivity]).
  specialize (H Hrow). vm_compute in H. discriminate.
Qed.

(** It also fails where the source table cell is not a string: the list of
    source tables cleanses to the empty list and validation returns, with no
    source schema. *)
Lemma landing_zone_numbered_source_passes_validation :
  validate_mapping_file
    (Example.world LandingZoneExamples.numbered_source [] [])
    (u "map.xlsx") (u "sales") (u "landing-zone") (u "excel")
  = Ok (LandingZoneExamples.numbered_source, []).
Proof. reflexivity. Qed.

(** A row without a source table has the same effect, because the check
    for [nan] raises. *)
Lemma landing_zone_missing_cell_passes_validation :
  validate_mapping_file
    (Example.world LandingZoneExamples.orders_and_constant [] [])
    (u "map.xlsx") (u "sales") (u "landing-zone") (u "excel")
  = Ok (LandingZoneExamples.orders_and_constant, []).
Proof. reflexivity. Qed.

(** ** Dictionaries and frames *)

Lemma set_In {V} (k k' : str) (v v' : V) (d : dict V) :
  In (k, v) (set k' v' d) -> (k = k' /\ v = v') \/ In (k, v) d.
Proof.
  induction d as [|[k0 v0] t IH]; simpl.
  - intros [H|[]]. inversion H. tauto.
  - destruct (eqb k' k0) eqn:Hk.
    + apply eqb_eq in Hk. subst k0.
      intros [H|H]; [inversion H; tauto | tauto].
    + intros [H|H]; [tauto|]. destruct (IH H); tauto.
Qed.

(** A loop that stores one entry per key keeps what holds of each entry. *)
Lemma foldM_set_invariant {V} (P : str -> V -> Prop)
  (f : dict V -> str -> result (dict V)) (ks : list str) :
  (forall d k d', f d k = Ok d' ->
                  exists v, P k v /\ d' = set k v d) ->
  forall d r, (forall k v, In (k, v) d -> P k v) ->
              foldM f ks d = Ok r ->
              forall k v, In (k, v) r -> P k v.
Proof.
  intros Hf d r Hd Hfold.
  apply (foldM_invariant (fun d => forall k v, In (k, v) d -> P k v) f ks)
    with (acc := d); [|assumption|assumption].
  intros acc x acc' _ Hacc Hstep k v Hin.
  destruct (Hf _ _ _ Hstep) as [v' [Hv' ->]].
  apply set_In in Hin as [[-> ->]|Hin]; auto.
Qed.

Lemma where_eq_Ok (df : DataFrame) (c : Column) (s : str) f :
  where_eq df c s = Ok f ->
  has_column df c = true
  /\ f = {| columns := columns df;
            rows := filter (fun r => eq_str (cell r c) s) (rows df) |}.
Proof.
  unfold where_eq. destruct (has_column df c); [|discriminate].
  intros H. inversion H. tauto.
Qed.

Lemma column_Ok (df : DataFrame) (c : Column) l :
  column df c = Ok l ->
  has_column df c = true /\ l = map (fun r => cell r c) (rows df).
Proof.
  unfold column. destruct (has_column df c); [|discriminate].
  intros H. inversion H. tauto.
Qed.

(** ** The MergeKey column of a mapping *)

(** The loop over the rows only appends. *)
Lemma append_column_mappings_prefix (E : Externals) ssd f initial cols :
  append_column_mappings E ssd f initial = Ok cols ->
  exists more, cols = initial ++ more.
Proof.
  unfold append_column_mappings.
  apply (foldM_invariant (fun acc => exists more, acc = initial ++ more)).
  - intros acc r acc' _ [more ->] H. unfold append_column_mapping in H.
    bind_inv H mapped Hm. inversion H; subst.
    destruct mapped as [m|].
    + exists (more ++ [m]). now rewrite app_assoc.
    + now exists more.
  - exists []. now rewrite app_nil_r.
Qed.

(** With the indicator column, the column list of every table starts with
    the MergeKey column, computed from the marked rows. *)
Lemma mapping_columns_start_with_merge_key (E : Externals) ssd df t cols :
  has_column df IsBusinessKey = true ->
  mapping_columns_of_table E ssd df t = Ok cols ->
  exists rest,
    cols = merge_key_column
             (cleanse_column_list
                (map Target_Column_Name (marked_rows df t))) :: rest.
Proof.
  intros Hbk H. unfold mapping_columns_of_table in H.
  bind_inv H f Hf. bind_inv H initial Hinit.
  apply where_eq_Ok in Hf as [_ ->].
  unfold business_key_columns in Hinit.
  change (has_column {| columns := columns df;
                        rows := filter
                                  (fun r => eq_str (cell r TargetTableName) t)
                                  (rows df) |} IsBusinessKey)
    with (has_column df IsBusinessKey) in Hinit.
  rewrite Hbk in Hinit.
  bind_inv Hinit whole Hwhole. bind_inv Hinit series Hseries.
  bind_inv Hinit ok Hok. bind_inv Hinit col Hcol.
  apply column_Ok in Hcol as [_ ->]. inversion Hinit; subst initial.
  apply append_column_mappings_prefix in H as [more ->].
  exists more. reflexivity.
Qed.

(** C3 (amended).  Whenever the mapping file has an 'Is Business Key'
    column, [generate_mapping_config] puts the MergeKey column mapping
    (function [key_hash], type [string]) first in the column list of every
    target table; its [column_names] are the cleansed target columns of the
    rows of the table that mark the indicator with y, yes, true, t, 1 or x
    in any letter case, in row order, and the list is empty when no row is
    marked. *)
Theorem merge_key_is_always_prepended (E : Externals)
  (domain target_data_area : str) (source_schema_dict : dict json)
  (df : DataFrame) (d : dict json) :
  has_column df IsBusinessKey = true ->
  generate_mapping_config E domain target_data_area source_schema_dict df
  = Ok d ->
  forall t header, In (t, header) d ->
    exists rest,
      json_getitem header (u "columns")
      = Ok (JArray
              (merge_key_column
                 (cleanse_column_list
                    (map Target_Column_Name (marked_rows df t))) :: rest)).
Proof.
  intros Hbk H. unfold generate_mapping_config in H.
  bind_inv H col Hcol.
  revert H. apply foldM_set_invariant; [|intros k v []].
  intros acc k acc' Hstep.
  bind_inv Hstep area Harea. bind_inv Hstep cols Hcols.
  destruct (mapping_columns_start_with_merge_key _ _ _ _ _ Hbk Hcols)
    as [rest ->].
  match type of Hstep with
  | context [set k ?h acc] => exists h
  end.
  split.
  - exists rest. reflexivity.
  - match type of Hstep with
    | match ?x with _ => _ end = _ => destruct x; [discriminate|]
    end.
    now inversion Hstep.
Qed.

Lemma merge_key_is_always_prepended_witness :
  let E := Example.world MappingExamples.keyed Example.orders_catalogue [] in
  let df := MappingExamples.keyed in
  let d :=
    match generate_mapping_config E (u "sales") (u "bronze")
            MappingExamples.orders_schema df with
    | Ok d => d
    | Raise _ => []
    end in
  (has_column df IsBusinessKey = true
   /\ generate_mapping_config E (u "sales") (u "bronze")
        MappingExamples.orders_schema df = Ok d)
  /\ forall t header, In (t, header) d ->
       exists rest,
         json_getitem header (u "columns")
         = Ok (JArray
                 (merge_key_column
                    (cleanse_column_list
                       (map Target_Column_Name (marked_rows df t))) :: rest)).
Proof.
  intros E df d.
  assert (H1 : has_column df IsBusinessKey = true) by reflexivity.
  assert (H2 : generate_mapping_config E (u "sales") (u "bronze")
                 MappingExamples.orders_schema df = Ok d)
    by (vm_compute; reflexivity).
  split; [tauto|].
  exact (merge_key_is_always_prepended E (u "sales") (u "bronze")
           MappingExamples.orders_schema df d H1 H2).
Defined.

(** The example of the specification: [OrderId] is marked with "Y", and the
    mapping of [DimOrders] starts with the MergeKey column over
    [["OrderId"]]. *)
Example merge_key_of_marked_column :
  mapping_columns_of_table
    (Example.world MappingExamples.keyed Example.orders_catalogue [])
    MappingExamples.orders_schema MappingExamples.keyed (u "DimOrders")
  = Ok [merge_key_column [u "OrderId"];
        column_mapping_dict (u "OrderId") (u "integer")
          (JObject [(u "name", JString (u "id"));
                    (u "type", JString (u "integer"))]);
        column_mapping_dict (u "OrderName") (u "string")
          (JObject [(u "name", JString (u "name"));
                    (u "type", JString (u "string"))])].
Proof. reflexivity. Qed.

(** The claim as stated fails on a table none of whose rows is marked: the
    MergeKey column is emitted all the same, over no column. *)
Lemma merge_key_without_marked_row :
  mapping_columns_of_table
    (Example.world MappingExamples.unkeyed Example.orders_catalogue [])
    MappingExamples.orders_schema MappingExamples.unkeyed (u "DimOrders")
  = Ok [merge_key_column [];
        column_mapping_dict (u "OrderId") (u "integer")
          (JObject [(u "name", JString (u "id"));
                    (u "type", JString (u "integer"))]);
        column_mapping_dict (u "OrderName") (u "string")
          (JObject [(u "name", JString (u "name"));
                    (u "type", JString (u "string"))])]
  /\ ~ merge_key_iff_marked
        (Example.world MappingExamples.unkeyed Example.orders_catalogue [])
        (u "sales") (u "bronze") MappingExamples.orders_schema
        MappingExamples.unkeyed.
Proof.
  split; [reflexivity|].
  intros H. specialize (H eq_refl).
  destruct (generate_mapping_config
              (Example.world MappingExamples.unkeyed Example.orders_catalogue [])
              (u "sales") (u "bronze") MappingExamples.orders_schema
              MappingExamples.unkeyed) as [d|e] eqn:Hd;
    [|vm_compute in Hd; discriminate].
  specialize (H d eq_refl).
  vm_compute in Hd. inversion Hd as [Hd']. clear Hd. rewrite <- Hd' in H.
  specialize (H _ _ (or_introl eq_refl)).
  destruct H as [_ H]. apply H; [|reflexivity].
  exists []. eexists. cbv. reflexivity.
Qed.

(** ** Rows with a transformation function *)

Lemma foldM_app {A B} (f : B -> A -> result B) (l1 l2 : list A) (acc : B) :
  foldM f (l1 ++ l2) acc = (acc' <- foldM f l1 acc ;; foldM f l2 acc').
Proof.
  revert acc. induction l1 as [|x t IH]; intros acc; simpl.
  - reflexivity.
  - destruct (f acc x); simpl; [apply IH | reflexivity].
Qed.

(** What the row body computes when the row has no usable source and its
    transformation is a non-empty string. *)
Lemma column_mapping_of_transformation (E : Externals) ssd df r name text :
  has_column df TargetColumnName = true ->
  has_column df SourceColumnName = true ->
  has_column df SourceTableName = true ->
  has_column df TransformationFunction = true ->
  Target_Column_Name r = VStr name ->
  nonblank_str (Source_Column_Name r) && nonblank_str (Source_Table_Name r)
  = false ->
  Transformation_Function r = VStr text ->
  text <> [] ->
  column_mapping_of_row E ssd df r
  = (type <- declared_data_type df r ;;
     match json_loads E text with
     | None => Ok None
     | Some parsed =>
         source_dict <- json_setitem parsed (u "type") (JString (u "string")) ;;
         Ok (Some (column_mapping_dict (strip name) type source_dict))
     end).
Proof.
  intros Htc Hsc Hst Htf Hname Hsrc Htext Hne.
  unfold column_mapping_of_row, row_get.
  rewrite Htc, Hsc, Hst, Htf. cbn [bind cell].
  rewrite Hname. cbn [bind].
  destruct (declared_data_type df r) as [type|e]; cbn [bind]; [|reflexivity].
  rewrite Hsrc, Htext.
  destruct text as [|c text']; [congruence | reflexivity].
Qed.

(** The declared type never fails once the row can be read. *)
Lemma declared_data_type_Ok (df : DataFrame) (r : MappingRow) :
  exists type, declared_data_type df r = Ok type.
Proof.
  unfold declared_data_type, row_get.
  destruct (has_column df DataType); cbn [bind]; eauto.
Qed.

(** C9 (amended).  In [generate_mapping_config], for a row whose Target
    Column Name is a string, that has no usable source table and column, and
    whose Transformation Function is a non-empty string: if the string
    parses as a JSON object, the row yields a column mapping whose source is
    that object with its [type] set to [string], and nothing fails; if it
    does not parse as JSON, the row is skipped and the loop goes on with the
    remaining rows of the target table. *)
Theorem transformation_function_row (E : Externals)
  (source_schema_dict : dict json) (df : DataFrame) (r : MappingRow)
  (name text : str) :
  has_column df TargetColumnName = true ->
  has_column df SourceColumnName = true ->
  has_column df SourceTableName = true ->
  has_column df TransformationFunction = true ->
  Target_Column_Name r = VStr name ->
  nonblank_str (Source_Column_Name r) && nonblank_str (Source_Table_Name r)
  = false ->
  Transformation_Function r = VStr text ->
  text <> [] ->
  (forall members,
      json_loads E text = Some (JObject members) ->
      exists type,
        declared_data_type df r = Ok type
        /\ column_mapping_of_row E source_schema_dict df r
           = Ok (Some
                   (column_mapping_dict (strip name) type
                      (JObject (set (u "type") (JString (u "string")) members))))
        /\ forall cols,
             append_column_mapping E source_schema_dict df cols r
             = Ok (cols
                     ++ [column_mapping_dict (strip name) type
                           (JObject
                              (set (u "type") (JString (u "string")) members))]))
  /\ (json_loads E text = None ->
      column_mapping_of_row E source_schema_dict df r = Ok None
      /\ forall before after cols,
           foldM (append_column_mapping E source_schema_dict df)
             (before ++ r :: after) cols
           = foldM (append_column_mapping E source_schema_dict df)
               (before ++ after) cols).
Proof.
  intros Htc Hsc Hst Htf Hname Hsrc Htext Hne.
  pose proof (column_mapping_of_transformation E source_schema_dict df r name
                text Htc Hsc Hst Htf Hname Hsrc Htext Hne) as Hrow.
  destruct (declared_data_type_Ok df r) as [type Htype].
  rewrite Htype in Hrow. cbn [bind] in Hrow.
  split.
  - intros members Hparsed. rewrite Hparsed in Hrow. cbn in Hrow.
    exists type. split; [assumption|]. split; [assumption|].
    intros cols. unfold append_column_mapping. rewrite Hrow. reflexivity.
  - intros Hparsed. rewrite Hparsed in Hrow.
    split; [assumption|].
    intros before after cols. rewrite !foldM_app.
    destruct (foldM (append_column_mapping E source_schema_dict df) before cols)
      as [acc|e]; cbn [bind]; [|reflexivity].
    cbn [foldM]. unfold append_column_mapping at 1. rewrite Hrow.
    reflexivity.
Qed.

Lemma transformation_function_row_witness :
  let df := MappingExamples.with_constant in
  let E := Example.world df Example.orders_catalogue [] in
  let ssd := MappingExamples.orders_schema in
  let r := MappingExamples.transformed "Zero"
             (VStr Example.const_function_text) in
  let name := u "Zero" in
  let text := Example.const_function_text in
  (has_column df TargetColumnName = true
   /\ has_column df SourceColumnName = true
   /\ has_column df SourceTableName = true
   /\ has_column df TransformationFunction = true
   /\ Target_Column_Name r = VStr name
   /\ nonblank_str (Source_Column_Name r)
      && nonblank_str (Source_Table_Name r) = false
   /\ Transformation_Function r = VStr text
   /\ text <> [])
  /\ (forall members,
         json_loads E text = Some (JObject members) ->
         exists type,
           declared_data_type df r = Ok type
           /\ column_mapping_of_row E ssd df r
              = Ok (Some
                      (column_mapping_dict (strip name) type
                         (JObject
                            (set (u "type") (JString (u "string")) members))))
           /\ forall cols,
                append_column_mapping E ssd df cols r
                = Ok (cols
                        ++ [column_mapping_dict (strip name) type
                              (JObject
                                 (set (u "type") (JString (u "string"))
                                    members))]))
  /\ (json_loads E text = None ->
      column_mapping_of_row E ssd df r = Ok None
      /\ forall before after cols,
           foldM (append_column_mapping E ssd df) (before ++ r :: after) cols
           = foldM (append_column_mapping E ssd df) (before ++ after) cols).
Proof.
  intros df E ssd r name text.
  assert (H1 : has_column df TargetColumnName = true) by reflexivity.
  assert (H2 : has_column df SourceColumnName = true) by reflexivity.
  assert (H3 : has_column df SourceTableName = true) by reflexivity.
  assert (H4 : has_column df TransformationFunction = true) by reflexivity.
  assert (H5 : Target_Column_Name r = VStr name) by reflexivity.
  assert (H6 : nonblank_str (Source_Column_Name r)
               && nonblank_str (Source_Table_Name r) = false) by reflexivity.
  assert (H7 : Transformation_Function r = VStr text) by reflexivity.
  assert (H8 : text <> []) by (vm_compute; discriminate).
  split; [tauto|].
  exact (transformation_function_row E ssd df r name text
           H1 H2 H3 H4 H5 H6 H7 H8).
Defined.

(** The scenario of the specification: the transformation
    ['{"function":"const","params":{"value":0}}'] gives a column whose
    source is that object with [type: "string"]; the type of the column is
    the declared one. *)
Example constant_transformation_is_mapped :
  mapping_columns_of_table
    (Example.world MappingExamples.with_constant Example.orders_catalogue [])
    MappingExamples.orders_schema MappingExamples.with_constant
    (u "DimOrders")
  = Ok [merge_key_column [u "OrderId"];
        column_mapping_dict (u "OrderId") (u "integer")
          (JObject [(u "name", JString (u "id"));
                    (u "type", JString (u "integer"))]);
        column_mapping_dict (u "Zero") (u "integer")
          (JObject [(u "function", JString (u "const"));
                    (u "params", JObject [(u "value", JInt 0)]);
                    (u "type", JString (u "string"))]);
        column_mapping_dict (u "OrderName") (u "string")
          (JObject [(u "name", JString (u "name"));
                    (u "type", JString (u "string"))])].
Proof. reflexivity. Qed.

(** A transformation that is not JSON: the row is left out and the rows
    after it are mapped. *)
Example broken_transformation_is_skipped :
  mapping_columns_of_table
    (Example.world MappingExamples.with_broken_json Example.orders_catalogue [])
    MappingExamples.orders_schema MappingExamples.with_broken_json
    (u "DimOrders")
  = Ok [merge_key_column [u "OrderId"];
        column_mapping_dict (u "OrderId") (u "integer")
          (JObject [(u "name", JString (u "id"));
                    (u "type", JString (u "integer"))]);
        column_mapping_dict (u "OrderName") (u "string")
          (JObject [(u "name", JString (u "name"));
                    (u "type", JString (u "string"))])].
Proof. reflexivity. Qed.

(** The claim as stated fails on a transformation that parses as JSON and
    is not an object: ['[]'] is a list, the assignment of its ["type"] item
    raises [TypeError], which the [except json.JSONDecodeError] clause does
    not catch, and the generation of the mapping fails. *)
Lemma json_array_transformation_raises :
  column_mapping_of_row
    (Example.world MappingExamples.with_json_array Example.orders_catalogue [])
    MappingExamples.orders_schema MappingExamples.with_json_array
    (MappingExamples.transformed "Zero" (Example.txt "[]"))
  = Raise TypeError
  /\ generate_mapping_config
       (Example.world MappingExamples.with_json_array Example.orders_catalogue [])
       (u "sales") (u "bronze") MappingExamples.orders_schema
       MappingExamples.with_json_array
     = Raise TypeError
  /\ ~ parsed_transformation_yields_mapping
        (Example.world MappingExamples.with_json_array
           Example.orders_catalogue [])
        MappingExamples.orders_schema MappingExamples.with_json_array
        (MappingExamples.transformed "Zero" (Example.txt "[]")).
Proof.
  split; [reflexivity|]. split; [reflexivity|].
  intros H.
  destruct (H (u "[]") (JArray []) eq_refl) as [m Hm];
    [discriminate | reflexivity | reflexivity |].
  vm_compute in Hm. discriminate.
Qed.

(** ** Pipeline linkages *)

Lemma get_set {V} (k k' : str) (v : V) (d : dict V) :
  get k (set k' v d) = if eqb k k' then Some v else get k d.
Proof.
  induction d as [|[k0 v0] t IH]; simpl.
  - reflexivity.
  - destruct (eqb k' k0) eqn:Hk0; simpl.
    + apply eqb_eq in Hk0. subst k0.
      destruct (eqb k k'); reflexivity.
    + rewrite IH. destruct (eqb k k0) eqn:Hkk0; [|reflexivity].
      apply eqb_eq in Hkk0. subst k0.
      destruct (eqb k k') eqn:Hkk'; [|reflexivity].
      apply eqb_eq in Hkk'. subst k'. rewrite eqb_refl in Hk0. discriminate.
Qed.

Lemma keys_set {V} (k k' : str) (v : V) (d : dict V) :
  In k (keys (set k' v d)) <-> k = k' \/ In k (keys d).
Proof.
  unfold keys. induction d as [|[k0 v0] t IH]; simpl.
  - intuition congruence.
  - destruct (eqb k' k0) eqn:Hk0; simpl.
    + apply eqb_eq in Hk0. subst k0. intuition congruence.
    + rewrite IH. intuition congruence.
Qed.

Lemma NoDup_keys_set {V} (k : str) (v : V) (d : dict V) :
  NoDup (keys d) -> NoDup (keys (set k v d)).
Proof.
  unfold keys. induction d as [|[k0 v0] t IH]; simpl; intros H.
  - constructor; [tauto | constructor].
  - inversion H as [|? ? Hk0 Ht]; subst.
    destruct (eqb k k0) eqn:Hk; simpl.
    + constructor; assumption.
    + constructor; [|now apply IH].
      intros Hin. apply (keys_set k0 k v t) in Hin as [Hin|Hin].
      * subst. rewrite eqb_refl in Hk. discriminate.
      * contradiction.
Qed.

Lemma get_In {V} (k : str) (v : V) (d : dict V) :
  get k d = Some v -> In (k, v) d.
Proof.
  induction d as [|[k0 v0] t IH]; simpl; [discriminate|].
  destruct (eqb k k0) eqn:Hk.
  - apply eqb_eq in Hk. subst. intros H. inversion H. now left.
  - intros H. right. now apply IH.
Qed.

Lemma In_get {V} (k : str) (v : V) (d : dict V) :
  NoDup (keys d) -> In (k, v) d -> get k d = Some v.
Proof.
  unfold keys. induction d as [|[k0 v0] t IH]; simpl; intros Hnd Hin.
  - contradiction.
  - inversion Hnd as [|? ? Hk0 Ht]; subst.
    destruct Hin as [Heq|Hin].
    + inversion Heq; subst. now rewrite eqb_refl.
    + destruct (eqb k k0) eqn:Hk.
      * apply eqb_eq in Hk. subst k0. exfalso. apply Hk0.
        apply in_map_iff. exists (k, v). auto.
      * now apply IH.
Qed.

Lemma get_keys {V} (k : str) (d : dict V) :
  In k (keys d) <-> get k d <> None.
Proof.
  unfold keys. induction d as [|[k0 v0] t IH]; simpl.
  - intuition congruence.
  - destruct (eqb k k0) eqn:Hk.
    + apply eqb_eq in Hk. subst. intuition congruence.
    + apply eqb_neq in Hk. rewrite <- IH. intuition congruence.
Qed.

(** One turn of the loop, in terms of the cleansed pair. *)
Lemma add_pipeline_linkage_Ok (target : str) acc p acc' :
  add_pipeline_linkage target acc p = Ok acc' ->
  exists s t area,
    cleansed_pair p = Ok (s, t)
    /\ get target TARGET_SOURCE_AREA_MAP = Some area
    /\ acc' = set t (pipeline_linkage area s target t) acc.
Proof.
  unfold add_pipeline_linkage, cleansed_pair. intros H.
  bind_inv H s Hs. bind_inv H t Ht. bind_inv H area Harea.
  exists s, t, area. rewrite Hs, Ht. cbn [bind].
  unfold getitem in Harea.
  destruct (get target TARGET_SOURCE_AREA_MAP); inversion Harea; subst.
  inversion H. auto.
Qed.

(** The loop stores, for each target table, the linkage of the last pair
    that names it. *)
Lemma pipeline_loop (target : str) (pairs : list (value * value)) :
  forall acc r,
    NoDup (keys acc) ->
    foldM (add_pipeline_linkage target) pairs acc = Ok r ->
    exists cleansed,
      mapM cleansed_pair pairs = Ok cleansed
      /\ NoDup (keys r)
      /\ (forall t, In t (keys r)
                    <-> In t (keys acc) \/ In t (map snd cleansed))
      /\ forall t,
           get t r
           = match last_source cleansed t with
             | Some s =>
                 option_map (fun area => pipeline_linkage area s target t)
                   (get target TARGET_SOURCE_AREA_MAP)
             | None => get t acc
             end.
Proof.
  induction pairs as [|p l IH]; intros acc r Hnd H; simpl in H.
  - inversion H; subst. exists []. simpl. repeat split; tauto.
  - bind_inv H acc1 Hacc1.
    apply add_pipeline_linkage_Ok in Hacc1 as [s [t1 [area [Hp [Harea ->]]]]].
    destruct (IH _ _ (NoDup_keys_set t1 _ acc Hnd) H)
      as [cleansed [Hc [Hnd' [Hkeys Hget]]]].
    exists ((s, t1) :: cleansed). cbn [mapM]. rewrite Hp, Hc. cbn [bind].
    split; [reflexivity|]. split; [assumption|]. split.
    + intros t. rewrite Hkeys, keys_set. cbn [map snd In].
      intuition congruence.
    + intros t. rewrite Hget. cbn [last_source].
      destruct (last_source cleansed t); [reflexivity|].
      rewrite get_set.
      destruct (eqb t t1) eqn:Ht; [|reflexivity].
      apply eqb_eq in Ht. subst. rewrite Harea. reflexivity.
Qed.

(** C4 (amended).  [generate_pipeline_config] takes the distinct pairs of
    source-table and target-table cells, drops those with a missing cell,
    cleanses both names, and emits exactly one PipelineLinkage per distinct
    cleansed target table name; when several source tables map to the same
    target table, the linkage kept is that of the last such pair in row
    order. *)
Theorem pipeline_one_linkage_per_target (domain target_data_area : str)
  (df : DataFrame) (d : dict json) :
  generate_pipeline_config domain target_data_area df = Ok d ->
  exists pairs cleansed,
    pipeline_pairs df = Ok pairs
    /\ mapM cleansed_pair pairs = Ok cleansed
    /\ NoDup (keys d)
    /\ (forall t, In t (keys d) <-> In t (map snd cleansed))
    /\ forall t header, In (t, header) d ->
         exists area s,
           getitem TARGET_SOURCE_AREA_MAP target_data_area = Ok area
           /\ last_source cleansed t = Some s
           /\ header = pipeline_linkage area s target_data_area t.
Proof.
  intros H. apply reraise_Ok in H. bind_inv H pairs Hpairs.
  destruct (pipeline_loop target_data_area pairs [] d (NoDup_nil _) H)
    as [cleansed [Hc [Hnd [Hkeys Hget]]]].
  exists pairs, cleansed. repeat split; try assumption.
  - intros Hin. apply Hkeys in Hin as [[]|Hin]. assumption.
  - intros Hin. apply Hkeys. now right.
  - intros t header Hin. apply (In_get _ _ _ Hnd) in Hin.
    rewrite Hget in Hin.
    destruct (last_source cleansed t) as [s|]; [|discriminate].
    unfold getitem.
    destruct (get target_data_area TARGET_SOURCE_AREA_MAP) as [area|];
      [|discriminate].
    exists area, s. inversion Hin. auto.
Qed.

Lemma pipeline_one_linkage_per_target_witness :
  let df := PipelineExamples.two_targets in
  let d :=
    [(u "DimOrders",
       pipeline_linkage (u "landing-zone") (u "ORDERS") (u "bronze")
         (u "DimOrders"));
     (u "DimClients",
       pipeline_linkage (u "landing-zone") (u "CLIENTS") (u "bronze")
         (u "DimClients"))] in
  generate_pipeline_config (u "sales") (u "bronze") df = Ok d
  /\ exists pairs cleansed,
       pipeline_pairs df = Ok pairs
       /\ mapM cleansed_pair pairs = Ok cleansed
       /\ NoDup (keys d)
       /\ (forall t, In t (keys d) <-> In t (map snd cleansed))
       /\ forall t header, In (t, header) d ->
            exists area s,
              getitem TARGET_SOURCE_AREA_MAP (u "bronze") = Ok area
              /\ last_source cleansed t = Some s
              /\ header = pipeline_linkage area s (u "bronze") t.
Proof.
  intros df d.
  assert (H : generate_pipeline_config (u "sales") (u "bronze") df = Ok d)
    by reflexivity.
  split; [exact H|].
  exact (pipeline_one_linkage_per_target (u "sales") (u "bronze") df d H).
Defined.

(** The claim as stated fails where two source tables map to one target
    table: the dictionary is keyed by the target table, the second pair
    replaces the first, and [ORDERS -> DimOrders] has no linkage. *)
Lemma pipeline_two_sources_one_linkage :
  generate_pipeline_config (u "sales") (u "bronze")
    PipelineExamples.two_sources
  = Ok [(u "DimOrders",
          pipeline_linkage (u "landing-zone") (u "RETURNS") (u "bronze")
            (u "DimOrders"))]
  /\ ~ one_linkage_per_pair (u "sales") (u "bronze")
        PipelineExamples.two_sources.
Proof.
  split; [reflexivity|].
  intros H.
  destruct (H _ _ eq_refl eq_refl
              (Example.txt "ORDERS", Example.txt "DimOrders")
              (u "ORDERS") (u "DimOrders")
              (or_introl eq_refl) eq_refl) as [area Hin].
  destruct Hin as [Heq|[]].
  vm_compute in Heq. discriminate.
Qed.

(** ** Target schemas *)

(** The source table of a target table is the source-table cell of its first
    row, missing or not. *)
Lemma associated_source_table_first (df : DataFrame) (t : str) v :
  associated_source_table df t = Ok v ->
  exists r rest, table_rows df t = r :: rest /\ Source_Table_Name r = v.
Proof.
  unfold associated_source_table. intros H.
  bind_inv H selected Hsel. bind_inv H col Hcol.
  apply where_eq_Ok in Hsel as [_ ->].
  apply column_Ok in Hcol as [_ ->].
  rewrite first_unique in H. cbn [rows cell] in H.
  fold (table_rows df t) in H.
  destruct (table_rows df t) as [|r rest]; [discriminate|].
  inversion H. eauto.
Qed.

(** What a generated target schema is made of. *)
Lemma target_schema_of_table_Ok (E : Externals) (domain target : str)
  (ssd : dict json) (df : DataFrame) (t : str) header :
  target_schema_of_table E domain target ssd df t = Ok header ->
  exists v schema sort part row_schemas audit,
    associated_source_table df t = Ok v
    /\ getitem_value ssd v = Ok schema
    /\ ordered_target_columns E (table_frame df t) OrderBy = Ok sort
    /\ ordered_target_columns E (table_frame df t) PartitionBy = Ok part
    /\ mapM (target_column_schema_of_row df (table_frame df t) schema)
         (table_rows df t) = Ok row_schemas
    /\ get_data_area_audit_columns E target = Ok audit
    /\ header
       = if mem target [u "silver"; u "gold"]
         then target_schema_header domain t (sort ++ [u "MergeKey"]) part
                (MergeKey_column :: row_schemas ++ audit)
         else target_schema_header domain t sort (part ++ [u "IngestDate"])
                (row_schemas ++ audit).
Proof.
  unfold target_schema_of_table. intros H.
  bind_inv H v Hv. bind_inv H schema Hschema. bind_inv H tdf Htdf.
  apply where_eq_Ok in Htdf as [_ ->].
  change {| columns := columns df;
            rows := filter (fun r => eq_str (cell r TargetTableName) t)
                      (rows df) |}
    with (table_frame df t) in H.
  bind_inv H sort Hsort. bind_inv H part Hpart.
  destruct (mem target [u "silver"; u "gold"]);
    bind_inv H row_schemas Hrows; bind_inv H audit Haudit;
    exists v, schema, sort, part, row_schemas, audit;
    repeat (split; [assumption|]);
    injection H as <-; rewrite ?app_nil_l, <- ?app_assoc; reflexivity.
Qed.

(** Every entry of the result is the target schema of its table. *)
Lemma generate_target_schema_config_entries (E : Externals)
  (domain target : str) (ssd : dict json) (df : DataFrame) d :
  generate_target_schema_config E domain target ssd df = Ok d ->
  forall t header, In (t, header) d ->
    target_schema_of_table E domain target ssd df t = Ok header.
Proof.
  intros H. apply reraise_Ok in H. bind_inv H col Hcol.
  revert H. apply foldM_set_invariant; [|intros k v []].
  intros acc k acc' Hstep. bind_inv Hstep hdr Hhdr.
  exists hdr. inversion Hstep. auto.
Qed.

Lemma filterM_In {A} (p : A -> result bool) (l r : list A) x :
  filterM p l = Ok r -> In x r -> In x l /\ p x = Ok true.
Proof.
  revert r. induction l as [|y t IH]; simpl; intros r H Hin.
  - inversion H; subst. contradiction.
  - bind_inv H b Hb. bind_inv H r' Hr'. inversion H; subst. clear H.
    destruct b.
    + destruct Hin as [->|Hin]; [tauto|].
      destruct (IH _ Hr' Hin). tauto.
    + destruct (IH _ Hr' Hin). tauto.
Qed.

(** The type of a target column: the mapped declared type when the row has
    no source column, and otherwise the mapped type of the column of the
    given source schema whose name is the cleansed source column name. *)
Lemma target_column_type (df tdf : DataFrame) (schema : json)
  (r : MappingRow) col :
  target_column_schema_of_row df tdf schema r = Ok col ->
  exists target_name type,
    first (cleanse_column_list [Target_Column_Name r]) = Ok target_name
    /\ col = JObject [(u "name", JString target_name);
                      (u "type", JString type)]
    /\ if isna (Source_Column_Name r)
       then type = datatype_of_value (Data_Type r)
       else exists source_name schema_columns items source_column source_type,
           first (cleanse_column_list [Source_Column_Name r]) = Ok source_name
           /\ json_getitem schema (u "columns") = Ok schema_columns
           /\ json_iter schema_columns = Ok items
           /\ In source_column items
           /\ json_getitem source_column (u "name") = Ok (JString source_name)
           /\ json_getitem source_column (u "type") = Ok source_type
           /\ datatype_of_json source_type = Ok type.
Proof.
  unfold target_column_schema_of_row. intros H.
  do 4 (let x := fresh "ok" in let Hx := fresh "Hok" in bind_inv H x Hx).
  bind_inv H tc Htc. bind_inv H target_name Htn. bind_inv H sc Hsc.
  unfold row_get in Htc, Hsc.
  destruct (has_column tdf TargetColumnName); [|discriminate].
  destruct (has_column tdf SourceColumnName); [|discriminate].
  injection Htc as <-. injection Hsc as <-. cbn [cell] in *.
  destruct (isna (Source_Column_Name r)).
  - bind_inv H dt Hdt. unfold row_get in Hdt.
    destruct (has_column tdf DataType); [|discriminate].
    injection Hdt as <-. injection H as <-.
    exists target_name, (datatype_of_value (Data_Type r)). auto.
  - bind_inv H source_name Hsn. bind_inv H schema_columns Hcols.
    bind_inv H items Hitems. bind_inv H matching Hmatch.
    bind_inv H source_column Hfirst. bind_inv H source_type Htype.
    bind_inv H type Hty. injection H as <-.
    exists target_name, type. split; [assumption|]. split; [reflexivity|].
    exists source_name, schema_columns, items, source_column, source_type.
    assert (Hin : In source_column matching)
      by (destruct matching; inversion Hfirst; now left).
    destruct (filterM_In _ _ _ _ Hmatch Hin) as [Hin' Hname].
    bind_inv Hname n Hn. injection Hname as Heq.
    destruct n; try discriminate. apply eqb_eq in Heq. subst.
    repeat (split; [assumption|]). assumption.
Qed.

(** How the code finds the source table of a target table: whenever
    [generate_target_schema_config] returns, the first row of every target
    table holds a string in its Source Table Name cell, that string is the
    source table taken, its schema is resolved, and the types of the target
    columns that have a source column come from that one schema. *)
Theorem source_table_is_first_row_value (E : Externals)
  (domain target_data_area : str) (source_schema_dict : dict json)
  (df : DataFrame) (d : dict json) :
  generate_target_schema_config E domain target_data_area
    source_schema_dict df = Ok d ->
  forall t header, In (t, header) d ->
    exists r rest s schema row_schemas audit,
      table_rows df t = r :: rest
      /\ Source_Table_Name r = VStr s
      /\ associated_source_table df t = Ok (VStr s)
      /\ get s source_schema_dict = Some schema
      /\ mapM (target_column_schema_of_row df (table_frame df t) schema)
           (table_rows df t) = Ok row_schemas
      /\ get_data_area_audit_columns E target_data_area = Ok audit
      /\ json_getitem header (u "columns")
         = Ok (JArray
                 ((if mem target_data_area [u "silver"; u "gold"]
                   then [MergeKey_column] else [])
                  ++ row_schemas ++ audit)).
Proof.
  intros H t hdr Hin.
  pose proof (generate_target_schema_config_entries _ _ _ _ _ _ H _ _ Hin)
    as Ht.
  apply target_schema_of_table_Ok in Ht
    as [v [schema [sort [part [row_schemas [audit
         [Hv [Hschema [_ [_ [Hrows [Haudit ->]]]]]]]]]]]].
  destruct (associated_source_table_first _ _ _ Hv) as [r [rest [Hr Hs]]].
  destruct v as [s| | | |]; try discriminate.
  unfold getitem_value, getitem in Hschema.
  destruct (get s source_schema_dict) as [schema'|] eqn:Hget; [|discriminate].
  injection Hschema as ->.
  exists r, rest, s, schema, row_schemas, audit.
  repeat (split; [assumption|]).
  destruct (mem target_data_area [u "silver"; u "gold"]); reflexivity.
Qed.

(** C8 (amended).  For target tiers silver and gold, every schema that
    [generate_target_schema_config] produces has the MergeKey column of type
    string as the first entry of its column list, followed by one column per
    mapping row and by the audit columns, so that it holds exactly one
    MergeKey column exactly when no mapping row and no audit column is named
    MergeKey; and its sort columns end with MergeKey.  For every other tier,
    landing-zone and bronze among them, its partition columns end with
    IngestDate. *)
Theorem target_schema_key_columns (E : Externals)
  (domain target_data_area : str) (source_schema_dict : dict json)
  (df : DataFrame) (d : dict json) :
  generate_target_schema_config E domain target_data_area
    source_schema_dict df = Ok d ->
  forall t header, In (t, header) d ->
    exists sort part row_schemas audit,
      List.length row_schemas = List.length (table_rows df t)
      /\ get_data_area_audit_columns E target_data_area = Ok audit
      /\ if mem target_data_area [u "silver"; u "gold"]
         then header
              = target_schema_header domain t (sort ++ [u "MergeKey"]) part
                  (MergeKey_column :: row_schemas ++ audit)
              /\ (exactly_one_MergeKey header
                  <-> filter named_MergeKey (row_schemas ++ audit) = [])
         else header
              = target_schema_header domain t sort
                  (part ++ [u "IngestDate"]) (row_schemas ++ audit).
Proof.
  intros H t hdr Hin.
  pose proof (generate_target_schema_config_entries _ _ _ _ _ _ H _ _ Hin)
    as Ht.
  apply target_schema_of_table_Ok in Ht
    as [v [schema [sort [part [row_schemas [audit
         [_ [_ [_ [_ [Hrows [Haudit ->]]]]]]]]]]]].
  exists sort, part, row_schemas, audit.
  split; [eapply mapM_Ok_length; eassumption|]. split; [assumption|].
  destruct (mem target_data_area [u "silver"; u "gold"]); [|reflexivity].
  split; [reflexivity|].
  unfold exactly_one_MergeKey. split.
  - intros [cols [Hcols Hlen]].
    change (json_getitem
              (target_schema_header domain t (sort ++ [u "MergeKey"]) part
                 (MergeKey_column :: row_schemas ++ audit)) (u "columns"))
      with (Ok (A := json)
              (JArray (MergeKey_column :: row_schemas ++ audit))) in Hcols.
    injection Hcols as <-.
    change (filter named_MergeKey (MergeKey_column :: row_schemas ++ audit))
      with (MergeKey_column :: filter named_MergeKey (row_schemas ++ audit))
      in Hlen.
    simpl in Hlen. apply length_zero_iff_nil. lia.
  - intros Hnil. exists (MergeKey_column :: row_schemas ++ audit).
    split; [reflexivity|].
    change (filter named_MergeKey (MergeKey_column :: row_schemas ++ audit))
      with (MergeKey_column :: filter named_MergeKey (row_schemas ++ audit)).
    rewrite Hnil. reflexivity.
Qed.

Lemma source_table_is_first_row_value_witness :
  let df := SchemaExamples.orders in
  let E := Example.world df Example.orders_catalogue [] in
  let ssd := MappingExamples.orders_schema in
  let d :=
    match generate_target_schema_config E (u "sales") (u "bronze") ssd df with
    | Ok d => d
    | Raise _ => []
    end in
  generate_target_schema_config E (u "sales") (u "bronze") ssd df = Ok d
  /\ forall t header, In (t, header) d ->
       exists r rest s schema row_schemas audit,
         table_rows df t = r :: rest
         /\ Source_Table_Name r = VStr s
         /\ associated_source_table df t = Ok (VStr s)
         /\ get s ssd = Some schema
         /\ mapM (target_column_schema_of_row df (table_frame df t) schema)
              (table_rows df t) = Ok row_schemas
         /\ get_data_area_audit_columns E (u "bronze") = Ok audit
         /\ json_getitem header (u "columns")
            = Ok (JArray
                    ((if mem (u "bronze") [u "silver"; u "gold"]
                      then [MergeKey_column] else [])
                     ++ row_schemas ++ audit)).
Proof.
  intros df E ssd d.
  assert (H : generate_target_schema_config E (u "sales") (u "bronze") ssd df
              = Ok d) by (vm_compute; reflexivity).
  split; [exact H|].
  exact (source_table_is_first_row_value E (u "sales") (u "bronze") ssd df d H).
Defined.

(** C5 (code defect).  The source table of a target table is claimed to be
    the first source-table value of its rows that is not null.  The code
    takes the first value, null or not ([unique().tolist()[0]] with no
    [dropna]).  When the first row of [DimOrders] sets a constant and has no
    source table, the value taken is [nan], [source_schema_dict[nan]] raises
    [KeyError] and the generation fails, although the next row names
    [ORDERS], whose schema is resolved.  The other generators accept the
    same file: [generate_pipeline_config] drops the missing value and
    [generate_mapping_config] maps the constant; and the same rows with the
    constant in second place give the schema the claim describes. *)
Theorem schema_generation_fails_on_source_less_first_row :
  first_non_null_source SchemaExamples.constant_first (u "DimOrders")
  = Some (Example.txt "ORDERS")
  /\ (exists schema, get (u "ORDERS") MappingExamples.orders_schema = Some schema)
  /\ associated_source_table SchemaExamples.constant_first (u "DimOrders")
     = Ok VNaN
  /\ ~ source_table_is_first_non_null SchemaExamples.constant_first
        (u "DimOrders")
  /\ generate_target_schema_config
       (Example.world SchemaExamples.constant_first Example.orders_catalogue [])
       (u "sales") (u "bronze") MappingExamples.orders_schema
       SchemaExamples.constant_first
     = Raise (ValueError (Wrapped "Error generating target schema" KeyError))
  /\ generate_pipeline_config (u "sales") (u "bronze")
       SchemaExamples.constant_first
     = Ok [(u "DimOrders",
            pipeline_linkage (u "landing-zone") (u "ORDERS") (u "bronze")
              (u "DimOrders"))]
  /\ (exists mcd,
         generate_mapping_config
           (Example.world SchemaExamples.constant_first
              Example.orders_catalogue [])
           (u "sales") (u "bronze") MappingExamples.orders_schema
           SchemaExamples.constant_first
         = Ok mcd
         /\ keys mcd = [u "DimOrders"])
  /\ associated_source_table SchemaExamples.constant_second (u "DimOrders")
     = Ok (Example.txt "ORDERS")
  /\ generate_target_schema_config
       (Example.world SchemaExamples.constant_second Example.orders_catalogue [])
       (u "sales") (u "bronze") MappingExamples.orders_schema
       SchemaExamples.constant_second
     = Ok [(u "DimOrders",
            target_schema_header (u "sales") (u "DimOrders")
              [u "OrderName"; u "OrderId"] [u "OrderId"; u "IngestDate"]
              [Example.audit_column "OrderId" "integer";
               Example.audit_column "LoadedBy" "string";
               Example.audit_column "OrderName" "string";
               Example.audit_column "IngestDate" "timestamp";
               Example.audit_column "SourceFile" "string"])].
Proof.
  split; [reflexivity|]. split; [eexists; reflexivity|].
  split; [reflexivity|]. split.
  { intros H. specialize (H _ eq_refl). vm_compute in H. discriminate. }
  split; [reflexivity|]. split; [reflexivity|].
  split; [eexists; split; vm_compute; reflexivity|].
  split; reflexivity.
Qed.

Lemma target_schema_key_columns_witness :
  let df := SchemaExamples.orders in
  let E := Example.world df Example.orders_catalogue [] in
  let ssd := MappingExamples.orders_schema in
  let d :=
    match generate_target_schema_config E (u "sales") (u "silver") ssd df with
    | Ok d => d
    | Raise _ => []
    end in
  generate_target_schema_config E (u "sales") (u "silver") ssd df = Ok d
  /\ forall t header, In (t, header) d ->
       exists sort part row_schemas audit,
         List.length row_schemas = List.length (table_rows df t)
         /\ get_data_area_audit_columns E (u "silver") = Ok audit
         /\ if mem (u "silver") [u "silver"; u "gold"]
            then header
                 = target_schema_header (u "sales") t
                     (sort ++ [u "MergeKey"]) part
                     (MergeKey_column :: row_schemas ++ audit)
                 /\ (exactly_one_MergeKey header
                     <-> filter named_MergeKey (row_schemas ++ audit) = [])
            else header
                 = target_schema_header (u "sales") t sort
                     (part ++ [u "IngestDate"]) (row_schemas ++ audit).
Proof.
  intros df E ssd d.
  assert (H : generate_target_schema_config E (u "sales") (u "silver") ssd df
              = Ok d) by (vm_compute; reflexivity).
  split; [exact H|].
  exact (target_schema_key_columns E (u "sales") (u "silver") ssd df d H).
Defined.

(** The scenario of the specification for silver: one MergeKey column of
    type string, first, and sort columns that end with MergeKey. *)
Example silver_schema_of_orders :
  generate_target_schema_config
    (Example.world SchemaExamples.orders Example.orders_catalogue [])
    (u "sales") (u "silver") MappingExamples.orders_schema
    SchemaExamples.orders
  = Ok [(u "DimOrders",
          target_schema_header (u "sales") (u "DimOrders")
            [u "OrderName"; u "OrderId"; u "MergeKey"] [u "OrderId"]
            [MergeKey_column;
             Example.audit_column "OrderId" "integer";
             Example.audit_column "OrderName" "string";
             Example.audit_column "UpdatedAt" "timestamp"])].
Proof. reflexivity. Qed.

(** The scenario of the specification for bronze: the types come from the
    source schema ([int] to [integer], [varchar] to [string]), the audit
    columns follow, and the partition columns end with IngestDate. *)
Example bronze_schema_of_orders :
  generate_target_schema_config
    (Example.world SchemaExamples.orders Example.orders_catalogue [])
    (u "sales") (u "bronze") MappingExamples.orders_schema
    SchemaExamples.orders
  = Ok [(u "DimOrders",
          target_schema_header (u "sales") (u "DimOrders")
            [u "OrderName"; u "OrderId"] [u "OrderId"; u "IngestDate"]
            [Example.audit_column "OrderId" "integer";
             Example.audit_column "OrderName" "string";
             Example.audit_column "IngestDate" "timestamp";
             Example.audit_column "SourceFile" "string"])].
Proof. reflexivity. Qed.

(** The claim as stated fails where a mapping row is itself named MergeKey,
    as in a gold table that carries the MergeKey of its silver source over:
    the column list holds the synthetic column and the mapped one. *)
Lemma gold_schema_has_two_MergeKey_columns :
  generate_target_schema_config
    (Example.world SchemaExamples.gold_orders [] [])
    (u "sales") (u "gold") SchemaExamples.silver_orders_schema
    SchemaExamples.gold_orders
  = Ok [(u "FactOrders",
          target_schema_header (u "sales") (u "FactOrders")
            [u "OrderId"; u "MergeKey"] []
            [MergeKey_column;
             MergeKey_column;
             Example.audit_column "OrderId" "integer";
             Example.audit_column "PublishedAt" "timestamp"])]
  /\ ~ silver_gold_exactly_one_MergeKey
        (Example.world SchemaExamples.gold_orders [] [])
        (u "sales") (u "gold") SchemaExamples.silver_orders_schema
        SchemaExamples.gold_orders.
Proof.
  split; [reflexivity|].
  intros H.
  destruct (H eq_refl _ eq_refl _ _ (or_introl eq_refl)) as [cols [Hc Hlen]].
  vm_compute in Hc. injection Hc as <-. vm_compute in Hlen. discriminate.
Qed.

(** ** Invalid source columns *)

(** When validation raises, the run raises the same error and writes
    nothing. *)
Lemma main_stops_when_validation_fails (E : Externals)
  (input_file domain target file_type mode : str) e (fs : files) :
  validate_mapping_file E input_file domain target file_type = Raise e ->
  main E input_file domain target file_type mode fs = (Raise e, fs).
Proof. intros H. unfold main, io_bind, lift. now rewrite H. Qed.

(** The scenario of the specification: [ORDERS.email] is not in the resolved
    schema of [ORDERS]; validation fails naming [email] and no file is
    written. *)
Example unknown_email_column_is_reported :
  main (Example.world ValidationExamples.orders_with_email
          Example.orders_catalogue [])
    (u "map.xlsx") (u "sales") (u "bronze") (u "excel") (u "debug") []
  = (Raise (ValueError (InvalidSourceColumns (u "map.xlsx") [u "email"])), []).
Proof. reflexivity. Qed.

(** C6 (code defect).  Every source column that is absent from the resolved
    schema of its source table is claimed to make validation fail, naming
    it, with no file written.  The rows of a source table are selected by
    comparing the cell with the cleansed table name, so the rows of a table
    whose cell carries a space are never checked: the file with [email] and
    the cell ["ORDERS "] passes validation, and the run writes the
    target-tables file before it fails.  The same happens when a row of the
    table has no source column, since the [nan] in the list of source
    columns makes [cleanse_column_list] return the empty list. *)
Theorem padded_source_table_escapes_validation :
  validate_mapping_file
    (Example.world ValidationExamples.padded_orders_with_email
       Example.orders_catalogue [])
    (u "map.xlsx") (u "sales") (u "bronze") (u "excel")
  = Ok (ValidationExamples.padded_orders_with_email,
        [(u "ORDERS",
           JObject
             [(u "domain", JString (u "sales"));
              (u "table_name", JString (u "ORDERS"));
              (u "columns",
                JArray (map JObject
                          [Example.catalogue_column "id" "int";
                           Example.catalogue_column "name" "varchar"]))])])
  /\ (let (outcome, written) :=
        main (Example.world ValidationExamples.padded_orders_with_email
                Example.orders_catalogue [])
          (u "map.xlsx") (u "sales") (u "bronze") (u "excel") (u "debug") []
      in
      outcome
      = Raise (ValueError (Wrapped "Error processing mapping file" IndexError))
      /\ map fst written
         = [[OUTPUT_FOLDER; u "domains"; u "sales"; u "bronze";
             u "bronze_target_tables_sales.json"]])
  /\ (let (outcome, written) :=
        main (Example.world ValidationExamples.orders_with_email_and_default
                Example.orders_catalogue [])
          (u "map.xlsx") (u "sales") (u "bronze") (u "excel") (u "debug") []
      in
      outcome
      = Raise (ValueError
                 (Wrapped "Error processing mapping file"
                    (ValueError
                       (Wrapped "Error generating target schema" IndexError))))
      /\ map fst written
         = [[OUTPUT_FOLDER; u "domains"; u "sales"; u "bronze";
             u "bronze_target_tables_sales.json"];
            [OUTPUT_FOLDER; u "domains"; u "sales"; u "bronze";
             u "landing-zone_schema_DimOrders.json"]]).
Proof.
  split; [reflexivity|]. split; vm_compute; split; reflexivity.
Qed.

(** The silver file of C1: all ten columns present, and rejected. *)
Example complete_silver_file_is_rejected :
  validate_mapping_file
    (Example.world MappingExamples.keyed Example.orders_catalogue [])
    (u "map.xlsx") (u "sales") (u "silver") (u "excel")
  = Raise (ValueError
             (InvalidTargetDataAreaOptions (u "silver")
                [u "landing-zone"; u "bronze"])).
Proof. reflexivity. Qed.

(** A bronze file that lacks columns is rejected with the columns it
    lacks. *)
Example bronze_file_with_four_columns :
  validate_mapping_file
    (Example.world LandingZoneExamples.orders Example.orders_catalogue [])
    (u "map.xlsx") (u "sales") (u "bronze") (u "excel")
  = Raise (ValueError
             (MissingRequiredColumns (u "map.xlsx")
                [u "Order By"; u "Partition By"; u "Is Business Key";
                 u "Data Type"; u "Default Value";
                 u "Transformation Function"])).
Proof. reflexivity. Qed.

(** * Part III: further properties of the code *)

(** ** [cleanse_column_list], continued *)

(** Filtering before or after deduplication is the same, provided the names
    already seen agree on what the filter keeps. *)
Lemma dedupe_from_filter (p : str -> bool) (l : list str) :
  forall seen seen',
    (forall y, p y = true -> mem y seen = mem y seen') ->
    filter p (dedupe_from seen l) = dedupe_from seen' (filter p l).
Proof.
  induction l as [|y t IH]; intros seen seen' Hagree; simpl.
  - reflexivity.
  - destruct (p y) eqn:Hy; simpl.
    + rewrite <- (Hagree y Hy). destruct (mem y seen) eqn:Hm.
      * now apply IH.
      * simpl. rewrite Hy. f_equal. apply IH.
        intros z Hz. simpl. now rewrite (Hagree z Hz).
    + destruct (mem y seen) eqn:Hm.
      * now apply IH.
      * simpl. rewrite Hy. apply IH.
        intros z Hz. simpl. rewrite (Hagree z Hz).
        destruct (eqb z y) eqn:Hzy; [|reflexivity].
        apply eqb_eq in Hzy. subst. congruence.
Qed.

Lemma dedupe_filter (p : str -> bool) (l : list str) :
  dedupe (filter p l) = filter p (dedupe l).
Proof. unfold dedupe. symmetry. now apply dedupe_from_filter. Qed.

Lemma filter_all_true {A} (p : A -> bool) (l : list A) :
  (forall x, In x l -> p x = true) -> filter p l = l.
Proof.
  induction l as [|x t IH]; intros H; simpl; [reflexivity|].
  rewrite (H x) by now left. f_equal. apply IH. intros y Hy. apply H. now right.
Qed.

(** A list without duplicates is left as it is. *)
Lemma dedupe_NoDup_id (l : list str) : NoDup l -> dedupe l = l.
Proof.
  induction 1 as [|x t Hx Ht IH]; [reflexivity|].
  rewrite dedupe_cons. f_equal.
  rewrite filter_all_true; [assumption|].
  intros y Hy. apply negb_true_iff, eqb_neq. intros ->. contradiction.
Qed.

(** A string with no white space at either end is left as it is. *)
Lemma strip_fixed (x : str) :
  (forall c t, x = c :: t -> is_space c = false) ->
  (forall p c, x = p ++ [c] -> is_space c = false) ->
  strip x = x.
Proof.
  intros Hhead Hlast. unfold strip, rstrip.
  assert (Hl : lstrip x = x).
  { destruct x as [|c t]; [reflexivity|]. simpl.
    now rewrite (Hhead c t eq_refl). }
  rewrite Hl.
  destruct (rev x) as [|c t] eqn:Hrev.
  - simpl. apply (f_equal (@rev char)) in Hrev.
    rewrite rev_involutive in Hrev. now subst.
  - assert (Hx : x = rev t ++ [c]).
    { apply (f_equal (@rev char)) in Hrev.
      now rewrite rev_involutive in Hrev. }
    simpl. rewrite (Hlast _ _ Hx). now rewrite <- Hrev, rev_involutive.
Qed.

Lemma strip_idem (s : str) : strip (strip s) = strip s.
Proof.
  apply strip_fixed.
  - intros c t H. eapply strip_head; eassumption.
  - intros p c H. eapply strip_last; eassumption.
Qed.

(** A string without invisible characters is left as it is. *)
Lemma remove_invisible_fixed (x : str) :
  (forall d, In d x -> is_invisible d = false) -> remove_invisible x = x.
Proof.
  intros H. unfold remove_invisible, remove_char.
  assert (G : forall c, is_invisible c = true ->
                        filter (fun d => negb (d =? c)%N) x = x).
  { intros c Hc. apply filter_all_true. intros d Hd.
    apply negb_true_iff, N.eqb_neq. intros ->.
    rewrite (H c Hd) in Hc. discriminate. }
  rewrite (G 160%N eq_refl), (G 8203%N eq_refl), (G 8192%N eq_refl).
  apply (G 6158%N eq_refl).
Qed.

(** X1.  One entry that is not a string (None, nan, a number) empties the
    whole result of [cleanse_column_list]: the entry survives the removal of
    empty strings, one of the comprehensions raises on it, and the [except]
    clause returns the empty list, whatever the other entries are. *)
Theorem non_string_entry_empties_result (l : list value) (v : value) :
  In v l ->
  is_str v = false ->
  (exists e, cleanse_steps l = Raise e) /\ cleanse_column_list l = [].
Proof.
  intros Hin Hv.
  assert (Hsteps : exists e, cleanse_steps l = Raise e).
  { destruct (cleanse_steps l) as [r|e] eqn:H; [|eauto].
    apply cleanse_steps_Ok in H as [ss ->].
    apply in_map_iff in Hin as [s [<- _]]. discriminate. }
  split; [assumption|].
  destruct Hsteps as [e He]. unfold cleanse_column_list. now rewrite He.
Qed.

Lemma non_string_entry_empties_result_witness :
  (In VNaN [VStr (u "ORDERS"); VNaN; VStr (u "CLIENTS")]
   /\ is_str VNaN = false)
  /\ (exists e,
         cleanse_steps [VStr (u "ORDERS"); VNaN; VStr (u "CLIENTS")] = Raise e)
  /\ cleanse_column_list [VStr (u "ORDERS"); VNaN; VStr (u "CLIENTS")] = [].
Proof.
  assert (H1 : In VNaN [VStr (u "ORDERS"); VNaN; VStr (u "CLIENTS")])
    by (right; now left).
  assert (H2 : is_str VNaN = false) by reflexivity.
  split; [tauto|].
  exact (non_string_entry_empties_result _ _ H1 H2).
Defined.

(** X2.  Whatever the input, the result of [cleanse_column_list] has no
    duplicate, and each of its entries is an entry of the input that is a
    non-empty string, with the invisible characters removed and the white
    space stripped: it holds none of U+00A0, U+200B, U+2000, U+180E and
    neither starts nor ends with white space. *)
Theorem cleanse_output_is_clean (l : list value) :
  NoDup (cleanse_column_list l)
  /\ forall x, In x (cleanse_column_list l) ->
       (exists s, In (VStr s) l /\ s <> []
                  /\ x = strip (remove_invisible s))
       /\ (forall d, In d x -> is_invisible d = false)
       /\ (forall c t, x = c :: t -> is_space c = false)
       /\ (forall p c, x = p ++ [c] -> is_space c = false).
Proof.
  split; [apply cleanse_NoDup|].
  intros x Hx. split; [now apply cleanse_In|]. split.
  - intros d. now apply cleanse_no_invisible with (l := l).
  - now apply cleanse_stripped with (l := l).
Qed.

(** X3.  On a list of strings nothing is lost but the empty strings and the
    repetitions: a name is in the result exactly when it is the cleansed
    form of a non-empty entry. *)
Theorem cleanse_strings_membership (ss : list str) (x : str) :
  In x (cleanse_column_list (map VStr ss))
  <-> exists s, In s ss /\ s <> [] /\ x = strip (remove_invisible s).
Proof.
  rewrite cleanse_strings, dedupe_In. split.
  - intros H. apply in_map_iff in H as [y [<- H]].
    apply in_map_iff in H as [s [<- H]].
    apply filter_In in H as [Hs Hne].
    exists s. repeat split; try assumption.
    intros ->. discriminate.
  - intros [s [Hs [Hne ->]]]. apply in_map, in_map, filter_In.
    split; [assumption|]. now apply negb_true_iff, eqb_neq.
Qed.

(** X4.  The first occurrence wins and the order is kept: putting a string
    in front of a list of strings puts its cleansed form in front of the
    result and removes it from the rest, and an empty string in front
    changes nothing. *)
Theorem cleanse_cons (s : str) (ss : list str) :
  cleanse_column_list (VStr s :: map VStr ss)
  = if eqb s [] then cleanse_column_list (map VStr ss)
    else strip (remove_invisible s)
         :: filter (fun y => negb (eqb y (strip (remove_invisible s))))
              (cleanse_column_list (map VStr ss)).
Proof.
  change (VStr s :: map VStr ss) with (map VStr (s :: ss)).
  rewrite !cleanse_strings. simpl.
  destruct (eqb s []); [reflexivity|].
  simpl. rewrite dedupe_cons. f_equal. apply dedupe_filter.
Qed.

(** X5.  Cleansing the result again removes the empty string, if the result
    holds it, and changes nothing else. *)
Theorem cleanse_twice (l : list value) :
  cleanse_column_list (map VStr (cleanse_column_list l))
  = filter (fun s => negb (eqb s [])) (cleanse_column_list l).
Proof.
  rewrite cleanse_strings.
  assert (Hfix : forall x,
             In x (filter (fun s => negb (eqb s [])) (cleanse_column_list l)) ->
             strip (remove_invisible x) = x).
  { intros x Hx. apply filter_In in Hx as [Hx _].
    rewrite remove_invisible_fixed.
    - apply strip_fixed; now apply cleanse_stripped with (l := l).
    - intros d. now apply cleanse_no_invisible with (l := l). }
  rewrite map_map.
  rewrite (map_ext_in _ (fun x => x) _ Hfix), map_id.
  apply dedupe_NoDup_id, NoDup_filter, cleanse_NoDup.
Qed.

(** ** The data-type map *)

Lemma datatype_map_range (s t : str) :
  get s PANDAS_DATATYPE_MAP = Some t -> In t mapped_types.
Proof.
  intros H. apply get_In in H. vm_compute in H.
  repeat (destruct H as [H|H];
          [injection H as _ <-; vm_compute; tauto|]).
  contradiction.
Qed.

Lemma mapped_type_is_fixed (t : str) :
  In t mapped_types -> datatype_of_value (VStr t) = t.
Proof.
  intros H. vm_compute in H.
  repeat (destruct H as [H|H]; [subst t; reflexivity|]).
  contradiction.
Qed.

Lemma datatype_of_value_range (v : value) :
  In (datatype_of_value v) mapped_types.
Proof.
  assert (Hs : In (u "string") mapped_types) by (vm_compute; tauto).
  destruct v as [s| | | |]; try exact Hs.
  unfold datatype_of_value.
  destruct (get s PANDAS_DATATYPE_MAP) as [t|] eqn:Hget; [|exact Hs].
  eapply datatype_map_range; eassumption.
Qed.

Lemma datatype_of_json_range (j : json) (t : str) :
  datatype_of_json j = Ok t -> In t mapped_types.
Proof.
  assert (Hs : In (u "string") mapped_types) by (vm_compute; tauto).
  destruct j as [| | | |s| |]; cbn [datatype_of_json]; intros H;
    try discriminate; try (injection H as <-; exact Hs).
  destruct (get s PANDAS_DATATYPE_MAP) as [t'|] eqn:Hget;
    injection H as <-; [|exact Hs].
  eapply datatype_map_range; eassumption.
Qed.

(** X6.  [PANDAS_DATATYPE_MAP.get(k, 'string')] always gives one of integer,
    double, string, timestamp and long, whatever [k] is, and it maps each of
    these five to itself: a type that was mapped once, as in a schema
    written for one tier and read back for the next, is not changed by
    mapping it again. *)
Theorem datatype_map_is_closed (v : value) (j : json) :
  In (datatype_of_value v) mapped_types
  /\ datatype_of_value (VStr (datatype_of_value v)) = datatype_of_value v
  /\ forall t, datatype_of_json j = Ok t ->
       In t mapped_types /\ datatype_of_json (JString t) = Ok t.
Proof.
  split; [apply datatype_of_value_range|]. split.
  - apply mapped_type_is_fixed, datatype_of_value_range.
  - intros t H. pose proof (datatype_of_json_range _ _ H) as Ht.
    split; [assumption|].
    pose proof (mapped_type_is_fixed t Ht) as Hfix.
    unfold datatype_of_value in Hfix. cbn [datatype_of_json].
    now rewrite Hfix.
Qed.

(** ** Loading and validating the mapping file *)

(** X7.  When [load_file_to_dataframe] returns a frame, the file exists,
    its name ends in [.xlsx] (read as Excel) or else in [.csv] (read as
    CSV), and the frame has at least one column and one row; the
    [file_type] argument plays no part. *)
Theorem loaded_frame_is_not_empty (E : Externals)
  (input_file file_type : str) (df : DataFrame) :
  load_file_to_dataframe E input_file file_type = Ok df ->
  os_path_exists E input_file = true
  /\ (if endswith input_file (u ".xlsx") then pd_read_excel E input_file = Ok df
      else endswith input_file (u ".csv") = true
           /\ pd_read_csv E input_file = Ok df)
  /\ columns df <> [] /\ rows df <> []
  /\ forall other, load_file_to_dataframe E input_file other = Ok df.
Proof.
  intros H. pose proof H as H0. unfold load_file_to_dataframe in H.
  destruct (os_path_exists E input_file); [|discriminate]. simpl in H.
  bind_inv H read Hread.
  unfold empty in H.
  destruct (columns read) as [|c cs] eqn:Hc; [discriminate|].
  destruct (rows read) as [|r rs] eqn:Hr; [discriminate|].
  injection H as <-.
  split; [reflexivity|]. split.
  - destruct (endswith input_file (u ".xlsx")); [assumption|].
    destruct (endswith input_file (u ".csv")); [tauto | discriminate].
  - rewrite Hc, Hr. repeat split; try discriminate.
    intros other. exact H0.
Qed.

Lemma loaded_frame_is_not_empty_witness :
  let df := LandingZoneExamples.orders in
  let E := Example.world df [] [] in
  load_file_to_dataframe E (u "map.xlsx") (u "csv") = Ok df
  /\ os_path_exists E (u "map.xlsx") = true
  /\ (if endswith (u "map.xlsx") (u ".xlsx")
      then pd_read_excel E (u "map.xlsx") = Ok df
      else endswith (u "map.xlsx") (u ".csv") = true
           /\ pd_read_csv E (u "map.xlsx") = Ok df)
  /\ columns df <> [] /\ rows df <> []
  /\ forall other, load_file_to_dataframe E (u "map.xlsx") other = Ok df.
Proof.
  intros df E.
  assert (H : load_file_to_dataframe E (u "map.xlsx") (u "csv") = Ok df)
    by reflexivity.
  split; [exact H|].
  exact (loaded_frame_is_not_empty E (u "map.xlsx") (u "csv") df H).
Defined.

(** X8.  For a tier that has a required-column set, a mapping file that
    lacks one of the columns is rejected with the missing-columns error, and
    the columns it reports are exactly the required columns that the file
    does not have, each once. *)
Theorem missing_required_columns_are_reported (E : Externals)
  (mapping_file domain target_data_area file_type : str)
  (df : DataFrame) (required : list str) :
  load_file_to_dataframe E mapping_file file_type = Ok df ->
  get_required_columns_list target_data_area = Ok required ->
  (exists c, In c required /\ ~ In c (columns df)) ->
  exists missing,
    validate_mapping_file E mapping_file domain target_data_area file_type
    = Raise (ValueError (MissingRequiredColumns mapping_file missing))
    /\ NoDup missing
    /\ forall c, In c missing <-> In c required /\ ~ In c (columns df).
Proof.
  intros Hload Hreq [c Hc].
  exists (set_difference required (columns df)). split; [|split].
  - apply validate_reports_missing_columns; try assumption.
    intros Hnil. apply set_difference_In in Hc. rewrite Hnil in Hc.
    contradiction.
  - apply set_difference_NoDup.
  - intros c'. apply set_difference_In.
Qed.

Lemma missing_required_columns_are_reported_witness :
  let df := LandingZoneExamples.orders in
  let E := Example.world df Example.orders_catalogue [] in
  let required :=
    [u "Source Table Name"; u "Source Column Name"; u "Target Table Name";
     u "Target Column Name"; u "Order By"; u "Partition By";
     u "Is Business Key"; u "Data Type"; u "Default Value";
     u "Transformation Function"] in
  (load_file_to_dataframe E (u "map.xlsx") (u "excel") = Ok df
   /\ get_required_columns_list (u "bronze") = Ok required
   /\ exists c, In c required /\ ~ In c (columns df))
  /\ exists missing,
       validate_mapping_file E (u "map.xlsx") (u "sales") (u "bronze")
         (u "excel")
       = Raise (ValueError (MissingRequiredColumns (u "map.xlsx") missing))
       /\ NoDup missing
       /\ forall c, In c missing <-> In c required /\ ~ In c (columns df).
Proof.
  intros df E required.
  assert (H1 : load_file_to_dataframe E (u "map.xlsx") (u "excel") = Ok df)
    by reflexivity.
  assert (H2 : get_required_columns_list (u "bronze") = Ok required)
    by reflexivity.
  assert (H3 : exists c, In c required /\ ~ In c (columns df)).
  { exists (u "Order By"). split; [vm_compute; tauto|].
    apply mem_not_In. reflexivity. }
  split; [tauto|].
  exact (missing_required_columns_are_reported E (u "map.xlsx") (u "sales")
           (u "bronze") (u "excel") df required H1 H2 H3).
Defined.

Lemma set_fresh {V} (k : str) (v : V) (d : dict V) :
  ~ In k (keys d) -> set k v d = d ++ [(k, v)].
Proof.
  unfold keys. induction d as [|[k0 v0] t IH]; simpl; intros H.
  - reflexivity.
  - destruct (eqb k k0) eqn:Hk.
    + apply eqb_eq in Hk. subst. tauto.
    + f_equal. apply IH. tauto.
Qed.

(** A loop that stores one entry per key, over keys that are distinct and
    new, stores them in order. *)
Lemma foldM_set_keys {V} (f : dict V -> str -> result (dict V))
  (ks : list str) :
  (forall d k d', f d k = Ok d' -> exists v, d' = set k v d) ->
  forall acc r,
    foldM f ks acc = Ok r ->
    NoDup ks -> (forall k, In k ks -> ~ In k (keys acc)) ->
    keys r = keys acc ++ ks.
Proof.
  intros Hf. induction ks as [|k t IH]; intros acc r H Hnd Hnew; simpl in H.
  - injection H as <-. now rewrite app_nil_r.
  - bind_inv H acc' Hacc'. destruct (Hf _ _ _ Hacc') as [v ->].
    inversion Hnd as [|? ? Hk Ht]; subst.
    assert (Hset : set k v acc = acc ++ [(k, v)])
      by (apply set_fresh, Hnew; now left).
    rewrite Hset in H.
    rewrite (IH _ _ H Ht).
    + unfold keys. rewrite map_app, <- app_assoc. reflexivity.
    + intros k' Hk' Hin. unfold keys in Hin. rewrite map_app in Hin.
      apply in_app_or in Hin as [Hin|[<-|[]]].
      * apply (Hnew k'); [now right | assumption].
      * contradiction.
Qed.

(** A dictionary comprehension over distinct keys has these keys, in order,
    each with the value computed for it. *)
Lemma comprehension_Ok {V} (f : str -> result V) (ks : list str) d :
  NoDup ks ->
  comprehension f ks = Ok d ->
  keys d = ks /\ forall k v, In (k, v) d -> f k = Ok v.
Proof.
  intros Hnd H. unfold comprehension in H. split.
  - apply (foldM_set_keys (fun d k => v <- f k ;; Ok (set k v d)) ks)
      with (acc := []) in H; try assumption.
    + intros d0 k d' Hstep. bind_inv Hstep v Hv. injection Hstep as <-. eauto.
    + intros k _ [].
  - revert H. apply foldM_set_invariant; [|intros k v []].
    intros d0 k d' Hstep. bind_inv Hstep v Hv. injection Hstep as <-. eauto.
Qed.

Lemma mapM_In {A B} (g : A -> result B) (l : list A) parts :
  mapM g l = Ok parts ->
  (forall x, In x l -> exists p, g x = Ok p /\ In p parts)
  /\ (forall p, In p parts -> exists x, In x l /\ g x = Ok p).
Proof.
  revert parts. induction l as [|y t IH]; simpl; intros parts H.
  - injection H as <-. split; intros ? [].
  - bind_inv H p Hp. bind_inv H ps Hps. injection H as <-.
    destruct (IH _ Hps) as [IH1 IH2]. split.
    + intros x [<-|Hx]; [exists p; split; [assumption | now left]|].
      destruct (IH1 x Hx) as [q [Hq Hin]]. exists q. split; [assumption|].
      now right.
    + intros q [<-|Hq]; [exists y; split; [now left | assumption]|].
      destruct (IH2 q Hq) as [x [Hx Hg]]. exists x. split; [now right|].
      assumption.
Qed.

Lemma mapM_total {A B} (g : A -> result B) (l : list A) :
  (forall x, In x l -> exists p, g x = Ok p) ->
  exists parts, mapM g l = Ok parts.
Proof.
  induction l as [|y t IH]; intros H; simpl.
  - eauto.
  - destruct (H y (or_introl eq_refl)) as [p Hp]. rewrite Hp.
    destruct IH as [ps Hps]; [intros x Hx; apply H; now right|].
    rewrite Hps. simpl. eauto.
Qed.

(** The loop that gathers the invalid columns concatenates what each table
    gives. *)
Lemma foldM_concat {A} (g : A -> result (list str)) (ts : list A) :
  forall acc,
    foldM (fun invalid t => more <- g t ;; Ok (invalid ++ more)) ts acc
    = (parts <- mapM g ts ;; Ok (acc ++ concat parts)).
Proof.
  induction ts as [|t ts IH]; intros acc; simpl.
  - now rewrite app_nil_r.
  - destruct (g t) as [more|e]; simpl; [|reflexivity].
    rewrite IH. destruct (mapM g ts); simpl; [|reflexivity].
    now rewrite app_assoc.
Qed.

(** The invalid columns of one source table: the checked columns that the
    names of its schema do not hold. *)
Lemma invalid_columns_of_table_eq (df : DataFrame) (d : dict json)
  (t : str) schema names :
  has_column df SourceTableName = true ->
  has_column df SourceColumnName = true ->
  get t d = Some schema ->
  schema_column_names schema = Ok names ->
  invalid_columns_of_table df d t
  = Ok (filter (fun c => negb (names_hold names c))
          (checked_source_columns df t)).
Proof.
  intros Ht Hc Hget Hnames.
  unfold invalid_columns_of_table, where_eq, column, has_column in *.
  rewrite Ht. cbn [bind columns rows]. rewrite Hc. cbn [bind].
  unfold getitem. rewrite Hget. cbn [bind].
  unfold schema_column_names in Hnames.
  destruct (json_getitem schema (u "columns")) as [sc|e]; [|discriminate].
  cbn [bind] in *.
  destruct (json_iter sc) as [items|e]; [|discriminate].
  cbn [bind] in *. rewrite Hnames. reflexivity.
Qed.

Lemma invalid_columns_of_table_Ok (df : DataFrame) (d : dict json)
  (t : str) l :
  invalid_columns_of_table df d t = Ok l ->
  exists schema names,
    get t d = Some schema
    /\ schema_column_names schema = Ok names
    /\ l = filter (fun c => negb (names_hold names c))
             (checked_source_columns df t).
Proof.
  intros H. unfold invalid_columns_of_table in H.
  bind_inv H selected Hsel. bind_inv H col Hcol.
  apply where_eq_Ok in Hsel as [_ ->]. apply column_Ok in Hcol as [_ ->].
  bind_inv H schema Hschema. bind_inv H sc Hsc. bind_inv H items Hitems.
  bind_inv H names Hnames. injection H as <-.
  unfold getitem in Hschema.
  destruct (get t d) as [schema'|] eqn:Hget; [|discriminate].
  injection Hschema as ->.
  exists schema, names. split; [reflexivity|]. split; [|reflexivity].
  unfold schema_column_names. rewrite Hsc. cbn [bind]. rewrite Hitems.
  exact Hnames.
Qed.

(** Both required-column sets hold the two source columns. *)
Lemma required_columns_hold_sources (target : str) required :
  get_required_columns_list target = Ok required ->
  In (u "Source Table Name") required /\ In (u "Source Column Name") required.
Proof.
  unfold get_required_columns_list, getitem. intros H.
  destruct (has target MAP_FILE_REQUIRED_COLUMNS_MAP); [|discriminate].
  destruct (get target MAP_FILE_REQUIRED_COLUMNS_MAP) as [l|] eqn:Hget;
    [|discriminate].
  injection H as ->. apply get_In in Hget. vm_compute in Hget.
  destruct Hget as [Hg|[Hg|[]]]; injection Hg as _ <-; vm_compute; tauto.
Qed.

(** X9.  What a successful validation guarantees: the frame returned is the
    loaded one and has every column its tier requires; the dictionary
    returned has one entry per cleansed distinct source table, in order of
    first appearance; each entry is the schema resolved for that table, and
    its column names hold every cleansed source column of the rows whose
    Source Table Name cell is that table name. *)
Theorem validated_mapping_file (E : Externals)
  (mapping_file domain target_data_area file_type : str)
  (df : DataFrame) (d : dict json) :
  validate_mapping_file E mapping_file domain target_data_area file_type
  = Ok (df, d) ->
  load_file_to_dataframe E mapping_file file_type = Ok df
  /\ (exists required,
         get_required_columns_list target_data_area = Ok required
         /\ forall c, In c required -> In c (columns df))
  /\ keys d
     = cleanse_column_list (unique (map Source_Table_Name (rows df)))
  /\ forall t schema, In (t, schema) d ->
       generate_source_schema_config E domain target_data_area t = Ok schema
       /\ exists names,
            schema_column_names schema = Ok names
            /\ forall c, In c (checked_source_columns df t) ->
                         names_hold names c = true.
Proof.
  intros H. unfold validate_mapping_file in H.
  bind_inv H df' Hload. bind_inv H required Hreq.
  destruct (set_difference required (columns df')) eqn:Hmiss; [|discriminate].
  bind_inv H col Hcol. apply column_Ok in Hcol as [_ ->].
  bind_inv H sd Hsd. bind_inv H invalid Hinv.
  destruct invalid; [|discriminate]. injection H as <- <-.
  apply comprehension_Ok in Hsd as [Hkeys Hvals]; [|apply cleanse_NoDup].
  split; [assumption|]. split.
  { exists required. split; [assumption|]. intros c Hc.
    apply mem_In. eapply has_required_column; eassumption. }
  split; [exact Hkeys|].
  intros t schema Hin. split; [now apply Hvals|].
  rewrite foldM_concat in Hinv. bind_inv Hinv parts Hparts.
  injection Hinv as Hnil. simpl in Hnil.
  assert (Ht : In t (cleanse_column_list
                       (unique (map (fun r => cell r SourceTableName)
                                  (rows df'))))).
  { rewrite <- Hkeys. unfold keys. apply in_map_iff. exists (t, schema). auto. }
  destruct (proj1 (mapM_In _ _ _ Hparts) t Ht) as [p [Hp Hinp]].
  apply invalid_columns_of_table_Ok in Hp as [schema' [names [Hget [Hn ->]]]].
  assert (Hsame : schema' = schema).
  { assert (Hnd : NoDup (keys sd)) by (rewrite Hkeys; apply cleanse_NoDup).
    rewrite (In_get _ _ _ Hnd Hin) in Hget. now injection Hget. }
  subst schema'. exists names. split; [assumption|].
  intros c Hc.
  destruct (names_hold names c) eqn:Hhold; [reflexivity|].
  exfalso.
  assert (Hbad : In c (concat parts)).
  { apply in_concat. eexists. split; [exact Hinp|].
    apply filter_In. split; [assumption|]. now rewrite Hhold. }
  rewrite Hnil in Hbad. contradiction.
Qed.

Lemma validated_mapping_file_witness :
  let df := MappingExamples.keyed in
  let d := MappingExamples.orders_schema in
  let E := Example.world df Example.orders_catalogue [] in
  validate_mapping_file E (u "map.xlsx") (u "sales") (u "bronze") (u "excel")
  = Ok (df, d)
  /\ load_file_to_dataframe E (u "map.xlsx") (u "excel") = Ok df
  /\ (exists required,
         get_required_columns_list (u "bronze") = Ok required
         /\ forall c, In c required -> In c (columns df))
  /\ keys d
     = cleanse_column_list (unique (map Source_Table_Name (rows df)))
  /\ forall t schema, In (t, schema) d ->
       generate_source_schema_config E (u "sales") (u "bronze") t = Ok schema
       /\ exists names,
            schema_column_names schema = Ok names
            /\ forall c, In c (checked_source_columns df t) ->
                         names_hold names c = true.
Proof.
  intros df d E.
  assert (H : validate_mapping_file E (u "map.xlsx") (u "sales") (u "bronze")
                (u "excel") = Ok (df, d)) by reflexivity.
  split; [exact H|].
  exact (validated_mapping_file E (u "map.xlsx") (u "sales") (u "bronze")
           (u "excel") df d H).
Defined.

Lemma all_present_no_missing (required present : list str) :
  (forall c, In c required -> In c present) ->
  set_difference required present = [].
Proof.
  intros H. destruct (set_difference required present) as [|c l] eqn:Hd;
    [reflexivity|].
  assert (Hc : In c (set_difference required present))
    by (rewrite Hd; now left).
  apply set_difference_In in Hc as [Hc Hn]. exfalso. apply Hn, H, Hc.
Qed.

(** X10.  Once the mapping file loaded with its required columns and the
    schema of every source table was resolved with named columns,
    [validate_mapping_file] reports exactly the checked source columns that
    the schema of their table does not hold: it returns the frame and the
    schemas when there is none, and raises the invalid-source-columns error
    with all of them otherwise. *)
Theorem invalid_source_columns_are_exact (E : Externals)
  (mapping_file domain target_data_area file_type : str)
  (df : DataFrame) (required : list str) (d : dict json) :
  load_file_to_dataframe E mapping_file file_type = Ok df ->
  get_required_columns_list target_data_area = Ok required ->
  (forall c, In c required -> In c (columns df)) ->
  comprehension (generate_source_schema_config E domain target_data_area)
    (cleanse_column_list (unique (map Source_Table_Name (rows df))))
  = Ok d ->
  (forall t schema, In (t, schema) d ->
     exists names, schema_column_names schema = Ok names) ->
  exists reported,
    validate_mapping_file E mapping_file domain target_data_area file_type
    = match reported with
      | [] => Ok (df, d)
      | _ :: _ =>
          Raise (ValueError (InvalidSourceColumns mapping_file reported))
      end
    /\ forall c,
         In c reported <->
         exists t schema names,
           In (t, schema) d
           /\ schema_column_names schema = Ok names
           /\ In c (checked_source_columns df t)
           /\ names_hold names c = false.
Proof.
  intros Hload Hreq Hpresent Hcomp Hnamed.
  pose proof (required_columns_hold_sources _ _ Hreq) as [Ht Hc].
  apply Hpresent, mem_In in Ht. apply Hpresent, mem_In in Hc.
  pose proof (comprehension_Ok _ _ _ (cleanse_NoDup _) Hcomp) as [Hkeys Hvals].
  assert (Hnd : NoDup (keys d)) by (rewrite Hkeys; apply cleanse_NoDup).
  assert (Heach : forall t,
             In t (keys d) ->
             exists schema names,
               In (t, schema) d
               /\ schema_column_names schema = Ok names
               /\ invalid_columns_of_table df d t
                  = Ok (filter (fun c => negb (names_hold names c))
                          (checked_source_columns df t))).
  { intros t Hin. destruct (get t d) as [schema|] eqn:Hget;
      [|now apply get_keys in Hin].
    pose proof (get_In _ _ _ Hget) as Hentry.
    destruct (Hnamed _ _ Hentry) as [names Hn].
    exists schema, names. split; [assumption|]. split; [assumption|].
    now apply invalid_columns_of_table_eq with (schema := schema). }
  destruct (mapM_total (invalid_columns_of_table df d) (keys d)) as [parts Hparts].
  { intros t Hin. destruct (Heach t Hin) as [? [? [_ [_ H]]]]. eauto. }
  exists (concat parts). split.
  - unfold validate_mapping_file. rewrite Hload. cbn [bind]. rewrite Hreq.
    cbn [bind]. rewrite (all_present_no_missing _ _ Hpresent).
    unfold column, has_column. change (header SourceTableName)
      with (u "Source Table Name"). rewrite Ht. cbn [bind].
    change (map (fun r => cell r SourceTableName) (rows df))
      with (map Source_Table_Name (rows df)).
    rewrite Hcomp. cbn [bind]. rewrite foldM_concat, <- Hkeys, Hparts.
    cbn [bind app]. destruct (concat parts); reflexivity.
  - destruct (mapM_In _ _ _ Hparts) as [Hfwd Hback]. intros c. split.
    + intros Hin. apply in_concat in Hin as [p [Hp Hcp]].
      destruct (Hback p Hp) as [t [Hin Hg]].
      destruct (Heach t Hin) as [schema [names [He [Hn Heq]]]].
      rewrite Heq in Hg. injection Hg as <-.
      apply filter_In in Hcp as [Hchecked Hhold].
      exists t, schema, names. repeat split; try assumption.
      now destruct (names_hold names c).
    + intros [t [schema [names [He [Hn [Hchecked Hhold]]]]]].
      assert (Hin : In t (keys d)).
      { unfold keys. apply in_map_iff. exists (t, schema). auto. }
      destruct (Heach t Hin) as [schema' [names' [He' [Hn' Heq]]]].
      assert (schema' = schema).
      { pose proof (In_get _ _ _ Hnd He) as G1.
        pose proof (In_get _ _ _ Hnd He') as G2. congruence. }
      subst schema'. assert (names' = names) by congruence. subst names'.
      destruct (Hfwd t Hin) as [p [Hp Hpin]]. rewrite Heq in Hp.
      injection Hp as <-. apply in_concat. eexists. split; [exact Hpin|].
      apply filter_In. split; [assumption|]. now rewrite Hhold.
Qed.

Lemma invalid_source_columns_are_exact_witness :
  let df := ValidationExamples.orders_with_email in
  let d := MappingExamples.orders_schema in
  let E := Example.world df Example.orders_catalogue [] in
  let required :=
    [u "Source Table Name"; u "Source Column Name"; u "Target Table Name";
     u "Target Column Name"; u "Order By"; u "Partition By";
     u "Is Business Key"; u "Data Type"; u "Default Value";
     u "Transformation Function"] in
  (load_file_to_dataframe E (u "map.xlsx") (u "excel") = Ok df
   /\ get_required_columns_list (u "bronze") = Ok required
   /\ (forall c, In c required -> In c (columns df))
   /\ comprehension (generate_source_schema_config E (u "sales") (u "bronze"))
        (cleanse_column_list (unique (map Source_Table_Name (rows df))))
      = Ok d
   /\ (forall t schema, In (t, schema) d ->
         exists names, schema_column_names schema = Ok names))
  /\ exists reported,
       validate_mapping_file E (u "map.xlsx") (u "sales") (u "bronze")
         (u "excel")
       = match reported with
         | [] => Ok (df, d)
         | _ :: _ =>
             Raise (ValueError (InvalidSourceColumns (u "map.xlsx") reported))
         end
       /\ forall c,
            In c reported <->
            exists t schema names,
              In (t, schema) d
              /\ schema_column_names schema = Ok names
              /\ In c (checked_source_columns df t)
              /\ names_hold names c = false.
Proof.
  intros df d E required.
  assert (H1 : load_file_to_dataframe E (u "map.xlsx") (u "excel") = Ok df)
    by reflexivity.
  assert (H2 : get_required_columns_list (u "bronze") = Ok required)
    by reflexivity.
  assert (H3 : forall c, In c required -> In c (columns df)).
  { intros c Hc. exact Hc. }
  assert (H4 : comprehension
                 (generate_source_schema_config E (u "sales") (u "bronze"))
                 (cleanse_column_list
                    (unique (map Source_Table_Name (rows df))))
               = Ok d) by reflexivity.
  assert (H5 : forall t schema, In (t, schema) d ->
                 exists names, schema_column_names schema = Ok names).
  { intros t schema [Hin|[]]. injection Hin as _ <-.
    eexists. vm_compute. reflexivity. }
  split; [tauto|].
  exact (invalid_source_columns_are_exact E (u "map.xlsx") (u "sales")
           (u "bronze") (u "excel") df required d H1 H2 H3 H4 H5).
Defined.

(** ** The files of a run *)

Lemma writes_ret {A} (domain target : str) (a : A) :
  writes domain target (io_ret a) (fun a' written => a' = a /\ written = []).
Proof.
  intros fs. exists []. unfold stored. simpl. rewrite app_nil_r.
  split; [reflexivity|]. intros a' H. injection H as <-. auto.
Qed.

Lemma writes_lift {A} (domain target : str) (r : result A) :
  writes domain target (lift r) (fun a written => r = Ok a /\ written = []).
Proof.
  intros fs. exists []. unfold stored. simpl. rewrite app_nil_r.
  split; [reflexivity|]. intros a H. auto.
Qed.

Lemma writes_bind {A B} (domain target : str) (c : io A) (f : A -> io B)
  (Q1 : A -> list (str * json) -> Prop)
  (Q2 : A -> B -> list (str * json) -> Prop) :
  writes domain target c Q1 ->
  (forall a, writes domain target (f a) (Q2 a)) ->
  writes domain target (io_bind c f)
    (fun b written =>
       exists a w1 w2, written = w1 ++ w2 /\ Q1 a w1 /\ Q2 a b w2).
Proof.
  intros Hc Hf fs. unfold io_bind.
  destruct (Hc fs) as [w1 [Hfs1 HQ1]].
  destruct (c fs) as [[a|e] fs1]; simpl in *.
  - destruct (Hf a fs1) as [w2 [Hfs2 HQ2]]. exists (w1 ++ w2). split.
    + rewrite Hfs2, Hfs1. unfold stored. now rewrite map_app, app_assoc.
    + intros b Hb. exists a, w1, w2. auto.
  - exists w1. split; [assumption | discriminate].
Qed.

Lemma writes_conseq {A} (domain target : str) (c : io A)
  (Q Q' : A -> list (str * json) -> Prop) :
  writes domain target c Q ->
  (forall a written, Q a written -> Q' a written) ->
  writes domain target c Q'.
Proof.
  intros Hc HQ fs. destruct (Hc fs) as [w [Hfs H]]. exists w.
  split; [assumption|]. intros a Ha. apply HQ, H, Ha.
Qed.

Lemma writes_reraise {A} (domain target : str) ctx (c : io A)
  (Q : A -> list (str * json) -> Prop) :
  writes domain target c Q -> writes domain target (io_reraise ctx c) Q.
Proof.
  intros Hc fs. destruct (Hc fs) as [w [Hfs H]]. exists w.
  unfold io_reraise. destruct (c fs) as [r fs1]. simpl in *.
  split; [assumption|]. intros a Ha. apply H. now apply reraise_Ok in Ha.
Qed.

(** [write_config_file] adds the file it is given, or nothing. *)
Lemma writes_file (E : Externals) (domain target name : str) (content : json) :
  writes domain target (write_config_file E domain target name content)
    (fun _ written => written = [(name, content)]).
Proof.
  intros fs. unfold write_config_file.
  destruct (os_makedirs E _).
  - destruct (open_for_writing E _).
    + exists [(name, content)]. split; [reflexivity | auto].
    + exists []. unfold stored. simpl. rewrite app_nil_r.
      split; [reflexivity | discriminate].
  - exists []. unfold stored. simpl. rewrite app_nil_r.
    split; [reflexivity | discriminate].
Qed.

(** A body that writes one file and returns its name. *)
Lemma writes_named_file (E : Externals) (domain target name : str)
  (content : json) :
  writes domain target
    (io_bind (write_config_file E domain target name content)
       (fun _ => io_ret name))
    (fun returned written => returned = name /\ written = [(name, content)]).
Proof.
  eapply writes_conseq.
  - eapply writes_bind; [apply writes_file | intros a; apply writes_ret].
  - intros a w [_ [w1 [w2 [-> [-> [-> ->]]]]]]. auto.
Qed.

(** The loop that writes one file per item adds the files of its items in
    order, and returns the names it was given followed by theirs. *)
Lemma writes_each {A} (domain target : str) (body : A -> io str)
  (R : A -> str * json -> Prop) (l : list A) :
  (forall x,
     writes domain target (body x)
       (fun name written =>
          exists content, written = [(name, content)] /\ R x (name, content))) ->
  forall acc,
    writes domain target (write_each l body acc)
      (fun names written =>
         names = acc ++ map fst written /\ Forall2 R l written).
Proof.
  intros Hbody. induction l as [|x l IH]; intros acc fs; simpl.
  - exists []. unfold stored. simpl. rewrite !app_nil_r.
    split; [reflexivity|]. intros names H. injection H as <-.
    split; [reflexivity | constructor].
  - unfold io_bind. destruct (Hbody x fs) as [w [Hfs HQ]].
    destruct (body x fs) as [[name|e] fs1]; simpl in *.
    + destruct (HQ name eq_refl) as [content [-> HR]].
      destruct (IH (acc ++ [name]) fs1) as [w2 [Hfs2 HQ2]].
      exists ((name, content) :: w2). split.
      * rewrite Hfs2, Hfs. unfold stored. simpl. now rewrite <- app_assoc.
      * intros names Hn. destruct (HQ2 names Hn) as [-> HF]. split.
        -- simpl. now rewrite <- app_assoc.
        -- now constructor.
    + exists w. split; [assumption | discriminate].
Qed.

(** The body of the loop over the source schemas writes the artifact it
    computed. *)
Lemma writes_source_schema (E : Externals) (domain target : str)
  (df : DataFrame) (item : str * json) :
  writes domain target (write_source_schema E domain target df item)
    (fun name written =>
       exists content,
         written = [(name, content)]
         /\ source_schema_artifact E target df item = Ok (name, content)).
Proof.
  intros fs. destruct item as [source_table schema].
  unfold write_source_schema, source_schema_artifact, io_bind, lift.
  destruct (bind (where_eq df SourceTableName source_table) _) as [tn|e];
    cbn [bind];
    [|exists []; unfold stored; simpl; rewrite app_nil_r;
      split; [reflexivity | discriminate]].
  destruct (getitem TARGET_SOURCE_AREA_MAP target) as [area|e]; cbn [bind];
    [|exists []; unfold stored; simpl; rewrite app_nil_r;
      split; [reflexivity | discriminate]].
  match goal with
  | |- context [match ?c with Ok _ => _ | Raise _ => _ end] =>
      destruct c as [content|e]
  end;
    [|exists []; unfold stored; simpl; rewrite app_nil_r;
      split; [reflexivity | discriminate]].
  destruct (writes_named_file E domain target
              (area ++ u "_schema_" ++ format_value E tn ++ u ".json")
              content fs) as [w [Hfs HQ]].
  unfold io_bind in Hfs, HQ. exists w. split; [exact Hfs|].
  intros name Hname. destruct (HQ name Hname) as [-> ->]. eauto.
Qed.

Lemma Forall2_map_eq {A B} (f : A -> B) (l : list A) (w : list B) :
  Forall2 (fun x y => y = f x) l w -> w = map f l.
Proof. induction 1; simpl; congruence. Qed.

Lemma process_mapping_file_writes (E : Externals)
  (mode domain target : str) (df : DataFrame) (sd : dict json) :
  writes domain target (process_mapping_file E mode domain target df sd)
    (fun names written =>
       names = map fst written
       /\ exists ttd source_files tsd pcd mcd,
            generate_target_table_config target df = Ok ttd
            /\ Forall2
                 (fun item file =>
                    source_schema_artifact E target df item = Ok file)
                 sd source_files
            /\ generate_target_schema_config E domain target sd df = Ok tsd
            /\ generate_pipeline_config domain target df = Ok pcd
            /\ generate_mapping_config E domain target sd df = Ok mcd
            /\ written
               = (artifact_name target "_target_tables_" domain, ttd)
                   :: source_files
                   ++ map (named target "_schema_") tsd
                   ++ map (named target "_pipeline_") pcd
                   ++ map (named target "_map_") mcd).
Proof.
  unfold process_mapping_file. apply writes_reraise.
  eapply writes_conseq.
  - eapply writes_bind; [apply writes_lift|]. intros ttd.
    eapply writes_bind; [apply writes_file|]. intros done.
    eapply writes_bind;
      [apply writes_each
         with (R := fun item file =>
                      source_schema_artifact E target df item = Ok file);
       intros x; apply writes_source_schema|].
    intros names1.
    eapply writes_bind; [apply writes_lift|]. intros tsd.
    eapply writes_bind;
      [apply writes_each
         with (R := fun item file => file = named target "_schema_" item);
       intros x; eapply writes_conseq; [apply writes_named_file|];
       intros a w [-> ->]; eexists; split; reflexivity|].
    intros names2.
    eapply writes_bind; [apply writes_lift|]. intros pcd.
    eapply writes_bind;
      [apply writes_each
         with (R := fun item file => file = named target "_pipeline_" item);
       intros x; eapply writes_conseq; [apply writes_named_file|];
       intros a w [-> ->]; eexists; split; reflexivity|].
    intros names3.
    eapply writes_bind; [apply writes_lift|]. intros mcd.
    apply writes_each
      with (R := fun item file => file = named target "_map_" item).
    intros x. destruct (json_falsy (snd x)).
    + eapply writes_conseq; [apply writes_lift|].
      intros a w [H _]. discriminate.
    + eapply writes_conseq; [apply writes_named_file|].
      intros a w [-> ->]. eexists. split; reflexivity.
  - intros names written H.
    cbv beta in H.
    destruct H as [ttd [w1 [w2 [-> [[Httd ->] H]]]]].
    destruct H as [done [w3 [w4 [-> [-> H]]]]].
    destruct H as [names1 [w5 [w6 [-> [[-> Hsrc] H]]]]].
    destruct H as [tsd [w7 [w8 [-> [[Htsd ->] H]]]]].
    destruct H as [names2 [w9 [w10 [-> [[-> Hs] H]]]]].
    destruct H as [pcd [w11 [w12 [-> [[Hpcd ->] H]]]]].
    destruct H as [names3 [w13 [w14 [-> [[-> Hp] H]]]]].
    destruct H as [mcd [w15 [w16 [-> [[Hmcd ->] [-> Hm]]]]]].
    apply Forall2_map_eq in Hs, Hp, Hm. subst w9 w13 w16.
    split.
    + simpl. rewrite !map_app, <- !app_assoc. reflexivity.
    + exists ttd, w5, tsd, pcd, mcd. simpl. repeat split; assumption.
Qed.

Lemma validate_Ok_load (E : Externals)
  (mapping_file domain target file_type : str) df d :
  validate_mapping_file E mapping_file domain target file_type = Ok (df, d) ->
  load_file_to_dataframe E mapping_file file_type = Ok df
  /\ exists required, get_required_columns_list target = Ok required.
Proof.
  intros H. unfold validate_mapping_file in H.
  bind_inv H df' Hload. bind_inv H required Hreq.
  destruct (set_difference required (columns df')); [|discriminate].
  bind_inv H col Hcol. bind_inv H sd Hsd. bind_inv H invalid Hinv.
  destruct invalid; [|discriminate]. injection H as <- _. eauto.
Qed.

Lemma load_Ok_rows (E : Externals) (input_file file_type : str) df :
  load_file_to_dataframe E input_file file_type = Ok df -> rows df <> [].
Proof.
  intros H. unfold load_file_to_dataframe in H.
  destruct (os_path_exists E input_file); [|discriminate]. simpl in H.
  bind_inv H read Hread. unfold empty in H.
  destruct (columns read); [discriminate|].
  destruct (rows read) eqn:Hr; [discriminate|].
  injection H as <-. rewrite Hr. discriminate.
Qed.

(** X11.  [main] is validation followed by processing: it raises what
    [validate_mapping_file] raises, raises the empty-dictionary error when
    validation resolved no source schema, and otherwise is
    [process_mapping_file] on the validated frame and schemas.  Its test for
    an empty mapping file never fires, because no empty frame passes
    [load_file_to_dataframe]. *)
Theorem main_is_validation_then_processing (E : Externals)
  (input_file domain target file_type mode : str) (fs : files) :
  main E input_file domain target file_type mode fs
  = match validate_mapping_file E input_file domain target file_type with
    | Raise e => (Raise e, fs)
    | Ok (df, []) => (Raise (Exception_ SourceSchemaDictEmpty), fs)
    | Ok (df, sd) => process_mapping_file E mode domain target df sd fs
    end.
Proof.
  unfold main, io_bind, lift.
  destruct (validate_mapping_file E input_file domain target file_type)
    as [[df sd]|e] eqn:Hv; [|reflexivity].
  apply validate_Ok_load in Hv as [Hload _]. apply load_Ok_rows in Hload.
  destruct (rows df); [contradiction|]. destruct sd; reflexivity.
Qed.

Lemma file_content_app (a b : files) (p : path) :
  file_content (a ++ b) p
  = match file_content b p with
    | Some newer => Some newer
    | None => file_content a p
    end.
Proof.
  induction a as [|[q content] a IH]; simpl.
  - now destruct (file_content b p).
  - rewrite IH. destruct (file_content b p); reflexivity.
Qed.

Lemma file_content_absent (fs : files) (p : path) :
  (forall f, In f fs -> fst f <> p) -> file_content fs p = None.
Proof.
  induction fs as [|[q content] fs IH]; simpl; intros H; [reflexivity|].
  rewrite IH by (intros f Hf; apply H; now right).
  destruct (list_eq_dec str_eq_dec q p) as [Heq|]; [|reflexivity].
  exfalso. apply (H (q, content)); [now left | exact Heq].
Qed.

Lemma output_path_inj (domain target name name' : str) :
  output_path domain target name = output_path domain target name' ->
  name = name'.
Proof. unfold output_path. intros H. now injection H. Qed.



(** X13.  [main] can succeed for the tier bronze only: for every other
    target it raises and writes no file. *)
Theorem main_succeeds_for_bronze_only (E : Externals)
  (input_file domain target file_type mode : str) (fs : files) :
  target <> u "bronze" ->
  exists e,
    main E input_file domain target file_type mode fs = (Raise e, fs).
Proof.
  intros Htarget.
  destruct (eqb target (u "landing-zone")) eqn:Hlz.
  - apply eqb_eq in Hlz. subst. apply main_landing_zone_raises.
  - unfold main, io_bind, lift.
    destruct (validate_mapping_file E input_file domain target file_type)
      as [[df sd]|e] eqn:Hv; [|eauto].
    exfalso. apply validate_Ok_load in Hv as [_ [required Hreq]].
    unfold get_required_columns_list in Hreq.
    destruct (has target MAP_FILE_REQUIRED_COLUMNS_MAP) eqn:Hhas;
      [|discriminate].
    unfold has in Hhas. apply mem_In in Hhas. vm_compute in Hhas.
    destruct Hhas as [H|[H|[]]].
    + apply eqb_neq in Hlz. apply Hlz. now rewrite <- H.
    + apply Htarget. now rewrite <- H.
Qed.

Lemma main_succeeds_for_bronze_only_witness :
  u "gold" <> u "bronze"
  /\ exists e,
       main (Example.world SchemaExamples.gold_orders [] [])
         (u "map.xlsx") (u "sales") (u "gold") (u "excel") (u "live") []
       = (Raise e, []).
Proof.
  assert (H : u "gold" <> u "bronze") by discriminate.
  split; [exact H|].
  exact (main_succeeds_for_bronze_only _ (u "map.xlsx") (u "sales") (u "gold")
           (u "excel") (u "live") [] H).
Defined.

(** The dictionaries of target schemas and of mappings have the target
    tables as keys, in order. *)
Lemma target_schema_keys (E : Externals) (domain target : str)
  (sd : dict json) (df : DataFrame) tsd :
  generate_target_schema_config E domain target sd df = Ok tsd ->
  get_target_table_list df = Ok (keys tsd).
Proof.
  intros H. apply reraise_Ok in H. bind_inv H col Hcol.
  unfold get_target_table_list. rewrite Hcol. cbn [bind]. f_equal.
  symmetry.
  apply (foldM_set_keys _ _) with (acc := []) (r := tsd) in H.
  - exact H.
  - intros d0 k d' Hstep. bind_inv Hstep hdr Hhdr. injection Hstep as <-.
    eauto.
  - apply cleanse_NoDup.
  - intros k _ [].
Qed.

Lemma mapping_keys (E : Externals) (domain target : str)
  (sd : dict json) (df : DataFrame) mcd :
  generate_mapping_config E domain target sd df = Ok mcd ->
  get_target_table_list df = Ok (keys mcd).
Proof.
  intros H. unfold generate_mapping_config in H. bind_inv H col Hcol.
  unfold get_target_table_list. rewrite Hcol. cbn [bind]. f_equal.
  symmetry.
  apply (foldM_set_keys _ _) with (acc := []) (r := mcd) in H.
  - exact H.
  - intros d0 k d' Hstep. bind_inv Hstep area Harea. bind_inv Hstep cols Hcols.
    destruct (set k _ d0) eqn:Hset; [discriminate|].
    destruct cols; [discriminate|]. injection Hstep as <-.
    rewrite <- Hset. eauto.
  - apply cleanse_NoDup.
  - intros k _ [].
Qed.

Lemma names_of_named (target : str) (kind : string) (d : dict json) :
  map fst (map (named target kind) d)
  = map (artifact_name target kind) (keys d).
Proof. unfold keys. rewrite !map_map. reflexivity. Qed.

(** X14.  The files of a successful run of [process_mapping_file], in the
    order they are written and returned: the target-tables file, one
    source-schema file per resolved source schema, one target-schema file
    per target table, one pipeline file per linkage, and one mapping file
    per target table, each holding what its generator returned. *)
Theorem successful_run_files (E : Externals)
  (mode domain target : str) (df : DataFrame) (sd : dict json)
  (fs fs' : files) (names : list str) :
  process_mapping_file E mode domain target df sd fs = (Ok names, fs') ->
  exists tables ttd source_files tsd pcd mcd,
    get_target_table_list df = Ok tables
    /\ generate_target_table_config target df = Ok ttd
    /\ Forall2
         (fun item file => source_schema_artifact E target df item = Ok file)
         sd source_files
    /\ generate_target_schema_config E domain target sd df = Ok tsd
    /\ keys tsd = tables
    /\ generate_pipeline_config domain target df = Ok pcd
    /\ generate_mapping_config E domain target sd df = Ok mcd
    /\ keys mcd = tables
    /\ names
       = artifact_name target "_target_tables_" domain
           :: map fst source_files
           ++ map (artifact_name target "_schema_") tables
           ++ map (artifact_name target "_pipeline_") (keys pcd)
           ++ map (artifact_name target "_map_") tables
    /\ fs'
       = fs ++ stored domain target
                 ((artifact_name target "_target_tables_" domain, ttd)
                    :: source_files
                    ++ map (named target "_schema_") tsd
                    ++ map (named target "_pipeline_") pcd
                    ++ map (named target "_map_") mcd).
Proof.
  intros H.
  destruct (process_mapping_file_writes E mode domain target df sd fs)
    as [written [Hfs HQ]].
  rewrite H in Hfs, HQ. simpl in Hfs, HQ.
  destruct (HQ names eq_refl)
    as [Hnames [ttd [source_files [tsd [pcd [mcd
         [Httd [Hsrc [Htsd [Hpcd [Hmcd Hw]]]]]]]]]]].
  pose proof (target_schema_keys _ _ _ _ _ _ Htsd) as Hk1.
  pose proof (mapping_keys _ _ _ _ _ _ Hmcd) as Hk2.
  assert (Hsame : keys mcd = keys tsd) by congruence.
  exists (keys tsd), ttd, source_files, tsd, pcd, mcd.
  repeat (split; [assumption || reflexivity|]).
  split; [|now rewrite Hfs, Hw].
  rewrite Hnames, Hw. simpl. rewrite !map_app, !names_of_named, Hsame.
  reflexivity.
Qed.

Lemma successful_run_files_witness :
  let df := MappingExamples.keyed in
  let sd := MappingExamples.orders_schema in
  let E := Example.world df Example.orders_catalogue [] in
  let run :=
    process_mapping_file E (u "debug") (u "sales") (u "bronze") df sd [] in
  let names :=
    [u "bronze_target_tables_sales.json";
     u "landing-zone_schema_DimOrders.json";
     u "bronze_schema_DimOrders.json";
     u "bronze_pipeline_DimOrders.json";
     u "bronze_map_DimOrders.json"] in
  run = (Ok names, snd run)
  /\ exists tables ttd source_files tsd pcd mcd,
       get_target_table_list df = Ok tables
       /\ generate_target_table_config (u "bronze") df = Ok ttd
       /\ Forall2
            (fun item file =>
               source_schema_artifact E (u "bronze") df item = Ok file)
            sd source_files
       /\ generate_target_schema_config E (u "sales") (u "bronze") sd df
          = Ok tsd
       /\ keys tsd = tables
       /\ generate_pipeline_config (u "sales") (u "bronze") df = Ok pcd
       /\ generate_mapping_config E (u "sales") (u "bronze") sd df = Ok mcd
       /\ keys mcd = tables
       /\ names
          = artifact_name (u "bronze") "_target_tables_" (u "sales")
              :: map fst source_files
              ++ map (artifact_name (u "bronze") "_schema_") tables
              ++ map (artifact_name (u "bronze") "_pipeline_") (keys pcd)
              ++ map (artifact_name (u "bronze") "_map_") tables
       /\ snd run
          = [] ++ stored (u "sales") (u "bronze")
                    ((artifact_name (u "bronze") "_target_tables_" (u "sales"),
                      ttd)
                       :: source_files
                       ++ map (named (u "bronze") "_schema_") tsd
                       ++ map (named (u "bronze") "_pipeline_") pcd
                       ++ map (named (u "bronze") "_map_") mcd).
Proof.
  intros df sd E run names.
  assert (H : run = (Ok names, snd run)) by (vm_compute; reflexivity).
  split; [exact H|].
  exact (successful_run_files E (u "debug") (u "sales") (u "bronze") df sd []
           (snd run) names H).
Defined.

Lemma artifact_name_inj (target : str) (kind : string) (k k' : str) :
  artifact_name target kind k = artifact_name target kind k' -> k = k'.
Proof.
  unfold artifact_name. intros H.
  apply app_inv_head in H. apply app_inv_head in H.
  now apply app_inv_tail in H.
Qed.

(** The file of an entry of a dictionary, among the files of the
    dictionary. *)
Lemma file_content_named (domain target : str) (kind : string)
  (d : dict json) (k : str) (v : json) :
  NoDup (keys d) -> In (k, v) d ->
  file_content (stored domain target (map (named target kind) d))
    (output_path domain target (artifact_name target kind k))
  = Some v.
Proof.
  unfold keys. induction d as [|[k0 v0] d IH]; intros Hnd Hin;
    [contradiction|].
  inversion Hnd as [|? ? Hk0 Hd]; subst.
  change (stored domain target (map (named target kind) ((k0, v0) :: d)))
    with ((output_path domain target (artifact_name target kind k0), v0)
            :: stored domain target (map (named target kind) d)).
  cbn [file_content]. destruct Hin as [Heq|Hin].
  - injection Heq as -> ->.
    rewrite file_content_absent.
    + destruct (list_eq_dec str_eq_dec _ _) as [|Hne]; [reflexivity|].
      now contradiction Hne.
    + intros f Hf Hp. unfold stored in Hf. rewrite map_map in Hf.
      apply in_map_iff in Hf as [[k1 v1] [<- Hin1]]. simpl in Hp.
      apply output_path_inj, artifact_name_inj in Hp. subst k1.
      apply Hk0. apply in_map_iff. exists (k, v1). auto.
  - now rewrite (IH Hd Hin).
Qed.

(** The files of a dictionary of another kind are other files. *)
Lemma file_content_other_kind (domain target : str) (kind kind' : string)
  (d : dict json) (k : str) :
  (forall x y, u kind' ++ x <> u kind ++ y) ->
  file_content (stored domain target (map (named target kind') d))
    (output_path domain target (artifact_name target kind k))
  = None.
Proof.
  intros Hkind. apply file_content_absent. intros f Hf Hp.
  unfold stored in Hf. rewrite map_map in Hf.
  apply in_map_iff in Hf as [[k1 v1] [<- Hin1]]. simpl in Hp.
  apply output_path_inj in Hp. unfold artifact_name in Hp.
  apply app_inv_head in Hp. exact (Hkind _ _ Hp).
Qed.

Lemma mapping_config_needs_source_area (E : Externals)
  (domain target : str) (sd : dict json) (df : DataFrame) mcd :
  generate_mapping_config E domain target sd df = Ok mcd ->
  mcd <> [] ->
  exists area, getitem TARGET_SOURCE_AREA_MAP target = Ok area.
Proof.
  intros H Hne. unfold generate_mapping_config in H. bind_inv H col Hcol.
  destruct (cleanse_column_list (unique col)) as [|k0 rest]; simpl in H.
  - injection H as <-. contradiction.
  - bind_inv H acc Hacc. bind_inv Hacc area Harea. eauto.
Qed.

(** X15.  After a successful run of [process_mapping_file], the file the
    next tier reads as the source schema of a table is the target-schema
    file this run wrote for that table, and it holds the schema generated
    for it: [generate_source_schema_config] of the tier whose source tier
    is this one loads exactly that path. *)
Theorem target_schema_is_stored_for_the_next_tier (E : Externals)
  (mode domain target next : str) (df : DataFrame) (sd tsd : dict json)
  (fs fs' : files) (names : list str) (table : str) (schema : json) :
  process_mapping_file E mode domain target df sd fs = (Ok names, fs') ->
  generate_target_schema_config E domain target sd df = Ok tsd ->
  In (table, schema) tsd ->
  get next TARGET_SOURCE_AREA_MAP = Some target ->
  let p := output_path domain target (artifact_name target "_schema_" table) in
  file_content fs' p = Some schema
  /\ forall E',
       generate_source_schema_config E' domain next table
       = load_json_config_file E' p.
Proof.
  intros H Htsd Hin Hnext p.
  destruct (process_mapping_file_writes E mode domain target df sd fs)
    as [written [Hfs HQ]].
  rewrite H in Hfs, HQ. simpl in Hfs, HQ.
  destruct (HQ names eq_refl)
    as [_ [ttd [source_files [tsd' [pcd [mcd
         [_ [_ [Htsd' [_ [Hmcd Hw]]]]]]]]]]].
  assert (tsd' = tsd) by congruence. subst tsd'.
  pose proof (target_schema_keys _ _ _ _ _ _ Htsd) as Hk1.
  pose proof (mapping_keys _ _ _ _ _ _ Hmcd) as Hk2.
  assert (Hnd : NoDup (keys tsd)).
  { unfold get_target_table_list in Hk1. bind_inv Hk1 col Hcol.
    injection Hk1 as Hk1. rewrite <- Hk1. apply cleanse_NoDup. }
  split.
  - rewrite Hfs, Hw. rewrite file_content_app.
    change ((artifact_name target "_target_tables_" domain, ttd)
              :: source_files ++ map (named target "_schema_") tsd
              ++ map (named target "_pipeline_") pcd
              ++ map (named target "_map_") mcd)
      with (((artifact_name target "_target_tables_" domain, ttd)
               :: source_files)
              ++ map (named target "_schema_") tsd
              ++ map (named target "_pipeline_") pcd
              ++ map (named target "_map_") mcd).
    unfold stored at 1. rewrite !map_app.
    fold (stored domain target (map (named target "_schema_") tsd)).
    fold (stored domain target (map (named target "_pipeline_") pcd)).
    fold (stored domain target (map (named target "_map_") mcd)).
    rewrite !file_content_app.
    unfold p.
    rewrite (file_content_other_kind domain target "_schema_" "_map_")
      by (intros x y; discriminate).
    rewrite (file_content_other_kind domain target "_schema_" "_pipeline_")
      by (intros x y; discriminate).
    now rewrite (file_content_named domain target "_schema_" tsd table schema).
  - intros E'.
    destruct (mapping_config_needs_source_area _ _ _ _ _ _ Hmcd)
      as [area Harea].
    { intros ->. rewrite Hk1 in Hk2. injection Hk2 as Hk.
      destruct tsd; [contradiction | discriminate]. }
    unfold generate_source_schema_config. rewrite Hnext.
    apply get_In in Hnext. vm_compute in Hnext.
    destruct Hnext as [Hn|[Hn|[Hn|[]]]]; injection Hn as _ <-.
    + discriminate.
    + reflexivity.
    + reflexivity.
Qed.

Lemma target_schema_is_stored_for_the_next_tier_witness :
  let df := SchemaExamples.orders in
  let sd := MappingExamples.orders_schema in
  let E := Example.world df Example.orders_catalogue [] in
  let run :=
    process_mapping_file E (u "debug") (u "sales") (u "bronze") df sd [] in
  let names :=
    [u "bronze_target_tables_sales.json";
     u "landing-zone_schema_DimOrders.json";
     u "bronze_schema_DimOrders.json";
     u "bronze_pipeline_DimOrders.json";
     u "bronze_map_DimOrders.json"] in
  let schema :=
    target_schema_header (u "sales") (u "DimOrders")
      [u "OrderName"; u "OrderId"] [u "OrderId"; u "IngestDate"]
      [Example.audit_column "OrderId" "integer";
       Example.audit_column "OrderName" "string";
       Example.audit_column "IngestDate" "timestamp";
       Example.audit_column "SourceFile" "string"] in
  let tsd := [(u "DimOrders", schema)] in
  let p :=
    output_path (u "sales") (u "bronze") (u "bronze_schema_DimOrders.json") in
  (run = (Ok names, snd run)
   /\ generate_target_schema_config E (u "sales") (u "bronze") sd df = Ok tsd
   /\ In (u "DimOrders", schema) tsd
   /\ get (u "silver") TARGET_SOURCE_AREA_MAP = Some (u "bronze"))
  /\ file_content (snd run) p = Some schema
  /\ forall E',
       generate_source_schema_config E' (u "sales") (u "silver")
         (u "DimOrders")
       = load_json_config_file E' p.
Proof.
  intros df sd E run names schema tsd p.
  assert (H1 : run = (Ok names, snd run)) by (vm_compute; reflexivity).
  assert (H2 : generate_target_schema_config E (u "sales") (u "bronze") sd df
               = Ok tsd) by reflexivity.
  assert (H3 : In (u "DimOrders", schema) tsd) by (left; reflexivity).
  assert (H4 : get (u "silver") TARGET_SOURCE_AREA_MAP = Some (u "bronze"))
    by reflexivity.
  split; [tauto|].
  exact (target_schema_is_stored_for_the_next_tier E (u "debug") (u "sales")
           (u "bronze") (u "silver") df sd tsd [] (snd run) names
           (u "DimOrders") schema H1 H2 H3 H4).
Defined.

(** ** The target tables of a run *)

(** X16.  One Target Table Name cell that is not a string, a missing one
    for instance, leaves the run without target tables and without an
    error: the target-tables artifact lists no table, and no target schema
    and no mapping is generated. *)
Theorem missing_target_table_cell_empties_the_run (E : Externals)
  (domain target : str) (sd : dict json) (df : DataFrame) (r : MappingRow) :
  has_column df TargetTableName = true ->
  In r (rows df) ->
  is_str (Target_Table_Name r) = false ->
  get_target_table_list df = Ok []
  /\ (exists ttd,
         generate_target_table_config target df = Ok ttd
         /\ json_getitem ttd (u "target_table_list") = Ok (JArray []))
  /\ generate_target_schema_config E domain target sd df = Ok []
  /\ generate_mapping_config E domain target sd df = Ok [].
Proof.
  intros Hcol Hin Hstr.
  assert (Hnone : cleanse_column_list
                    (unique (map (fun r => cell r TargetTableName) (rows df)))
                  = []).
  { apply cleanse_non_string with (v := Target_Table_Name r);
      [|assumption].
    apply unique_In. apply in_map_iff. exists r. auto. }
  unfold get_target_table_list, generate_target_table_config,
    generate_target_schema_config, generate_mapping_config, column.
  rewrite Hcol. cbn [bind reraise]. rewrite Hnone.
  split; [reflexivity|]. split; [|split; reflexivity].
  eexists. split; reflexivity.
Qed.

Lemma missing_target_table_cell_empties_the_run_witness :
  let df := RunExamples.missing_target_table in
  let sd := MappingExamples.orders_schema in
  let E := Example.world df Example.orders_catalogue [] in
  let r :=
    MappingExamples.with_business_key (Example.txt "N")
      (Example.mapping_row (Example.txt "ORDERS") (Example.txt "name") VNaN
         (Example.txt "OrderName")) in
  (has_column df TargetTableName = true
   /\ In r (rows df)
   /\ is_str (Target_Table_Name r) = false)
  /\ get_target_table_list df = Ok []
  /\ (exists ttd,
         generate_target_table_config (u "bronze") df = Ok ttd
         /\ json_getitem ttd (u "target_table_list") = Ok (JArray []))
  /\ generate_target_schema_config E (u "sales") (u "bronze") sd df = Ok []
  /\ generate_mapping_config E (u "sales") (u "bronze") sd df = Ok [].
Proof.
  intros df sd E r.
  assert (H1 : has_column df TargetTableName = true) by reflexivity.
  assert (H2 : In r (rows df)) by (right; left; reflexivity).
  assert (H3 : is_str (Target_Table_Name r) = false) by reflexivity.
  split; [tauto|].
  exact (missing_target_table_cell_empties_the_run E (u "sales") (u "bronze")
           sd df r H1 H2 H3).
Defined.

(** ** The source-schema files *)

Lemma mapM_with_type_string (items retyped : list json) :
  mapM with_type_string items = Ok retyped ->
  exists fields : list (dict json),
    items = map JObject fields
    /\ retyped
       = map (fun f => JObject (set (u "type") (JString (u "string")) f))
           fields.
Proof.
  revert retyped. induction items as [|c items IH]; simpl; intros retyped H.
  - injection H as <-. exists []. auto.
  - bind_inv H c' Hc. bind_inv H rest Hrest. injection H as <-.
    destruct (IH _ Hrest) as [fields [-> ->]].
    destruct c; try discriminate. simpl in Hc. injection Hc as <-.
    eexists (_ :: fields). split; reflexivity.
Qed.

(** X17.  The source-schema file written for a resolved source table is
    named after the upstream tier and the Target Table Name cell of the
    first row whose Source Table Name cell is that table name.  For silver
    and gold it holds the resolved schema as it is; for bronze, whose
    upstream tier is landing-zone, it holds the schema with the type of
    every column set to string. *)
Theorem source_schema_file_content (E : Externals) (target : str)
  (df : DataFrame) (source_table : str) (schema : json)
  (name : str) (content : json) :
  source_schema_artifact E target df (source_table, schema)
  = Ok (name, content) ->
  exists area first_cell,
    get target TARGET_SOURCE_AREA_MAP = Some area
    /\ first (map Target_Table_Name
                (filter (fun r => eq_str (Source_Table_Name r) source_table)
                   (rows df)))
       = Ok first_cell
    /\ name = area ++ u "_schema_" ++ format_value E first_cell ++ u ".json"
    /\ if eqb area (u "landing-zone")
       then exists (m : dict json) (schema_columns : json)
                   (fields : list (dict json)),
           schema = JObject m
           /\ get (u "columns") m = Some schema_columns
           /\ json_iter schema_columns = Ok (map JObject fields)
           /\ content
              = JObject
                  (set (u "columns")
                     (JArray
                        (map (fun f =>
                                JObject
                                  (set (u "type") (JString (u "string")) f))
                           fields))
                     m)
       else content = schema.
Proof.
  unfold source_schema_artifact. intros H.
  bind_inv H first_cell Hcell. bind_inv Hcell selected Hsel. bind_inv Hcell col Hcol.
  apply where_eq_Ok in Hsel as [_ ->]. apply column_Ok in Hcol as [_ ->].
  rewrite first_unique in Hcell. cbn [rows] in Hcell.
  bind_inv H area Harea. bind_inv H written Hwritten. injection H as <- <-.
  unfold getitem in Harea.
  destruct (get target TARGET_SOURCE_AREA_MAP) as [area'|]; [|discriminate].
  injection Harea as ->.
  exists area, first_cell. split; [reflexivity|]. split; [exact Hcell|].
  split; [reflexivity|].
  destruct (eqb area (u "landing-zone")).
  - bind_inv Hwritten schema_columns Hcols. bind_inv Hwritten items Hitems.
    bind_inv Hwritten retyped Hretyped.
    apply mapM_with_type_string in Hretyped as [fields [-> ->]].
    destruct schema; try discriminate. simpl in Hwritten.
    injection Hwritten as <-.
    unfold json_getitem, getitem in Hcols.
    match type of Hcols with
    | match get _ ?m with _ => _ end = _ =>
        destruct (get (u "columns") m) as [sc|] eqn:Hget; [|discriminate];
        exists m, schema_columns, fields
    end.
    injection Hcols as ->. auto.
  - now injection Hwritten.
Qed.

Lemma source_schema_file_content_witness :
  let df := MappingExamples.keyed in
  let E := Example.world df Example.orders_catalogue [] in
  let fields :=
    [Example.catalogue_column "id" "int";
     Example.catalogue_column "name" "varchar"] in
  let m :=
    [(u "domain", JString (u "sales"));
     (u "table_name", JString (u "ORDERS"));
     (u "columns", JArray (map JObject fields))] in
  let name := u "landing-zone_schema_DimOrders.json" in
  let content :=
    JObject
      [(u "domain", JString (u "sales"));
       (u "table_name", JString (u "ORDERS"));
       (u "columns",
         JArray (map JObject [Example.catalogue_column "id" "string";
                              Example.catalogue_column "name" "string"]))] in
  source_schema_artifact E (u "bronze") df (u "ORDERS", JObject m)
  = Ok (name, content)
  /\ exists area first_cell,
       get (u "bronze") TARGET_SOURCE_AREA_MAP = Some area
       /\ first (map Target_Table_Name
                   (filter (fun r => eq_str (Source_Table_Name r) (u "ORDERS"))
                      (rows df)))
          = Ok first_cell
       /\ name = area ++ u "_schema_" ++ format_value E first_cell ++ u ".json"
       /\ if eqb area (u "landing-zone")
          then exists (m' : dict json) (schema_columns : json)
                      (fields' : list (dict json)),
              JObject m = JObject m'
              /\ get (u "columns") m' = Some schema_columns
              /\ json_iter schema_columns = Ok (map JObject fields')
              /\ content
                 = JObject
                     (set (u "columns")
                        (JArray
                           (map (fun f =>
                                   JObject
                                     (set (u "type") (JString (u "string")) f))
                              fields'))
                        m')
          else content = JObject m.
Proof.
  intros df E fields m name content.
  assert (H : source_schema_artifact E (u "bronze") df (u "ORDERS", JObject m)
              = Ok (name, content)) by reflexivity.
  split; [exact H|].
  exact (source_schema_file_content E (u "bronze") df (u "ORDERS") (JObject m)
           name content H).
Defined.

(** ** The columns of a mapping *)

Lemma declared_data_type_range (df : DataFrame) (r : MappingRow) type :
  declared_data_type df r = Ok type -> In type mapped_types.
Proof.
  unfold declared_data_type, row_get.
  destruct (has_column df DataType); cbn [bind]; intros H;
    injection H as <-.
  - apply datatype_of_value_range.
  - vm_compute. tauto.
Qed.

(** The column mapping of a row: its name is the stripped target column,
    its type is a mapped type, and when the row has a source table and a
    source column its source carries the same type. *)
Lemma column_mapping_of_row_Ok (E : Externals) (sd : dict json)
  (df : DataFrame) (r : MappingRow) (c : json) :
  column_mapping_of_row E sd df r = Ok (Some c) ->
  exists raw type source,
    Target_Column_Name r = VStr raw
    /\ c = column_mapping_dict (strip raw) type source
    /\ In type mapped_types
    /\ (nonblank_str (Source_Column_Name r)
        && nonblank_str (Source_Table_Name r) = true ->
        exists source_name,
          first (cleanse_column_list [Source_Column_Name r]) = Ok source_name
          /\ source = JObject [(u "name", JString source_name);
                               (u "type", JString type)]).
Proof.
  unfold column_mapping_of_row, row_get. intros H.
  bind_inv H tc Htc. bind_inv H name Hname. bind_inv H sc Hsc.
  bind_inv H st Hst. bind_inv H declared Hdeclared.
  destruct (has_column df TargetColumnName); [|discriminate].
  destruct (has_column df SourceColumnName); [|discriminate].
  destruct (has_column df SourceTableName); [|discriminate].
  injection Htc as <-. injection Hsc as <-. injection Hst as <-.
  cbn [cell] in *.
  destruct (Target_Column_Name r) as [raw| | | |]; try discriminate.
  injection Hname as <-.
  pose proof (declared_data_type_range _ _ _ Hdeclared) as Hrange.
  destruct (nonblank_str (Source_Column_Name r)
            && nonblank_str (Source_Table_Name r)).
  - bind_inv H source_name Hsn. bind_inv H table_name Htn.
    bind_inv H schema_columns Hcols. bind_inv H items Hitems.
    bind_inv H types Htypes. bind_inv H source_type Hfirst.
    bind_inv H type Htype. injection H as <-.
    exists raw, type, (JObject [(u "name", JString source_name);
                                (u "type", JString type)]).
    split; [reflexivity|]. split; [reflexivity|].
    split; [eapply datatype_of_json_range; eassumption|].
    intros _. exists source_name. auto.
  - destruct (has_column df TransformationFunction).
    + bind_inv H tf Htf. injection Htf as <-.
      destruct (Transformation_Function r) as [[|ch text]| | | |];
        try (injection H as <-; exists raw, declared, (JObject []);
             repeat split; try assumption; discriminate).
      destruct (json_loads E (ch :: text)) as [parsed|]; [|discriminate].
      bind_inv H source_dict Hsd. injection H as <-.
      exists raw, declared, source_dict.
      repeat split; try assumption; discriminate.
    + injection H as <-. exists raw, declared, (JObject []).
      repeat split; try assumption; discriminate.
Qed.

Lemma business_key_columns_typed (df f : DataFrame) initial :
  business_key_columns df f = Ok initial ->
  Forall typed_column_mapping initial.
Proof.
  unfold business_key_columns. intros H.
  destruct (has_column f IsBusinessKey).
  - bind_inv H whole Hwhole. bind_inv H series Hseries.
    bind_inv H ok Hok. bind_inv H col Hcol. injection H as <-.
    constructor; [|constructor].
    eexists (u "MergeKey"), (u "string"), _. split; [reflexivity|].
    vm_compute. tauto.
  - injection H as <-. constructor.
Qed.

Lemma append_column_mappings_typed (E : Externals) (sd : dict json)
  (f : DataFrame) initial cols :
  Forall typed_column_mapping initial ->
  append_column_mappings E sd f initial = Ok cols ->
  Forall typed_column_mapping cols.
Proof.
  unfold append_column_mappings. intros Hinit.
  apply (foldM_invariant (Forall typed_column_mapping)); [|assumption].
  intros acc r acc' _ Hacc H. unfold append_column_mapping in H.
  bind_inv H mapped Hm. injection H as <-.
  destruct mapped as [c|]; [|assumption].
  apply Forall_app. split; [assumption|]. constructor; [|constructor].
  apply column_mapping_of_row_Ok in Hm
    as [raw [type [source [_ [-> [Hrange _]]]]]].
  exists (strip raw), type, source. auto.
Qed.

(** X18.  Every mapping that [generate_mapping_config] returns names its
    domain, its table, the upstream tier and the tier, and has at least one
    column; every column of it is a name, a type and a source, and the type
    is one of integer, double, string, timestamp and long. *)
Theorem mapping_columns_are_typed (E : Externals)
  (domain target : str) (sd : dict json) (df : DataFrame) (mcd : dict json)
  (table : str) (header : json) :
  generate_mapping_config E domain target sd df = Ok mcd ->
  In (table, header) mcd ->
  exists area cols,
    get target TARGET_SOURCE_AREA_MAP = Some area
    /\ mapping_columns_of_table E sd df table = Ok cols
    /\ header
       = JObject [(u "domain", JString domain);
                  (u "table_name", JString table);
                  (u "source", JString area);
                  (u "target", JString target);
                  (u "columns", JArray cols)]
    /\ cols <> []
    /\ Forall typed_column_mapping cols.
Proof.
  intros H. unfold generate_mapping_config in H. bind_inv H col Hcol.
  revert H table header.
  apply foldM_set_invariant; [|intros k v []].
  intros acc k acc' Hstep.
  bind_inv Hstep area Harea. bind_inv Hstep cols Hcols.
  destruct (set k _ acc) eqn:Hset; [discriminate|].
  destruct cols as [|c rest]; [discriminate|].
  injection Hstep as <-. rewrite <- Hset. clear Hset.
  eexists. split; [|reflexivity].
  exists area, (c :: rest).
  unfold getitem in Harea.
  destruct (get target TARGET_SOURCE_AREA_MAP) as [area'|]; [|discriminate].
  injection Harea as ->.
  split; [reflexivity|]. split; [assumption|]. split; [reflexivity|].
  split; [discriminate|].
  unfold mapping_columns_of_table in Hcols.
  bind_inv Hcols f Hf. bind_inv Hcols initial Hinit.
  eapply append_column_mappings_typed; [|eassumption].
  eapply business_key_columns_typed; eassumption.
Qed.

Lemma mapping_columns_are_typed_witness :
  let df := MappingExamples.with_constant in
  let sd := MappingExamples.orders_schema in
  let E := Example.world df Example.orders_catalogue [] in
  let mcd :=
    generated (generate_mapping_config E (u "sales") (u "bronze") sd df) in
  let header :=
    JObject [(u "domain", JString (u "sales"));
             (u "table_name", JString (u "DimOrders"));
             (u "source", JString (u "landing-zone"));
             (u "target", JString (u "bronze"));
             (u "columns",
               JArray
                 [merge_key_column [u "OrderId"];
                  column_mapping_dict (u "OrderId") (u "integer")
                    (JObject [(u "name", JString (u "id"));
                              (u "type", JString (u "integer"))]);
                  column_mapping_dict (u "Zero") (u "integer")
                    (JObject [(u "function", JString (u "const"));
                              (u "params", JObject [(u "value", JInt 0)]);
                              (u "type", JString (u "string"))]);
                  column_mapping_dict (u "OrderName") (u "string")
                    (JObject [(u "name", JString (u "name"));
                              (u "type", JString (u "string"))])])] in
  (generate_mapping_config E (u "sales") (u "bronze") sd df = Ok mcd
   /\ In (u "DimOrders", header) mcd)
  /\ exists area cols,
       get (u "bronze") TARGET_SOURCE_AREA_MAP = Some area
       /\ mapping_columns_of_table E sd df (u "DimOrders") = Ok cols
       /\ header
          = JObject [(u "domain", JString (u "sales"));
                     (u "table_name", JString (u "DimOrders"));
                     (u "source", JString area);
                     (u "target", JString (u "bronze"));
                     (u "columns", JArray cols)]
       /\ cols <> []
       /\ Forall typed_column_mapping cols.
Proof.
  intros df sd E mcd header.
  assert (H1 : generate_mapping_config E (u "sales") (u "bronze") sd df
               = Ok mcd) by reflexivity.
  assert (H2 : In (u "DimOrders", header) mcd) by (left; reflexivity).
  split; [tauto|].
  exact (mapping_columns_are_typed E (u "sales") (u "bronze") sd df mcd
           (u "DimOrders") header H1 H2).
Defined.

(** X19.  For a row that has a source table and a source column,
    [generate_mapping_config] reads the Target Column Name, Source Table
    Name and Source Column Name cells only: two such rows that agree on
    these three cells get the same column mapping, whatever their Data
    Type, Default Value and Transformation Function cells hold, and the row
    is never skipped. *)
Theorem sourced_row_ignores_declared_type (E : Externals)
  (sd : dict json) (df : DataFrame) (r r' : MappingRow) :
  nonblank_str (Source_Column_Name r) && nonblank_str (Source_Table_Name r)
  = true ->
  Target_Column_Name r' = Target_Column_Name r ->
  Source_Table_Name r' = Source_Table_Name r ->
  Source_Column_Name r' = Source_Column_Name r ->
  column_mapping_of_row E sd df r' = column_mapping_of_row E sd df r
  /\ column_mapping_of_row E sd df r <> Ok None.
Proof.
  intros Hsource Htc Hst Hsc.
  unfold column_mapping_of_row, row_get. cbn [cell].
  rewrite Htc, Hst, Hsc.
  destruct (has_column df TargetColumnName); cbn [bind];
    [|split; [reflexivity | discriminate]].
  destruct (Target_Column_Name r) as [raw| | | |]; cbn [bind];
    try (split; [reflexivity | discriminate]).
  destruct (has_column df SourceColumnName); cbn [bind];
    [|split; [reflexivity | discriminate]].
  destruct (has_column df SourceTableName); cbn [bind];
    [|split; [reflexivity | discriminate]].
  destruct (declared_data_type_Ok df r) as [declared ->].
  destruct (declared_data_type_Ok df r') as [declared' ->].
  cbn [bind]. rewrite Hsource. split; [reflexivity|].
  repeat match goal with
         | |- bind ?c _ <> _ => destruct c; cbn [bind]; [|discriminate]
         end.
  discriminate.
Qed.

Lemma sourced_row_ignores_declared_type_witness :
  let df := MappingExamples.keyed in
  let sd := MappingExamples.orders_schema in
  let E := Example.world df Example.orders_catalogue [] in
  let r := MappingExamples.order_id (Example.txt "Y") in
  let r' :=
    {| Source_Table_Name := Example.txt "ORDERS";
       Source_Column_Name := Example.txt "id";
       Target_Table_Name := Example.txt "DimOrders";
       Target_Column_Name := Example.txt "OrderId";
       Order_By := VNaN;
       Partition_By := VNaN;
       Is_Business_Key := Example.txt "N";
       Data_Type := Example.txt "datetime";
       Default_Value := VInt 0;
       Transformation_Function := Example.txt "not json" |} in
  (nonblank_str (Source_Column_Name r) && nonblank_str (Source_Table_Name r)
   = true
   /\ Target_Column_Name r' = Target_Column_Name r
   /\ Source_Table_Name r' = Source_Table_Name r
   /\ Source_Column_Name r' = Source_Column_Name r)
  /\ column_mapping_of_row E sd df r' = column_mapping_of_row E sd df r
  /\ column_mapping_of_row E sd df r <> Ok None.
Proof.
  intros df sd E r r'.
  assert (H1 : nonblank_str (Source_Column_Name r)
               && nonblank_str (Source_Table_Name r) = true) by reflexivity.
  assert (H2 : Target_Column_Name r' = Target_Column_Name r) by reflexivity.
  assert (H3 : Source_Table_Name r' = Source_Table_Name r) by reflexivity.
  assert (H4 : Source_Column_Name r' = Source_Column_Name r) by reflexivity.
  split; [tauto|].
  exact (sourced_row_ignores_declared_type E sd df r r' H1 H2 H3 H4).
Defined.

(** ** The columns of a target schema *)

Lemma mapM_Forall2 {A B} (f : A -> result B) (l : list A) r :
  mapM f l = Ok r -> Forall2 (fun x y => f x = Ok y) l r.
Proof.
  revert r. induction l as [|x l IH]; simpl; intros r H.
  - injection H as <-. constructor.
  - bind_inv H y Hy. bind_inv H rest Hrest. injection H as <-.
    constructor; auto.
Qed.

Lemma Forall2_weaken {A B} (P Q : A -> B -> Prop) (l : list A) (r : list B) :
  (forall x y, P x y -> Q x y) -> Forall2 P l r -> Forall2 Q l r.
Proof. intros H. induction 1; constructor; auto. Qed.

Lemma Forall2_In_left {A B} (P : A -> B -> Prop) (l : list A) (r : list B) x :
  Forall2 P l r -> In x l -> exists y, In y r /\ P x y.
Proof.
  induction 1 as [|a b l r Hab _ IH]; intros Hin; [contradiction|].
  destruct Hin as [<-|Hin].
  - exists b. split; [now left | assumption].
  - destruct (IH Hin) as [y [Hy HP]]. exists y. split; [now right|].
    assumption.
Qed.

Lemma target_column_typed (df tdf : DataFrame) (schema : json)
  (r : MappingRow) (c : json) :
  target_column_schema_of_row df tdf schema r = Ok c -> typed_column r c.
Proof.
  intros H. apply target_column_type in H as [name [type [Hname [-> Htype]]]].
  exists name, type. split; [assumption|]. split; [reflexivity|].
  destruct (isna (Source_Column_Name r)).
  - subst type. apply datatype_of_value_range.
  - destruct Htype as [? [? [? [? [source_type [_ [_ [_ [_ [_ [_ H]]]]]]]]]]].
    eapply datatype_of_json_range; eassumption.
Qed.

Lemma audit_columns_name_and_type (E : Externals) (target : str) audit :
  get_data_area_audit_columns E target = Ok audit ->
  Forall name_and_type audit.
Proof.
  intros H. apply reraise_Ok in H.
  bind_inv H config Hconfig. bind_inv H area_config Harea.
  destruct (json_falsy area_config); [discriminate|].
  bind_inv H audit_columns Haudit.
  destruct audit_columns; try discriminate.
  apply mapM_Forall2 in H. clear - H.
  induction H as [|col a cols audit Hcol _ IH]; constructor; [|assumption].
  bind_inv Hcol name Hname. bind_inv Hcol type Htype. injection Hcol as <-.
  exists name, type. reflexivity.
Qed.

(** X20.  Every column of a target schema that
    [generate_target_schema_config] returns is a name and a type and nothing
    else: the MergeKey column for silver and gold, then one column per row
    of the table, in row order, named by the cleansed target column and
    typed with one of the five mapped types, then the audit columns of the
    tier with the name and the type their configuration gives. *)
Theorem target_schema_columns_are_typed (E : Externals)
  (domain target : str) (sd : dict json) (df : DataFrame) (tsd : dict json)
  (table : str) (header : json) :
  generate_target_schema_config E domain target sd df = Ok tsd ->
  In (table, header) tsd ->
  exists row_schemas audit,
    json_getitem header (u "columns")
    = Ok (JArray
            ((if mem target [u "silver"; u "gold"]
              then [MergeKey_column] else [])
             ++ row_schemas ++ audit))
    /\ Forall2 typed_column (table_rows df table) row_schemas
    /\ Forall name_and_type audit
    /\ Forall name_and_type
         ((if mem target [u "silver"; u "gold"]
           then [MergeKey_column] else [])
          ++ row_schemas ++ audit).
Proof.
  intros H Hin.
  pose proof (generate_target_schema_config_entries _ _ _ _ _ _ H _ _ Hin)
    as Ht.
  apply target_schema_of_table_Ok in Ht
    as [v [schema [sort [part [row_schemas [audit
         [_ [_ [_ [_ [Hrows [Haudit ->]]]]]]]]]]]].
  exists row_schemas, audit.
  assert (Htyped : Forall2 typed_column (table_rows df table) row_schemas).
  { apply mapM_Forall2 in Hrows. revert Hrows. apply Forall2_weaken.
    intros r c. apply target_column_typed. }
  pose proof (audit_columns_name_and_type _ _ _ Haudit) as Ha.
  split; [destruct (mem target [u "silver"; u "gold"]); reflexivity|].
  split; [assumption|]. split; [assumption|].
  apply Forall_app. split.
  - destruct (mem target [u "silver"; u "gold"]); constructor; [|constructor].
    eexists _, _. reflexivity.
  - apply Forall_app. split; [|assumption].
    clear - Htyped. induction Htyped as [|r c rs cs Hc _ IH]; constructor;
      [|assumption].
    destruct Hc as [name [type [_ [-> _]]]]. eexists _, _. reflexivity.
Qed.

Lemma target_schema_columns_are_typed_witness :
  let df := SchemaExamples.orders in
  let sd := MappingExamples.orders_schema in
  let E := Example.world df Example.orders_catalogue [] in
  let tsd :=
    generated (generate_target_schema_config E (u "sales") (u "silver") sd df) in
  let header :=
    target_schema_header (u "sales") (u "DimOrders")
      [u "OrderName"; u "OrderId"; u "MergeKey"] [u "OrderId"]
      [MergeKey_column;
       Example.audit_column "OrderId" "integer";
       Example.audit_column "OrderName" "string";
       Example.audit_column "UpdatedAt" "timestamp"] in
  (generate_target_schema_config E (u "sales") (u "silver") sd df = Ok tsd
   /\ In (u "DimOrders", header) tsd)
  /\ exists row_schemas audit,
       json_getitem header (u "columns")
       = Ok (JArray
               ((if mem (u "silver") [u "silver"; u "gold"]
                 then [MergeKey_column] else [])
                ++ row_schemas ++ audit))
       /\ Forall2 typed_column (table_rows df (u "DimOrders")) row_schemas
       /\ Forall name_and_type audit
       /\ Forall name_and_type
            ((if mem (u "silver") [u "silver"; u "gold"]
              then [MergeKey_column] else [])
             ++ row_schemas ++ audit).
Proof.
  intros df sd E tsd header.
  assert (H1 : generate_target_schema_config E (u "sales") (u "silver") sd df
               = Ok tsd) by reflexivity.
  assert (H2 : In (u "DimOrders", header) tsd) by (left; reflexivity).
  split; [tauto|].
  exact (target_schema_columns_are_typed E (u "sales") (u "silver") sd df tsd
           (u "DimOrders") header H1 H2).
Defined.

Lemma ordered_target_columns_In (E : Externals) (tdf : DataFrame)
  (by_col : Column) (l : list str) (x : str) :
  keeps_rows E ->
  ordered_target_columns E tdf by_col = Ok l ->
  In x l ->
  exists r s,
    In r (rows tdf)
    /\ isna (cell r by_col) = false
    /\ Target_Column_Name r = VStr s
    /\ s <> []
    /\ x = strip (remove_invisible s).
Proof.
  intros Hkeeps H Hx. unfold ordered_target_columns in H.
  bind_inv H selected Hsel. bind_inv H sorted Hsorted. bind_inv H col Hcol.
  injection H as <-.
  apply column_Ok in Hcol as [_ ->]. cbn [rows] in Hx.
  apply cleanse_In in Hx as [s [Hs [Hne ->]]].
  apply in_map_iff in Hs as [r [Hr Hin]].
  apply (Hkeeps _ _ _ Hsorted) in Hin.
  unfold where_notnull in Hsel.
  destruct (has_column tdf by_col); [|discriminate].
  injection Hsel as <-. cbn [rows] in Hin.
  apply filter_In in Hin as [Hin Hna].
  exists r, s. split; [assumption|]. split.
  - now destruct (isna (cell r by_col)).
  - auto.
Qed.

(** X21.  When sorting returns rows of the frame it is given, every sort
    column and every partition column of a generated target schema names a
    column of that schema, except the IngestDate that is appended to the
    partition columns of landing-zone and bronze, which is a column only
    when the audit columns of the tier hold it. *)
Theorem sort_and_partition_columns_are_columns (E : Externals)
  (domain target : str) (sd : dict json) (df : DataFrame) (tsd : dict json)
  (table : str) (header : json) :
  keeps_rows E ->
  generate_target_schema_config E domain target sd df = Ok tsd ->
  In (table, header) tsd ->
  exists sort part cols,
    json_getitem header (u "sort_columns") = Ok (JArray (map JString sort))
    /\ json_getitem header (u "partition_columns")
       = Ok (JArray (map JString part))
    /\ json_getitem header (u "columns") = Ok (JArray cols)
    /\ forall x, In x (sort ++ part) ->
         (mem target [u "silver"; u "gold"] = false /\ x = u "IngestDate")
         \/ exists c,
              In c cols /\ json_getitem c (u "name") = Ok (JString x).
Proof.
  intros Hkeeps H Hin.
  pose proof (generate_target_schema_config_entries _ _ _ _ _ _ H _ _ Hin)
    as Ht.
  apply target_schema_of_table_Ok in Ht
    as [v [schema [sort [part [row_schemas [audit
         [_ [_ [Hsort [Hpart [Hrows [_ ->]]]]]]]]]]]].
  assert (Hrow : forall by_col l x,
             ordered_target_columns E (table_frame df table) by_col = Ok l ->
             In x l ->
             exists c, In c row_schemas
                       /\ json_getitem c (u "name") = Ok (JString x)).
  { intros by_col l x Hl Hx.
    destruct (ordered_target_columns_In _ _ _ _ _ Hkeeps Hl Hx)
      as [r [s [Hr [_ [Hs [Hne ->]]]]]].
    apply mapM_Forall2 in Hrows.
    destruct (Forall2_In_left _ _ _ _ Hrows Hr) as [c [Hc Hschema]].
    apply target_column_typed in Hschema as [name [type [Hname [-> _]]]].
    exists (JObject [(u "name", JString name); (u "type", JString type)]).
    split; [assumption|].
    rewrite Hs, cleanse_singleton in Hname.
    destruct (eqb s []) eqn:Hempty; [apply eqb_eq in Hempty; contradiction|].
    injection Hname as <-. reflexivity. }
  destruct (mem target [u "silver"; u "gold"]).
  - exists (sort ++ [u "MergeKey"]), part,
      (MergeKey_column :: row_schemas ++ audit).
    repeat (split; [reflexivity|]).
    intros x Hx. right.
    rewrite <- app_assoc in Hx. apply in_app_or in Hx as [Hx|Hx].
    + destruct (Hrow _ _ _ Hsort Hx) as [c [Hc Hn]]. exists c.
      split; [right; apply in_or_app; now left | assumption].
    + destruct Hx as [<-|Hx].
      * exists MergeKey_column. split; [now left | reflexivity].
      * destruct (Hrow _ _ _ Hpart Hx) as [c [Hc Hn]]. exists c.
        split; [right; apply in_or_app; now left | assumption].
  - exists sort, (part ++ [u "IngestDate"]), (row_schemas ++ audit).
    repeat (split; [reflexivity|]).
    intros x Hx. rewrite app_assoc in Hx.
    apply in_app_or in Hx as [Hx|[<-|[]]]; [right | left; auto].
    apply in_app_or in Hx as [Hx|Hx].
    + destruct (Hrow _ _ _ Hsort Hx) as [c [Hc Hn]]. exists c.
      split; [apply in_or_app; now left | assumption].
    + destruct (Hrow _ _ _ Hpart Hx) as [c [Hc Hn]]. exists c.
      split; [apply in_or_app; now left | assumption].
Qed.

Lemma insert_sorted_In (k : Z) (r : MappingRow) (l : list (Z * MappingRow)) x :
  In x (Example.insert_sorted k r l) -> x = (k, r) \/ In x l.
Proof.
  induction l as [|[k' r'] l IH]; simpl.
  - intros [<-|[]]. now left.
  - destruct (k <=? k')%Z; simpl; intros H.
    + destruct H as [<-|H]; auto.
    + destruct H as [<-|H]; [auto|]. apply IH in H. tauto.
Qed.

(** The sort of the examples returns rows of its input. *)
Lemma world_keeps_rows (df : DataFrame) catalogue store :
  keeps_rows (Example.world df catalogue store).
Proof.
  intros by_col l sorted H r Hr. cbn [sort_values Example.world] in H.
  unfold Example.sort_int_cells in H. bind_inv H keyed Hkeyed.
  injection H as <-.
  apply in_map_iff in Hr as [[k r'] [Heq Hin]]. simpl in Heq. subst r'.
  assert (Hsub : In (k, r) keyed).
  { clear Hkeyed. induction keyed as [|[k0 r0] keyed IH]; simpl in Hin;
      [contradiction|].
    apply insert_sorted_In in Hin as [Heq|Hin]; [left; now symmetry|].
    right. now apply IH. }
  apply mapM_In in Hkeyed as [_ Hback].
  destruct (Hback _ Hsub) as [r1 [Hr1 Hcell]].
  destruct (cell r1 by_col); try discriminate. injection Hcell as _ <-.
  assumption.
Qed.

Lemma sort_and_partition_columns_are_columns_witness :
  let df := SchemaExamples.orders in
  let sd := MappingExamples.orders_schema in
  let E := Example.world df Example.orders_catalogue [] in
  let tsd :=
    generated (generate_target_schema_config E (u "sales") (u "bronze") sd df) in
  let header :=
    target_schema_header (u "sales") (u "DimOrders")
      [u "OrderName"; u "OrderId"] [u "OrderId"; u "IngestDate"]
      [Example.audit_column "OrderId" "integer";
       Example.audit_column "OrderName" "string";
       Example.audit_column "IngestDate" "timestamp";
       Example.audit_column "SourceFile" "string"] in
  (keeps_rows E
   /\ generate_target_schema_config E (u "sales") (u "bronze") sd df = Ok tsd
   /\ In (u "DimOrders", header) tsd)
  /\ exists sort part cols,
       json_getitem header (u "sort_columns") = Ok (JArray (map JString sort))
       /\ json_getitem header (u "partition_columns")
          = Ok (JArray (map JString part))
       /\ json_getitem header (u "columns") = Ok (JArray cols)
       /\ forall x, In x (sort ++ part) ->
            (mem (u "bronze") [u "silver"; u "gold"] = false
             /\ x = u "IngestDate")
            \/ exists c,
                 In c cols /\ json_getitem c (u "name") = Ok (JString x).
Proof.
  intros df sd E tsd header.
  assert (H0 : keeps_rows E) by apply world_keeps_rows.
  assert (H1 : generate_target_schema_config E (u "sales") (u "bronze") sd df
               = Ok tsd) by reflexivity.
  assert (H2 : In (u "DimOrders", header) tsd) by (left; reflexivity).
  split; [tauto|].
  exact (sort_and_partition_columns_are_columns E (u "sales") (u "bronze") sd
           df tsd (u "DimOrders") header H0 H1 H2).
Defined.

(** ** Pipelines and target tables *)

Lemma drop_duplicates_from_In (seen l : list (value * value)) x :
  In x (drop_duplicates_from seen l) -> In x l.
Proof.
  revert seen. induction l as [|y l IH]; simpl; intros seen H; [assumption|].
  destruct (existsb _ seen).
  - right. eapply IH; eassumption.
  - destruct H as [<-|H]; [now left|]. right. eapply IH; eassumption.
Qed.

(** In a column of strings, a string that is not empty is kept, cleansed. *)
Lemma cleanse_holds (l : list value) (s : str) :
  Forall (fun v => is_str v = true) l ->
  In (VStr s) l -> s <> [] ->
  In (strip (remove_invisible s)) (cleanse_column_list l).
Proof.
  intros Hall Hin Hne. apply all_strings in Hall as [ss ->].
  rewrite cleanse_strings, dedupe_In. apply in_map, in_map, filter_In.
  split.
  - apply in_map_iff in Hin as [s' [Heq Hs']]. now injection Heq as ->.
  - now apply negb_true_iff, eqb_neq.
Qed.

(** X22.  When every Target Table Name cell is a string, every table that
    [generate_pipeline_config] makes a pipeline for is one of the target
    tables of the run, the tables the target-tables artifact lists and the
    schemas and mappings are generated for. *)
Theorem pipeline_tables_are_target_tables (domain target : str)
  (df : DataFrame) (pcd : dict json) (tables : list str) :
  generate_pipeline_config domain target df = Ok pcd ->
  get_target_table_list df = Ok tables ->
  Forall (fun r => is_str (Target_Table_Name r) = true) (rows df) ->
  forall table, In table (keys pcd) -> In table tables.
Proof.
  intros H Htables Hall table Hin.
  apply reraise_Ok in H. bind_inv H pairs Hpairs.
  destruct (pipeline_loop target pairs [] pcd (NoDup_nil _) H)
    as [cleansed [Hc [_ [Hkeys _]]]].
  destruct (proj1 (Hkeys table) Hin) as [[]|Hin'].
  apply in_map_iff in Hin' as [[s t] [Heq Hst]]. simpl in Heq. subst t.
  apply mapM_In in Hc as [_ Hback].
  destruct (Hback _ Hst) as [[sv tv] [Hp Hpair]].
  unfold cleansed_pair in Hpair. cbn [fst snd] in Hpair.
  bind_inv Hpair s' Hs. bind_inv Hpair t' Ht. injection Hpair as _ ->.
  destruct tv as [x| | | |];
    try (rewrite cleanse_singleton_non_string in Ht by reflexivity;
         discriminate).
  rewrite cleanse_singleton in Ht.
  destruct (eqb x []) eqn:Hx; [discriminate|]. injection Ht as <-.
  apply eqb_neq in Hx.
  unfold pipeline_pairs in Hpairs.
  bind_inv Hpairs scol Hscol. bind_inv Hpairs tcol Htcol.
  injection Hpairs as <-.
  unfold dropna in Hp. apply filter_In in Hp as [Hp _].
  apply drop_duplicates_from_In, in_combine_r in Hp.
  unfold get_target_table_list in Htables. rewrite Htcol in Htables.
  cbn [bind] in Htables. injection Htables as <-.
  apply column_Ok in Htcol as [_ ->].
  apply cleanse_holds; [|now apply unique_In|assumption].
  apply Forall_forall. intros v Hv. apply (proj1 (unique_In _ _)) in Hv.
  apply in_map_iff in Hv as [r [<- Hr]].
  rewrite Forall_forall in Hall. now apply Hall.
Qed.

Lemma pipeline_tables_are_target_tables_witness :
  let df := PipelineExamples.two_targets in
  let pcd :=
    generated (generate_pipeline_config (u "sales") (u "bronze") df) in
  let tables := [u "DimOrders"; u "DimClients"] in
  (generate_pipeline_config (u "sales") (u "bronze") df = Ok pcd
   /\ get_target_table_list df = Ok tables
   /\ Forall (fun r => is_str (Target_Table_Name r) = true) (rows df))
  /\ forall table, In table (keys pcd) -> In table tables.
Proof.
  intros df pcd tables.
  assert (H1 : generate_pipeline_config (u "sales") (u "bronze") df = Ok pcd)
    by reflexivity.
  assert (H2 : get_target_table_list df = Ok tables) by reflexivity.
  assert (H3 : Forall (fun r => is_str (Target_Table_Name r) = true) (rows df))
    by (repeat constructor).
  split; [tauto|].
  exact (pipeline_tables_are_target_tables (u "sales") (u "bronze") df pcd
           tables H1 H2 H3).
Defined.

(** ** Target schemas and mappings *)

(** Both generators read the type of the first column of the source schema
    that has the name of the source column. *)
Lemma first_matching_type (source_column_name : str) (items : list json) :
  forall matching col type types type',
    filterM (fun col =>
               name <- json_getitem col (u "name") ;;
               Ok (json_eq_str name source_column_name))
            items
    = Ok matching ->
    first matching = Ok col ->
    json_getitem col (u "type") = Ok type ->
    types_of_matching source_column_name items = Ok types ->
    first types = Ok type' ->
    type = type'.
Proof.
  induction items as [|c items IH];
    intros matching col type types type' Hm Hcol Htype Hts Hfirst.
  - simpl in Hm. injection Hm as <-. discriminate.
  - cbn [filterM types_of_matching] in Hm, Hts.
    bind_inv Hm b Hb. bind_inv Hm rest Hrest. injection Hm as <-.
    bind_inv Hb name Hname. injection Hb as <-.
    rewrite Hname in Hts. cbn [bind] in Hts.
    destruct (json_eq_str name source_column_name).
    + injection Hcol as <-. rewrite Htype in Hts. cbn [bind] in Hts.
      bind_inv Hts more Hmore. injection Hts as <-.
      now injection Hfirst.
    + eapply IH; eassumption.
Qed.

(** X23.  For a row that has a source table and a source column, the
    target schema and the mapping give the target column the same type,
    provided the schema generation works from the schema of the row's
    cleansed source table; they give it the same name when the target
    column holds none of the invisible characters, which the schema
    generation removes and the mapping generation keeps. *)
Theorem schema_and_mapping_types_agree (E : Externals) (sd : dict json)
  (df tdf mdf : DataFrame) (schema : json) (r : MappingRow)
  (source_table target_column : str) (cs cm : json) :
  Source_Table_Name r = VStr source_table ->
  Target_Column_Name r = VStr target_column ->
  nonblank_str (Source_Column_Name r) && nonblank_str (Source_Table_Name r)
  = true ->
  get (strip (remove_invisible source_table)) sd = Some schema ->
  target_column_schema_of_row df tdf schema r = Ok cs ->
  column_mapping_of_row E sd mdf r = Ok (Some cm) ->
  json_getitem cs (u "type") = json_getitem cm (u "type")
  /\ (remove_invisible target_column = target_column ->
      json_getitem cs (u "name") = json_getitem cm (u "name")).
Proof.
  intros Hst Htc Hsource Hschema Hcs Hcm.
  (* the schema side *)
  unfold target_column_schema_of_row in Hcs.
  do 4 (let x := fresh "ok" in let Hx := fresh "Hok" in bind_inv Hcs x Hx).
  bind_inv Hcs tc Htcell. bind_inv Hcs target_name Htn.
  bind_inv Hcs sc Hsc. unfold row_get in Htcell, Hsc.
  destruct (has_column tdf TargetColumnName); [|discriminate].
  destruct (has_column tdf SourceColumnName); [|discriminate].
  injection Htcell as <-. injection Hsc as <-. cbn [cell] in *.
  apply andb_prop in Hsource as [Hnsc Hnst].
  destruct (Source_Column_Name r) as [source_column| | | |] eqn:Hscn;
    try discriminate.
  cbn [isna] in Hcs.
  bind_inv Hcs source_name Hsn. bind_inv Hcs schema_columns Hcols.
  bind_inv Hcs items Hitems. bind_inv Hcs matching Hmatch.
  bind_inv Hcs source_col Hfirst. bind_inv Hcs source_type Htype.
  bind_inv Hcs type Hty. injection Hcs as <-.
  (* the mapping side *)
  unfold column_mapping_of_row, row_get in Hcm. cbn [cell] in Hcm.
  rewrite Htc, Hst, Hscn in Hcm.
  destruct (has_column mdf TargetColumnName); [|discriminate].
  destruct (has_column mdf SourceColumnName); [|discriminate].
  destruct (has_column mdf SourceTableName); [|discriminate].
  cbn [bind] in Hcm.
  destruct (declared_data_type_Ok mdf r) as [declared Hdeclared].
  rewrite Hdeclared in Hcm. cbn [bind] in Hcm.
  rewrite Hst in Hnst. rewrite Hnsc, Hnst in Hcm. cbn [andb] in Hcm.
  rewrite Hsn in Hcm. cbn [bind] in Hcm.
  rewrite cleanse_singleton in Hcm.
  destruct (eqb source_table []) eqn:Hempty.
  { apply eqb_eq in Hempty. subst. discriminate. }
  cbn [first bind] in Hcm. rewrite Hschema in Hcm.
  destruct schema as [| | | | | |m]; try discriminate.
  unfold json_getitem, getitem in Hcols. cbn [json_get] in Hcm.
  destruct (get (u "columns") m) as [found|]; [|discriminate].
  injection Hcols as ->. cbn [bind] in Hcm. rewrite Hitems in Hcm.
  cbn [bind] in Hcm.
  bind_inv Hcm types Htypes. bind_inv Hcm source_type' Hfirst'.
  bind_inv Hcm type' Hty'. injection Hcm as <-.
  assert (source_type = source_type')
    by (eapply first_matching_type; eassumption).
  subst source_type'. assert (type' = type) by congruence. subst type'.
  split; [reflexivity|].
  intros Hvisible. rewrite Htc, cleanse_singleton in Htn.
  destruct (eqb target_column []); [discriminate|].
  injection Htn as <-. rewrite Hvisible. reflexivity.
Qed.

Lemma schema_and_mapping_types_agree_witness :
  let df := SchemaExamples.orders in
  let sd := MappingExamples.orders_schema in
  let E := Example.world df Example.orders_catalogue [] in
  let tdf := table_frame df (u "DimOrders") in
  let schema :=
    JObject
      [(u "domain", JString (u "sales"));
       (u "table_name", JString (u "ORDERS"));
       (u "columns",
         JArray (map JObject [Example.catalogue_column "id" "int";
                              Example.catalogue_column "name" "varchar"]))] in
  let r :=
    SchemaExamples.ordered_row (Example.txt "ORDERS") (Example.txt "id")
      (Example.txt "DimOrders") (Example.txt "OrderId") (VInt 2) (VInt 1)
      VNaN in
  let cs := Example.audit_column "OrderId" "integer" in
  let cm :=
    column_mapping_dict (u "OrderId") (u "integer")
      (JObject [(u "name", JString (u "id"));
                (u "type", JString (u "integer"))]) in
  (Source_Table_Name r = VStr (u "ORDERS")
   /\ Target_Column_Name r = VStr (u "OrderId")
   /\ nonblank_str (Source_Column_Name r)
      && nonblank_str (Source_Table_Name r) = true
   /\ get (strip (remove_invisible (u "ORDERS"))) sd = Some schema
   /\ target_column_schema_of_row df tdf schema r = Ok cs
   /\ column_mapping_of_row E sd tdf r = Ok (Some cm))
  /\ json_getitem cs (u "type") = json_getitem cm (u "type")
  /\ (remove_invisible (u "OrderId") = u "OrderId" ->
      json_getitem cs (u "name") = json_getitem cm (u "name")).
Proof.
  intros df sd E tdf schema r cs cm.
  assert (H1 : Source_Table_Name r = VStr (u "ORDERS")) by reflexivity.
  assert (H2 : Target_Column_Name r = VStr (u "OrderId")) by reflexivity.
  assert (H3 : nonblank_str (Source_Column_Name r)
               && nonblank_str (Source_Table_Name r) = true) by reflexivity.
  assert (H4 : get (strip (remove_invisible (u "ORDERS"))) sd = Some schema)
    by reflexivity.
  assert (H5 : target_column_schema_of_row df tdf schema r = Ok cs)
    by reflexivity.
  assert (H6 : column_mapping_of_row E sd tdf r = Ok (Some cm))
    by reflexivity.
  split; [tauto|].
  exact (schema_and_mapping_types_agree E sd df tdf tdf schema r (u "ORDERS")
           (u "OrderId") cs cm H1 H2 H3 H4 H5 H6).
Defined.

(** X24.  For a row without a source column, both generators take the type
    from the Data Type cell, but not the same way: the target schema maps
    the cell as it is, the mapping strips it first.  The two types are the
    same when the cell is not a string or has no white space around it;
    otherwise they can differ, as for [" int"], which the schema types
    string and the mapping integer. *)
Theorem declared_type_in_schema_and_mapping (E : Externals) (sd : dict json)
  (df tdf mdf : DataFrame) (schema : json) (r : MappingRow) (cs cm : json) :
  isna (Source_Column_Name r) = true ->
  has_column mdf DataType = true ->
  target_column_schema_of_row df tdf schema r = Ok cs ->
  column_mapping_of_row E sd mdf r = Ok (Some cm) ->
  json_getitem cs (u "type")
  = Ok (JString (datatype_of_value (Data_Type r)))
  /\ json_getitem cm (u "type")
     = Ok (JString
             (datatype_of_value (stripped_cell (Data_Type r))))
  /\ ((forall s, Data_Type r = VStr s -> strip s = s) ->
      json_getitem cs (u "type") = json_getitem cm (u "type")).
Proof.
  intros Hna Hdt Hcs Hcm.
  apply target_column_type in Hcs as [name [type [_ [-> Htype]]]].
  rewrite Hna in Htype. subst type.
  unfold column_mapping_of_row, row_get in Hcm. cbn [cell] in Hcm.
  bind_inv Hcm tc Htc. bind_inv Hcm target_name Htn. bind_inv Hcm sc Hsc.
  bind_inv Hcm st Hst. bind_inv Hcm declared Hdeclared.
  destruct (has_column mdf SourceColumnName); [|discriminate].
  injection Hsc as <-.
  assert (Hblank : nonblank_str (Source_Column_Name r) = false)
    by (destruct (Source_Column_Name r); try reflexivity; discriminate).
  rewrite Hblank in Hcm. cbn [andb] in Hcm.
  unfold declared_data_type, row_get in Hdeclared. rewrite Hdt in Hdeclared.
  cbn [bind cell] in Hdeclared. injection Hdeclared as <-.
  assert (Hstrip : match Data_Type r with
                   | VStr s => VStr (strip s)
                   | _ => Data_Type r
                   end = stripped_cell (Data_Type r))
    by (destruct (Data_Type r); reflexivity).
  rewrite Hstrip in Hcm. clear Hstrip.
  assert (Hshape : exists source,
             cm = column_mapping_dict target_name
                    (datatype_of_value (stripped_cell (Data_Type r))) source).
  { destruct (has_column mdf TransformationFunction).
    - bind_inv Hcm tf Htf.
      destruct tf as [[|ch text]| | | |];
        try (injection Hcm as <-; eexists; reflexivity).
      destruct (json_loads E (ch :: text)) as [parsed|]; [|discriminate].
      bind_inv Hcm source_dict Hsd. injection Hcm as <-. eauto.
    - injection Hcm as <-. eauto. }
  destruct Hshape as [source ->].
  split; [reflexivity|]. split; [reflexivity|].
  intros Hstripped.
  destruct (Data_Type r) as [s| | | |]; try reflexivity.
  cbn [stripped_cell]. now rewrite (Hstripped s eq_refl).
Qed.

Lemma declared_type_in_schema_and_mapping_witness :
  let r := RunExamples.padded_type_row in
  let df :=
    {| columns := Example.all_headers;
       rows := [MappingExamples.order_id (Example.txt "Y"); r] |} in
  let sd := MappingExamples.orders_schema in
  let E := Example.world df Example.orders_catalogue [] in
  let tdf := table_frame df (u "DimOrders") in
  let cs := Example.audit_column "LoadedBy" "string" in
  let cm := column_mapping_dict (u "LoadedBy") (u "integer") (JObject []) in
  (isna (Source_Column_Name r) = true
   /\ has_column tdf DataType = true
   /\ target_column_schema_of_row df tdf (JObject []) r = Ok cs
   /\ column_mapping_of_row E sd tdf r = Ok (Some cm))
  /\ json_getitem cs (u "type")
     = Ok (JString (datatype_of_value (Data_Type r)))
  /\ json_getitem cm (u "type")
     = Ok (JString
             (datatype_of_value (stripped_cell (Data_Type r))))
  /\ ((forall s, Data_Type r = VStr s -> strip s = s) ->
      json_getitem cs (u "type") = json_getitem cm (u "type")).
Proof.
  intros r df sd E tdf cs cm.
  assert (H1 : isna (Source_Column_Name r) = true) by reflexivity.
  assert (H2 : has_column tdf DataType = true) by reflexivity.
  assert (H3 : target_column_schema_of_row df tdf (JObject []) r = Ok cs)
    by reflexivity.
  assert (H4 : column_mapping_of_row E sd tdf r = Ok (Some cm))
    by reflexivity.
  split; [tauto|].
  exact (declared_type_in_schema_and_mapping E sd df tdf tdf (JObject []) r
           cs cm H1 H2 H3 H4).
Defined.

(** ** When a run succeeds *)

Lemma io_bind_Ok {A B} (c : io A) (f : A -> io B) fs a fs1 :
  c fs = (Ok a, fs1) -> io_bind c f fs = f a fs1.
Proof. intros H. unfold io_bind. now rewrite H. Qed.

Lemma write_config_file_writable (E : Externals)
  (domain target name : str) (content : json) (fs : files) :
  writable E ->
  write_config_file E domain target name content fs
  = (Ok tt, fs ++ stored domain target [(name, content)]).
Proof.
  intros [Hdirs Hopen]. unfold write_config_file.
  rewrite Hdirs, Hopen. reflexivity.
Qed.

Lemma write_each_writable {A} (domain target : str) (body : A -> io str)
  (l : list A) (written : list (str * json)) :
  Forall2
    (fun x file =>
       forall fs, body x fs = (Ok (fst file), fs ++ stored domain target [file]))
    l written ->
  forall acc fs,
    write_each l body acc fs
    = (Ok (acc ++ map fst written), fs ++ stored domain target written).
Proof.
  induction 1 as [|x file l written Hx _ IH]; intros acc fs; simpl.
  - unfold io_ret, stored. simpl. now rewrite !app_nil_r.
  - rewrite (io_bind_Ok _ _ _ _ _ (Hx fs)). rewrite IH.
    unfold stored. simpl. now rewrite <- !app_assoc.
Qed.

Lemma write_named_writable (E : Externals) (domain target : str)
  (kind : string) (d : dict json) :
  writable E ->
  Forall2
    (fun item file =>
       forall fs,
         io_bind
           (write_config_file E domain target
              (target ++ u kind ++ fst item ++ u ".json") (snd item))
           (fun _ => io_ret (target ++ u kind ++ fst item ++ u ".json")) fs
         = (Ok (fst file), fs ++ stored domain target [file]))
    d (map (named target kind) d).
Proof.
  intros Hw. induction d as [|item d IH]; simpl; constructor; [|assumption].
  intros fs.
  rewrite (io_bind_Ok _ _ _ _ _ (write_config_file_writable _ _ _ _ _ _ Hw)).
  reflexivity.
Qed.

Lemma write_source_schema_writable (E : Externals) (domain target : str)
  (df : DataFrame) (item file : str * json) :
  writable E ->
  source_schema_artifact E target df item = Ok file ->
  forall fs,
    write_source_schema E domain target df item fs
    = (Ok (fst file), fs ++ stored domain target [file]).
Proof.
  intros Hw H fs. destruct item as [source_table schema].
  unfold write_source_schema, source_schema_artifact, io_bind, lift in *.
  destruct (bind (where_eq df SourceTableName source_table) _) as [tn|e];
    [|discriminate].
  cbn [bind] in H.
  destruct (getitem TARGET_SOURCE_AREA_MAP target) as [area|e];
    [|discriminate].
  cbn [bind] in H.
  match type of H with
  | bind ?c _ = _ => destruct c as [content|e]; [|discriminate]
  end.
  cbn [bind] in H. injection H as <-.
  rewrite (write_config_file_writable _ _ _ _ _ _ Hw). reflexivity.
Qed.

Lemma mapping_config_entries_hold (E : Externals) (domain target : str)
  (sd : dict json) (df : DataFrame) mcd :
  generate_mapping_config E domain target sd df = Ok mcd ->
  forall table header, In (table, header) mcd -> json_falsy header = false.
Proof.
  intros H. unfold generate_mapping_config in H. bind_inv H col Hcol.
  revert H. apply foldM_set_invariant; [|intros k v []].
  intros acc k acc' Hstep.
  bind_inv Hstep area Harea. bind_inv Hstep cols Hcols.
  destruct (set k _ acc) eqn:Hset; [discriminate|].
  destruct cols; [discriminate|].
  injection Hstep as <-. rewrite <- Hset. eexists. split; [|reflexivity].
  reflexivity.
Qed.

(** X25.  When the file system accepts every write, a run of
    [process_mapping_file] succeeds as soon as its five generators do: it
    returns the names of the target-tables file, the source-schema files, the
    target-schema files, the pipeline files and the mapping files, in this
    order, and has written each of them with what its generator returned.
    In particular the test for an empty mapping before a mapping file is
    written never fires. *)
Theorem run_succeeds_when_generation_does (E : Externals)
  (mode domain target : str) (df : DataFrame) (sd : dict json) (fs : files)
  (ttd : json) (source_files : list (str * json)) (tsd pcd mcd : dict json) :
  writable E ->
  generate_target_table_config target df = Ok ttd ->
  mapM (source_schema_artifact E target df) sd = Ok source_files ->
  generate_target_schema_config E domain target sd df = Ok tsd ->
  generate_pipeline_config domain target df = Ok pcd ->
  generate_mapping_config E domain target sd df = Ok mcd ->
  let written :=
    (artifact_name target "_target_tables_" domain, ttd)
      :: source_files
      ++ map (named target "_schema_") tsd
      ++ map (named target "_pipeline_") pcd
      ++ map (named target "_map_") mcd in
  process_mapping_file E mode domain target df sd fs
  = (Ok (map fst written), fs ++ stored domain target written).
Proof.
  intros Hw Httd Hsrc Htsd Hpcd Hmcd written.
  unfold process_mapping_file, io_reraise.
  erewrite io_bind_Ok by (unfold lift; rewrite Httd; reflexivity).
  erewrite io_bind_Ok by (apply write_config_file_writable; exact Hw).
  erewrite io_bind_Ok.
  2:{ apply write_each_writable with (written := source_files).
      apply mapM_Forall2 in Hsrc. revert Hsrc. apply Forall2_weaken.
      intros item file Hitem. now apply write_source_schema_writable. }
  erewrite io_bind_Ok by (unfold lift; rewrite Htsd; reflexivity).
  erewrite io_bind_Ok.
  2:{ apply write_each_writable, (write_named_writable E domain target
                                    "_schema_" tsd Hw). }
  erewrite io_bind_Ok by (unfold lift; rewrite Hpcd; reflexivity).
  erewrite io_bind_Ok.
  2:{ apply write_each_writable, (write_named_writable E domain target
                                    "_pipeline_" pcd Hw). }
  erewrite io_bind_Ok by (unfold lift; rewrite Hmcd; reflexivity).
  rewrite (write_each_writable domain target _ mcd
             (map (named target "_map_") mcd)).
  - cbn [reraise]. unfold written, stored. cbn [map fst app].
    rewrite !map_app, <- !app_assoc. reflexivity.
  - assert (Hfull : forall item, In item mcd -> json_falsy (snd item) = false).
    { intros [table header] Hin.
      exact (mapping_config_entries_hold _ _ _ _ _ _ Hmcd _ _ Hin). }
    clear - Hw Hfull. induction mcd as [|item mcd IH]; simpl; constructor.
    + intros fs. rewrite (Hfull item (or_introl eq_refl)).
      rewrite (io_bind_Ok _ _ _ _ _
                 (write_config_file_writable _ _ _ _ _ _ Hw)).
      reflexivity.
    + apply IH. intros x Hx. apply Hfull. now right.
Qed.

Lemma run_succeeds_when_generation_does_witness :
  let df := MappingExamples.keyed in
  let sd := MappingExamples.orders_schema in
  let E := Example.world df Example.orders_catalogue [] in
  let ttd :=
    JObject
      [(u "action", JString (u "ingest"));
       (u "target_data_area", JString (u "bronze"));
       (u "config_storage_account", JString (u "mintetl[env]configeus"));
       (u "key_vault_name", JString (u "mintetl[env]keyvaulteus"));
       (u "target_table_list", JArray [JString (u "DimOrders")])] in
  let source_files :=
    [(u "landing-zone_schema_DimOrders.json",
      JObject
        [(u "domain", JString (u "sales"));
         (u "table_name", JString (u "ORDERS"));
         (u "columns",
           JArray (map JObject [Example.catalogue_column "id" "string";
                                Example.catalogue_column "name" "string"]))])] in
  let tsd :=
    generated (generate_target_schema_config E (u "sales") (u "bronze") sd df) in
  let pcd := generated (generate_pipeline_config (u "sales") (u "bronze") df) in
  let mcd :=
    generated (generate_mapping_config E (u "sales") (u "bronze") sd df) in
  let written :=
    (artifact_name (u "bronze") "_target_tables_" (u "sales"), ttd)
      :: source_files
      ++ map (named (u "bronze") "_schema_") tsd
      ++ map (named (u "bronze") "_pipeline_") pcd
      ++ map (named (u "bronze") "_map_") mcd in
  (writable E
   /\ generate_target_table_config (u "bronze") df = Ok ttd
   /\ mapM (source_schema_artifact E (u "bronze") df) sd = Ok source_files
   /\ generate_target_schema_config E (u "sales") (u "bronze") sd df = Ok tsd
   /\ generate_pipeline_config (u "sales") (u "bronze") df = Ok pcd
   /\ generate_mapping_config E (u "sales") (u "bronze") sd df = Ok mcd)
  /\ process_mapping_file E (u "debug") (u "sales") (u "bronze") df sd []
     = (Ok (map fst written), [] ++ stored (u "sales") (u "bronze") written).
Proof.
  intros df sd E ttd source_files tsd pcd mcd written.
  assert (H0 : writable E) by (split; intros p; reflexivity).
  assert (H1 : generate_target_table_config (u "bronze") df = Ok ttd)
    by reflexivity.
  assert (H2 : mapM (source_schema_artifact E (u "bronze") df) sd
               = Ok source_files) by reflexivity.
  assert (H3 : generate_target_schema_config E (u "sales") (u "bronze") sd df
               = Ok tsd) by reflexivity.
  assert (H4 : generate_pipeline_config (u "sales") (u "bronze") df = Ok pcd)
    by reflexivity.
  assert (H5 : generate_mapping_config E (u "sales") (u "bronze") sd df
               = Ok mcd) by reflexivity.
  split; [tauto|].
  exact (run_succeeds_when_generation_does E (u "debug") (u "sales")
           (u "bronze") df sd [] ttd source_files tsd pcd mcd
           H0 H1 H2 H3 H4 H5).
Defined.
